(** * Check plugins: CloudWatch Logs, NTP offset, MySQL

    A shallow embedding of three monitoring check plugins written in Go
    ([check-cloudwatch-logs], [check-ntpoffset], [check-mysql]) and the
    properties of their query, parsing and threshold logic.

    Conventions of the embedding:
    - a Go [string] is a Rocq [string]: a sequence of bytes;
    - a Go [int] is a [Z] (no arithmetic of these programs can overflow
      except inside [strconv.Atoi], where the 64-bit range is written out);
    - a Go [float64] is a [spec_float] at precision 53 and maximal
      exponent 1024, with the IEEE-754 operations of [SpecFloat];
    - a Go [error] is represented by the text its [Error()] method returns,
      [nil] by [None];
    - a Go function returning [(v, err)] returns a Rocq pair;
    - [os.Exit] and run-time panics end a computation: see [outcome]. *)

From Stdlib Require Import ZArith NArith List String Ascii Bool Lia.
From Stdlib Require Import SpecFloat DecimalString Permutation.
From Stdlib Require DecimalN.
From stdpp Require Import gmap strings.

Import ListNotations.
Local Open Scope string_scope.
Local Open Scope Z_scope.

(** ** Bytes and small helpers *)

Definition byte (n : nat) : ascii := ascii_of_nat n.
Definition code (c : ascii) : Z := Z.of_nat (nat_of_ascii c).

Definition LF : string := String (byte 10) EmptyString.
Definition len (s : string) : Z := Z.of_nat (String.length s).

Fixpoint rev_string (acc s : string) : string :=
  match s with
  | EmptyString => acc
  | String c s' => rev_string (String c acc) s'
  end.

(** The number of occurrences of a byte. *)
Fixpoint count (c : ascii) (s : string) : nat :=
  match s with
  | EmptyString => 0%nat
  | String d s' => if Ascii.eqb d c then S (count c s') else count c s'
  end.

Definition sep1 (c : ascii) : string := String c EmptyString.

Definition error := string.

(** Control outcomes of a Go function: it returns, the process exits through
    [os.Exit], or the goroutine panics. *)
Inductive outcome (A : Type) : Type :=
| Return (a : A)
| Exit (status : Z)
| Panic (msg : string).
Arguments Return {A} a.
Arguments Exit {A} status.
Arguments Panic {A} msg.

Definition bind {A B} (m : outcome A) (k : A -> outcome B) : outcome B :=
  match m with
  | Return a => k a
  | Exit n => Exit n
  | Panic msg => Panic msg
  end.

Notation "'let*' x ':=' m 'in' k" := (bind m (fun x => k))
  (at level 10, x pattern, m at level 200, k at level 200).

(** Indexing a slice: [xs[i]] panics when [i] is out of range. *)
Definition index {A} (xs : list A) (i : nat) : outcome A :=
  match nth_error xs i with
  | Some x => Return x
  | None => Panic "runtime error: index out of range"
  end.

(** ** Package [strings] *)
Module gostrings.

Fixpoint HasPrefix (s prefix : string) : bool :=
  match prefix, s with
  | EmptyString, _ => true
  | String p prefix', String c s' => Ascii.eqb c p && HasPrefix s' prefix'
  | String _ _, EmptyString => false
  end.

Definition HasSuffix (s suffix : string) : bool :=
  HasPrefix (rev_string EmptyString s) (rev_string EmptyString suffix).

(** [Index] is the byte offset of the first occurrence, [-1] when absent. *)
Fixpoint Index (s substr : string) : Z :=
  if HasPrefix s substr then 0
  else match s with
       | EmptyString => -1
       | String _ s' => let i := Index s' substr in if i <? 0 then -1 else i + 1
       end.

(** [Split s sep] for a non-empty [sep] (every separator of these programs is
    one byte): the pieces between successive non-overlapping occurrences
    of [sep], always at least one piece.  [skip] counts the bytes of a
    matched separator still to be passed over. *)
Fixpoint split_go (sep : string) (skip : nat) (s : string) : list string :=
  match s with
  | EmptyString => [EmptyString]
  | String c s' =>
      match skip with
      | S k => split_go sep k s'
      | O =>
          if HasPrefix s sep
          then EmptyString :: split_go sep (Nat.pred (String.length sep)) s'
          else match split_go sep 0 s' with
               | piece :: pieces => String c piece :: pieces
               | [] => [String c EmptyString]
               end
      end
  end.

Definition Split (s sep : string) : list string := split_go sep 0 s.

Fixpoint mem (c : ascii) (cutset : string) : bool :=
  match cutset with
  | EmptyString => false
  | String d cutset' => Ascii.eqb c d || mem c cutset'
  end.

Fixpoint TrimLeft (s cutset : string) : string :=
  match s with
  | EmptyString => EmptyString
  | String c s' => if mem c cutset then TrimLeft s' cutset else s
  end.

Definition TrimRight (s cutset : string) : string :=
  rev_string EmptyString (TrimLeft (rev_string EmptyString s) cutset).

(** [Trim] with a cutset of ASCII bytes (here always a line feed). *)
Definition Trim (s cutset : string) : string :=
  TrimRight (TrimLeft s cutset) cutset.

(** White space as [unicode.IsSpace] sees it in a UTF-8 byte string: the
    width in bytes of the space character at the head of [s], [0] when
    there is none.  The multi-byte spaces are U+0085, U+00A0, U+1680,
    U+2000..U+200A, U+2028, U+2029, U+202F, U+205F and U+3000. *)
Definition spaceWidth (s : string) : nat :=
  match s with
  | EmptyString => 0%nat
  | String c s1 =>
      let a := code c in
      if (a =? 9) || (a =? 10) || (a =? 11) || (a =? 12) || (a =? 13) || (a =? 32)
      then 1%nat
      else match s1 with
           | EmptyString => 0%nat
           | String c1 s2 =>
               let b := code c1 in
               if (a =? 194) && ((b =? 133) || (b =? 160)) then 2%nat
               else match s2 with
                    | EmptyString => 0%nat
                    | String c2 _ =>
                        let d := code c2 in
                        if (a =? 225) && (b =? 154) && (d =? 128) then 3%nat
                        else if (a =? 226) && (b =? 128)
                                && (((128 <=? d) && (d <=? 138))
                                    || (d =? 168) || (d =? 169) || (d =? 175))
                             then 3%nat
                        else if (a =? 226) && (b =? 129) && (d =? 159) then 3%nat
                        else if (a =? 227) && (b =? 128) && (d =? 128) then 3%nat
                        else 0%nat
                    end
           end
  end.

(** Each byte with the flag "belongs to a white-space character". *)
Fixpoint markSpace (skip : nat) (s : string) : list (ascii * bool) :=
  match s with
  | EmptyString => []
  | String c s' =>
      match skip with
      | S k => (c, true) :: markSpace k s'
      | O => match spaceWidth s with
             | O => (c, false) :: markSpace 0 s'
             | S k => (c, true) :: markSpace k s'
             end
      end
  end.

(** Group the unflagged bytes into maximal runs; [cur] is the run being
    read, in reverse, [None] between two fields. *)
Fixpoint fields_go (cur : option string) (bs : list (ascii * bool)) : list string :=
  match bs with
  | [] => match cur with
          | Some f => [rev_string EmptyString f]
          | None => []
          end
  | (c, true) :: bs' =>
      match cur with
      | Some f => rev_string EmptyString f :: fields_go None bs'
      | None => fields_go None bs'
      end
  | (c, false) :: bs' =>
      match cur with
      | Some f => fields_go (Some (String c f)) bs'
      | None => fields_go (Some (String c EmptyString)) bs'
      end
  end.

Definition Fields (s : string) : list string := fields_go None (markSpace 0 s).

Fixpoint Join (elems : list string) (sep : string) : string :=
  match elems with
  | [] => EmptyString
  | [e] => e
  | e :: elems' => e ++ sep ++ Join elems' sep
  end.

(** [ToUpper] on ASCII letters (the only text these programs pass it is
    the first byte of a registered subcommand name). *)
Definition upper (c : ascii) : ascii :=
  let a := code c in
  if (97 <=? a) && (a <=? 122) then byte (Z.to_nat (a - 32)) else c.

Fixpoint ToUpper (s : string) : string :=
  match s with
  | EmptyString => EmptyString
  | String c s' => String (upper c) (ToUpper s')
  end.

End gostrings.

(** ** [float64] *)

Definition float64 := spec_float.

Module float.
Definition prec : Z := 53.
Definition emax : Z := 1024.

(** The correctly rounded (to nearest, ties to even) value of an integer
    times a power of two, and of a quotient of two positive integers. *)
Definition of_Z_pow2 (neg : bool) (m e : Z) : float64 :=
  match m with
  | Zpos p => binary_round prec emax neg p e
  | _ => S754_zero neg
  end.

Definition of_quotient (neg : bool) (num den : Z) : float64 :=
  match num with
  | Zpos _ =>
      let '(q, e, l) := SFdiv_core_binary prec emax num 0 den 0 in
      binary_round_aux prec emax neg q e l
  | _ => S754_zero neg
  end.

Definition of_Z (n : Z) : float64 := of_Z_pow2 (n <? 0) (Z.abs n) 0.

Definition ltb (x y : float64) : bool := SFltb x y.
Definition leb (x y : float64) : bool := SFleb x y.
Definition mul (x y : float64) : float64 := SFmul prec emax x y.
(** [math.Abs] *)
Definition Abs (x : float64) : float64 := SFabs x.
Definition zero : float64 := S754_zero false.
End float.

(** ** Package [strconv] *)
Module strconv.

Definition isDigit (c : ascii) : bool := (48 <=? code c) && (code c <=? 57).
Definition digit (c : ascii) : Z := code c - 48.
(** [lower(c)] of the package: [c | ('x' - 'X')]. *)
Definition lower (c : ascii) : ascii := byte (Z.to_nat (Z.lor (code c) 32)).

Definition hexDigit (n : Z) : ascii :=
  byte (Z.to_nat (if n <? 10 then 48 + n else 87 + n)).

(** [Quote] goes through the text rune by rune.  An ASCII byte: the
    printable ones are kept apart from the quote and the backslash, the
    control bytes are escaped.  From 128 on the text is decoded as UTF-8: a
    byte that begins no valid encoding is written [\xhh]; a rune up to
    U+00FF is kept when [IsPrint] holds of it (U+00A1 to U+00FF but for
    U+00AD) and written [\u00hh] when not; a rune above U+00FF is kept.
    (For those Go consults the Unicode tables of its version and writes the
    runes they do not list as printable as [\u] or [\U] escapes; the
    tables are not part of this model.) *)
Definition quoteByte (c : ascii) : string :=
  let a := code c in
  let bs := String (byte 92) EmptyString in
  if a =? 34 then bs ++ String c EmptyString
  else if a =? 92 then bs ++ bs
  else if a =? 7 then bs ++ "a"
  else if a =? 8 then bs ++ "b"
  else if a =? 12 then bs ++ "f"
  else if a =? 10 then bs ++ "n"
  else if a =? 13 then bs ++ "r"
  else if a =? 9 then bs ++ "t"
  else if a =? 11 then bs ++ "v"
  else if (a <? 32) || (a =? 127)
       then bs ++ "x" ++ String (hexDigit (a / 16)) (String (hexDigit (a mod 16)) EmptyString)
  else String c EmptyString.

(** Whether [lo <= c <= hi]. *)
Definition between (lo hi : Z) (c : ascii) : bool := (lo <=? code c) && (code c <=? hi).

(** [utf8.DecodeRuneInString]: the width in bytes of the encoding the text
    begins with, [0] when it begins with no valid encoding (Go then reads
    one byte as [RuneError]).  Overlong forms, surrogates and values above
    U+10FFFF are not valid. *)
Definition runeWidth (s : string) : nat :=
  match s with
  | EmptyString => 0%nat
  | String c0 s1 =>
      let a := code c0 in
      if a <? 128 then 1%nat
      else if (194 <=? a) && (a <=? 223) then
        match s1 with
        | String c1 _ => if between 128 191 c1 then 2%nat else 0%nat
        | _ => 0%nat
        end
      else if (224 <=? a) && (a <=? 239) then
        match s1 with
        | String c1 (String c2 _) =>
            if between (if a =? 224 then 160 else 128) (if a =? 237 then 159 else 191) c1
               && between 128 191 c2
            then 3%nat else 0%nat
        | _ => 0%nat
        end
      else if (240 <=? a) && (a <=? 244) then
        match s1 with
        | String c1 (String c2 (String c3 _)) =>
            if between (if a =? 240 then 144 else 128) (if a =? 244 then 143 else 191) c1
               && between 128 191 c2 && between 128 191 c3
            then 4%nat else 0%nat
        | _ => 0%nat
        end
      else 0%nat
  end.

(** [\xhh] for a byte, [\u00hh] for a rune up to U+00FF. *)
Definition hexByte (a : Z) : string :=
  String (hexDigit (a / 16)) (String (hexDigit (a mod 16)) EmptyString).

Fixpoint quoteBody (s : string) : string :=
  match s with
  | EmptyString => EmptyString
  | String c s' =>
      if code c <? 128 then quoteByte c ++ quoteBody s'
      else
        let invalid := String (byte 92) ("x" ++ hexByte (code c)) ++ quoteBody s' in
        match runeWidth s, s' with
        | 2%nat, String c1 s2 =>
            let r := (code c - 192) * 64 + (code c1 - 128) in
            if (r <=? 255) && negb ((161 <=? r) && negb (r =? 173))
            then String (byte 92) ("u00" ++ hexByte r) ++ quoteBody s2
            else String c (String c1 (quoteBody s2))
        | 3%nat, String c1 (String c2 s3) =>
            String c (String c1 (String c2 (quoteBody s3)))
        | 4%nat, String c1 (String c2 (String c3 s4)) =>
            String c (String c1 (String c2 (String c3 (quoteBody s4))))
        | _, _ => invalid
        end
  end.

Definition Quote (s : string) : string :=
  String (byte 34) (quoteBody s ++ String (byte 34) EmptyString).

Definition ErrSyntax : error := "invalid syntax".
Definition ErrRange : error := "value out of range".

(** The text of a [NumError]. *)
Definition NumError (Func Num : string) (Err : error) : error :=
  "strconv." ++ Func ++ ": parsing " ++ Quote Num ++ ": " ++ Err.

Definition syntaxError (fn str : string) : error := NumError fn str ErrSyntax.
Definition rangeError (fn str : string) : error := NumError fn str ErrRange.

(** *** [Atoi] (base 10, 64-bit [int]) *)

Definition maxUint64 : Z := 2 ^ 64 - 1.
Definition maxInt64 : Z := 2 ^ 63 - 1.
Definition minInt64 : Z := - 2 ^ 63.

Inductive scan := ScanOK (n : Z) | ScanSyntax | ScanRange.

(** The digit loop of [ParseUint]: the first offending byte decides
    between a syntax error and an overflow of the unsigned accumulator. *)
Fixpoint parseUint_go (n : Z) (s : string) : scan :=
  match s with
  | EmptyString => ScanOK n
  | String c s' =>
      if isDigit c then
        if n >=? maxUint64 / 10 + 1 then ScanRange
        else let n1 := n * 10 + digit c in
             if n1 >? maxUint64 then ScanRange else parseUint_go n1 s'
      else ScanSyntax
  end.

Definition Atoi (s : string) : Z * option error :=
  match s with
  | EmptyString => (0, Some (syntaxError "Atoi" s))
  | String c s' =>
      let neg := Ascii.eqb c "-" in
      let body := if neg || Ascii.eqb c "+" then s' else s in
      match body with
      | EmptyString => (0, Some (syntaxError "Atoi" s))
      | _ =>
          match parseUint_go 0 body with
          | ScanSyntax => (0, Some (syntaxError "Atoi" s))
          | ScanRange =>
              (if neg then minInt64 else maxInt64, Some (rangeError "Atoi" s))
          | ScanOK un =>
              if negb neg && (un >=? 2 ^ 63) then (maxInt64, Some (rangeError "Atoi" s))
              else if neg && (un >? 2 ^ 63) then (minInt64, Some (rangeError "Atoi" s))
              else (if neg then - un else un, None)
          end
      end
  end.

(** *** [ParseFloat] (64 bits)

    The accepted texts are those of the library: an optionally signed
    [inf] or [infinity], [nan] (any letter case), and decimal or
    hexadecimal floating-point literals, where an underscore may separate
    digits.  The value is the literal's exact value rounded to nearest,
    ties to even; an overflow gives an infinity together with [ErrRange]. *)

Definition foldCase (c : ascii) : ascii :=
  if (65 <=? code c) && (code c <=? 90) then byte (Z.to_nat (code c + 32)) else c.

Fixpoint commonPrefixLenIgnoreCase (s prefix : string) : nat :=
  match s, prefix with
  | String c s', String p prefix' =>
      if Ascii.eqb (foldCase c) p then S (commonPrefixLenIgnoreCase s' prefix') else 0%nat
  | _, _ => 0%nat
  end.

(** [special]: the value and the number of bytes read. *)
Definition special (s : string) : option (float64 * nat) :=
  match s with
  | EmptyString => None
  | String c s' =>
      let signed := Ascii.eqb c "+" || Ascii.eqb c "-" in
      if signed || Ascii.eqb c "i" || Ascii.eqb c "I" then
        let body := if signed then s' else s in
        let nsign := if signed then 1%nat else 0%nat in
        let n := commonPrefixLenIgnoreCase body "infinity" in
        let n := if (3 <? n)%nat && (n <? 8)%nat then 3%nat else n in
        if (n =? 3)%nat || (n =? 8)%nat
        then Some (S754_infinity (Ascii.eqb c "-"), (nsign + n)%nat)
        else None
      else if Ascii.eqb c "n" || Ascii.eqb c "N" then
        if (commonPrefixLenIgnoreCase s "nan" =? 3)%nat then Some (S754_nan, 3%nat) else None
      else None
  end.

(** What the mantissa loop of [readFloat] has read: the digits as an
    integer in the literal's base, the number of digits after the point,
    and the flags of the loop. *)
Record mantissa := {
  mant : Z;
  frac : Z;
  sawdot : bool;
  sawdigits : bool;
  underscores : bool
}.

Definition isHexLetter (c : ascii) : bool :=
  (97 <=? code (lower c)) && (code (lower c) <=? 102).

Fixpoint readMantissa (hex : bool) (st : mantissa) (s : string) : mantissa * string :=
  match s with
  | EmptyString => (st, s)
  | String c s' =>
      if Ascii.eqb c "_" then
        readMantissa hex {| mant := mant st; frac := frac st; sawdot := sawdot st;
                            sawdigits := sawdigits st; underscores := true |} s'
      else if Ascii.eqb c "." then
        if sawdot st then (st, s)
        else readMantissa hex {| mant := mant st; frac := frac st; sawdot := true;
                                 sawdigits := sawdigits st;
                                 underscores := underscores st |} s'
      else if isDigit c || (hex && isHexLetter c) then
        let d := if isDigit c then digit c else code (lower c) - 97 + 10 in
        readMantissa hex {| mant := mant st * (if hex then 16 else 10) + d;
                            frac := if sawdot st then frac st + 1 else frac st;
                            sawdot := sawdot st; sawdigits := true;
                            underscores := underscores st |} s'
      else (st, s)
  end.

(** The digits of an exponent, with the library's cap on its size. *)
Fixpoint readExponent (e : Z) (us : bool) (s : string) : Z * bool * string :=
  match s with
  | EmptyString => (e, us, s)
  | String c s' =>
      if Ascii.eqb c "_" then readExponent e true s'
      else if isDigit c
           then readExponent (if e <? 10000 then e * 10 + digit c else e) us s'
      else (e, us, s)
  end.

(** [underscoreOK]: an underscore stands between two digits, or between
    a base prefix and a digit.  [saw] is the kind of the last byte. *)
Inductive sawKind := SawStart | SawDigit | SawUnderscore | SawOther.

Fixpoint underscoreLoop (hex : bool) (saw : sawKind) (s : string) : bool :=
  match s with
  | EmptyString => match saw with SawUnderscore => false | _ => true end
  | String c s' =>
      if isDigit c || (hex && isHexLetter c) then underscoreLoop hex SawDigit s'
      else if Ascii.eqb c "_" then
        match saw with
        | SawDigit => underscoreLoop hex SawUnderscore s'
        | _ => false
        end
      else match saw with
           | SawUnderscore => false
           | _ => underscoreLoop hex SawOther s'
           end
  end.

Definition underscoreOK (s : string) : bool :=
  let s :=
    match s with
    | String c s' => if Ascii.eqb c "-" || Ascii.eqb c "+" then s' else s
    | EmptyString => s
    end in
  match s with
  | String c0 (String c1 s') =>
      let l := lower c1 in
      if Ascii.eqb c0 "0" && (Ascii.eqb l "b" || Ascii.eqb l "o" || Ascii.eqb l "x")
      then underscoreLoop (Ascii.eqb l "x") SawDigit s'
      else underscoreLoop false SawStart s
  | _ => underscoreLoop false SawStart s
  end.

(** What [readFloat] returns for a literal it accepts to the last byte:
    sign, base, digits, and the exponent of the base (ten, or two for a
    hexadecimal literal) to apply to the digits. *)
Record literal := { neg : bool; hex : bool; digits : Z; exponent : Z }.

Definition readFloat (s : string) : option literal :=
  match s with
  | EmptyString => None
  | String c s' =>
      let neg := Ascii.eqb c "-" in
      let s1 := if neg || Ascii.eqb c "+" then s' else s in
      let hex :=
        match s1 with
        | String c0 (String c1 (String _ _)) => Ascii.eqb c0 "0" && Ascii.eqb (lower c1) "x"
        | _ => false
        end in
      let s2 := if hex then String.substring 2 (String.length s1) s1 else s1 in
      let '(m, s3) :=
        readMantissa hex {| mant := 0; frac := 0; sawdot := false;
                            sawdigits := false; underscores := false |} s2 in
      if negb (sawdigits m) then None
      else
        let scale := if hex then 4 * frac m else frac m in
        let expChar := (if hex then "p" else "e")%char in
        let finish (e : Z) (us : bool) (rest : string) :=
          match rest with
          | EmptyString =>
              if us && negb (underscoreOK s) then None
              else Some {| neg := neg; hex := hex; digits := mant m;
                           exponent := e - scale |}
          | _ => None
          end in
        match s3 with
        | EmptyString => if hex then None else finish 0 (underscores m) s3
        | String x s4 =>
            if Ascii.eqb (lower x) expChar then
              match s4 with
              | EmptyString => None
              | String y s5 =>
                  let eneg := Ascii.eqb y "-" in
                  let s6 := if eneg || Ascii.eqb y "+" then s5 else s4 in
                  match s6 with
                  | EmptyString => None
                  | String z _ =>
                      if isDigit z then
                        let '(e, us, rest) := readExponent 0 (underscores m) s6 in
                        finish (if eneg then - e else e) us rest
                      else None
                  end
              end
            else None
        end
  end.

Definition literalValue (l : literal) : float64 :=
  if hex l then float.of_Z_pow2 (neg l) (digits l) (exponent l)
  else if 0 <=? exponent l
       then float.of_Z_pow2 (neg l) (digits l * 10 ^ exponent l) 0
       else float.of_quotient (neg l) (digits l) (10 ^ (- exponent l)).

Definition ParseFloat (s : string) : float64 * option error :=
  match special s with
  | Some (f, n) =>
      if (n =? String.length s)%nat then (f, None)
      else (float.zero, Some (syntaxError "ParseFloat" s))
  | None =>
      match readFloat s with
      | None => (float.zero, Some (syntaxError "ParseFloat" s))
      | Some l =>
          match literalValue l with
          | S754_infinity sg => (S754_infinity sg, Some (rangeError "ParseFloat" s))
          | f => (f, None)
          end
      end
  end.

End strconv.

(** ** Package [fmt]: the verb [%f] on a [float64] *)
Module fmt.

Definition decimal (n : Z) : string := NilZero.string_of_uint (N.to_uint (Z.to_N n)).

Fixpoint zeros (n : nat) : string :=
  match n with
  | O => EmptyString
  | S n' => String "0" (zeros n')
  end.

(** A non-negative count of millionths printed with six decimals. *)
Definition fixed6 (q : Z) : string :=
  let d := decimal q in
  let d := zeros (7 - String.length d) ++ d in
  let n := (String.length d - 6)%nat in
  String.substring 0 n d ++ "." ++ String.substring n 6 d.

(** The exact value of [m * 2^e] in millionths, rounded to nearest, ties
    to even. *)
Definition millionths (m : positive) (e : Z) : Z :=
  if 0 <=? e then Zpos m * 2 ^ e * 1000000
  else
    let num := Zpos m * 1000000 in
    let den := 2 ^ (- e) in
    let q := num / den in
    let r := num mod den in
    if (2 * r >? den) || ((2 * r =? den) && Z.odd q) then q + 1 else q.

Definition Sprint_f (x : float64) : string :=
  match x with
  | S754_nan => "NaN"
  | S754_infinity false => "+Inf"
  | S754_infinity true => "-Inf"
  | S754_zero s => (if s then "-" else EmptyString) ++ "0.000000"
  | S754_finite s m e => (if s then "-" else EmptyString) ++ fixed6 (millionths m e)
  end.

End fmt.

(** ** Package [path/filepath] (Unix) *)
Module filepath.

Fixpoint lastElement (acc rpath : string) : string :=
  match rpath with
  | EmptyString => acc
  | String c r => if Ascii.eqb c "/" then acc else lastElement (String c acc) r
  end.

Definition Base (path : string) : string :=
  match path with
  | EmptyString => "."
  | _ =>
      match gostrings.TrimLeft (rev_string EmptyString path) "/" with
      | EmptyString => "/"
      | r => lastElement EmptyString r
      end
  end.

End filepath.

(** ** Readers, [ioutil.ReadAll] and [bufio.Scanner]

    An [io.Reader] is the bytes it delivers and the error that ends them
    ([None] for a plain end of file). *)
Record Reader := { data : string; readErr : option error }.

(** A reader that delivers [text] and ends without error. *)
Definition textReader (text : string) : Reader := {| data := text; readErr := None |}.

Module ioutil.
Definition ReadAll (r : Reader) : string * option error := (data r, readErr r).
End ioutil.

Module bufio.

Definition MaxScanTokenSize : Z := 64 * 1024.

Definition dropCR (rline : string) : string :=
  match rline with
  | String c r => if Ascii.eqb c (byte 13) then r else rline
  | EmptyString => rline
  end.

(** The tokens a line [Scanner] yields, in order.  [cur] is the line being
    read, reversed, and [n] its length.  A line is yielded without its end
    of line marker (a line feed, with an optional carriage return before
    it); a last line without line feed is yielded when it is not empty.
    The scan stops, without a token, at a line that does not fit the
    buffer of [MaxScanTokenSize] bytes together with its line feed; the
    loops of these programs do not look at the scanner's error. *)
Fixpoint scan_go (cur : string) (n : Z) (s : string) : list string :=
  match s with
  | EmptyString =>
      if (0 <? n) && (n <? MaxScanTokenSize)
      then [rev_string EmptyString (dropCR cur)] else []
  | String c s' =>
      if Ascii.eqb c (byte 10) then
        if n + 1 <=? MaxScanTokenSize
        then rev_string EmptyString (dropCR cur) :: scan_go EmptyString 0 s'
        else []
      else scan_go (String c cur) (n + 1) s'
  end.

(** The successive values of [scr.Text()] while [scr.Scan()] is true. *)
Definition lines (r : Reader) : list string := scan_go EmptyString 0 (data r).

(** A [Scanner] between two calls of [Scan]: the bytes it has not consumed,
    and whether reading has ended with [ErrTooLong].  After that error the
    bytes left are those of the full buffer and no more input is read. *)
Record Scanner := { pending : string; tooLong : bool }.

Definition NewScanner (r : Reader) : Scanner :=
  {| pending := data r; tooLong := false |}.

(** One call of [Scan] with the line splitter: [Some text] stands for
    [true] with [scr.Text()] equal to [text], [None] for [false].  [cur]
    is the line being read, reversed, and [n] its length.  While input is
    read, the buffer of [MaxScanTokenSize] bytes must not fill up before a
    line feed comes: when it does, the call sets [ErrTooLong], returns
    [false] and keeps the buffer.  A later call finds the error set and
    splits what is buffered as at the end of the input: a last line without
    line feed is yielded when it is not empty. *)
Fixpoint scanToken (failed : bool) (cur : string) (n : Z) (s : string)
  : option string * Scanner :=
  match s with
  | EmptyString =>
      (if 0 <? n then Some (rev_string EmptyString (dropCR cur)) else None,
       {| pending := EmptyString; tooLong := failed |})
  | String c s' =>
      if Ascii.eqb c (byte 10) then
        (Some (rev_string EmptyString (dropCR cur)),
         {| pending := s'; tooLong := failed |})
      else if negb failed && (MaxScanTokenSize <=? n + 1) then
        (None, {| pending := rev_string EmptyString (String c cur); tooLong := true |})
      else scanToken failed (String c cur) (n + 1) s'
  end.

Definition Scan (scr : Scanner) : option string * Scanner :=
  scanToken (tooLong scr) EmptyString 0 (pending scr).

End bufio.

(** ** Package [checkers] *)
Module checkers.

Inductive Status := OK | WARNING | CRITICAL | UNKNOWN.

(** The constants are declared with [iota]: the status is its exit code. *)
Definition int (st : Status) : Z :=
  match st with
  | OK => 0
  | WARNING => 1
  | CRITICAL => 2
  | UNKNOWN => 3
  end.

Record Checker := { Name : string; status : Status; Message : string }.

Definition NewChecker (st : Status) (msg : string) : Checker :=
  {| Name := EmptyString; status := st; Message := msg |}.

Definition Unknown (msg : string) : Checker := NewChecker UNKNOWN msg.

Definition setName (ckr : Checker) (name : string) : Checker :=
  {| Name := name; status := status ckr; Message := Message ckr |}.

(** Severity, for comparing two statuses obtained from measurements. *)
Definition severity (st : Status) : Z := int st.

End checkers.

(** How a plugin process ends: [ckr.Exit()] prints the checker's line and
    exits with its status; the usage branch of a dispatcher prints its text
    and exits with a code of its own; [os.Exit] after a failed flag parse
    exits with its code (what the parser has printed is not recorded); a
    panic ends the process with the Go run time's exit code 2. *)
Inductive process :=
| ExitChecker (ckr : checkers.Checker)
| ExitUsage (stdout : string) (code : Z)
| ExitCode (code : Z)
| Crash (msg : string).

Definition exitCode (p : process) : Z :=
  match p with
  | ExitChecker ckr => checkers.int (checkers.status ckr)
  | ExitUsage _ code => code
  | ExitCode code => code
  | Crash _ => 2
  end.

(** The end of [Do] in each plugin: [ckr := run(...)], then [ckr.Name = name]
    and [ckr.Exit()]. *)
Definition exitWith (name : string) (r : outcome checkers.Checker) : process :=
  match r with
  | Return ckr => ExitChecker (checkers.setName ckr name)
  | Exit code => ExitCode code
  | Panic msg => Crash msg
  end.

(** * check-cloudwatch-logs *)
Module checkcloudwatchlogs.

Record logOpts := {
  Region : string;
  AccessKeyID : string;
  SecretAccessKey : string;
  LogGroupName : string;
  Pattern : string;
  WarningOver : Z;
  CriticalOver : Z
}.

(** The shapes of the AWS SDK that the plugin touches.  A Go pointer
    field is an [option]. *)
Record FilteredLogEvent := { Message : option string }.

Record FilterLogEventsInput := {
  StartTime : option Z;
  InLogGroupName : option string;
  InNextToken : option string;
  FilterPattern : option string
}.

Record FilterLogEventsOutput := {
  Events : list FilteredLogEvent;
  NextToken : option string
}.

Record Config := {
  Credentials : option (string * string * string);
  ConfigRegion : option string
}.

Definition nilDeref : string :=
  "runtime error: invalid memory address or nil pointer dereference".

Definition Minute : Z := 60 * 10 ^ 9.
Definition Millisecond : Z := 10 ^ 6.

Section Plugin.

(** The outside of the process: a clock and the state of the remote
    service.  [Now] is [time.Now()] in nanoseconds since the Unix
    epoch. *)
Variable World : Type.
Variable Now : World -> Z.
Variable Sleep : Z -> World -> World.

(** [cloudwatchlogsiface.CloudWatchLogsAPI], as far as it is called. *)
Record CloudWatchLogsAPI := {
  FilterLogEvents :
    FilterLogEventsInput -> World ->
    World * (option FilterLogEventsOutput * option error)
}.

(** [flags.ParseArgs], [session.NewSession] and [cloudwatchlogs.New]. *)
Variable ParseArgs : list string -> logOpts * option error.
Variable Session : Type.
Variable NewSession : option Session * option error.
Variable New : option Session -> Config -> CloudWatchLogsAPI.

Record cloudwatchLogsPlugin := {
  Service : option CloudWatchLogsAPI;
  pLogGroupName : string;
  pPattern : string;
  pWarningOver : Z;
  pCriticalOver : Z
}.

Definition createService (opts : logOpts) : option CloudWatchLogsAPI * option error :=
  match NewSession with
  | (_, Some err) => (None, Some err)
  | (sess, None) =>
      let config := {| Credentials := None; ConfigRegion := None |} in
      let config :=
        if negb (String.eqb (AccessKeyID opts) EmptyString)
           && negb (String.eqb (SecretAccessKey opts) EmptyString)
        then {| Credentials := Some (AccessKeyID opts, SecretAccessKey opts, EmptyString);
                ConfigRegion := ConfigRegion config |}
        else config in
      let config :=
        if negb (String.eqb (Region opts) EmptyString)
        then {| Credentials := Credentials config; ConfigRegion := Some (Region opts) |}
        else config in
      (Some (New sess config), None)
  end.

(** The struct literal names three fields; the two thresholds keep the
    zero value of [int]. *)
Definition newCloudwatchLogsPlugin (args : list string)
  : outcome (option cloudwatchLogsPlugin * option error) :=
  let '(opts, err) := ParseArgs args in
  match err with
  | Some _ => Exit 1
  | None =>
      match createService opts with
      | (_, Some err) => Return (None, Some err)
      | (service, None) =>
          Return (Some {| Service := service;
                          pLogGroupName := LogGroupName opts;
                          pPattern := Pattern opts;
                          pWarningOver := 0;
                          pCriticalOver := 0 |}, None)
      end
  end.

(** [messages = append(messages, *ev.Message)] over the events of a page;
    [None] when a [Message] pointer is nil. *)
Fixpoint appendMessages (messages : list string) (events : list FilteredLogEvent)
  : option (list string) :=
  match events with
  | [] => Some messages
  | ev :: events' =>
      match Message ev with
      | Some m => appendMessages (messages ++ [m]) events'
      | None => None
      end
  end.

(** The loop of the method [run]: one iteration per unit of [fuel];
    [None] when the fuel does not reach the end of the pages.  A slice
    built by [append] alone is nil exactly when it is empty, so the nil
    slice is the empty list. *)
Fixpoint run_loop (fuel : nat) (p : cloudwatchLogsPlugin)
  (nextToken : option string) (messages : list string) (w : World)
  : option (outcome (World * (list string * option error))) :=
  match fuel with
  | O => None
  | S fuel' =>
      let startTime := Now w - 5 * Minute in
      match Service p with
      | None => Some (Panic nilDeref)
      | Some service =>
          let '(w1, (output, err)) :=
            FilterLogEvents service
              {| StartTime := Some (startTime / 10 ^ 9 * 1000);
                 InLogGroupName := Some (pLogGroupName p);
                 InNextToken := nextToken;
                 FilterPattern := Some (pPattern p) |} w in
          match err with
          | Some e => Some (Return (w1, ([], Some e)))
          | None =>
              match output with
              | None => Some (Panic nilDeref)
              | Some out =>
                  match appendMessages messages (Events out) with
                  | None => Some (Panic nilDeref)
                  | Some messages' =>
                      match NextToken out with
                      | None => Some (Return (w1, (messages', None)))
                      | Some t =>
                          run_loop fuel' p (Some t) messages'
                            (Sleep (250 * Millisecond) w1)
                      end
                  end
              end
          end
      end
  end.

Definition plugin_run (fuel : nat) (p : cloudwatchLogsPlugin) (w : World)
  : option (outcome (World * (list string * option error))) :=
  run_loop fuel p None [] w.

(** The evaluation at the end of [run]: the status from the count and
    the thresholds of the instance, then the test [messages != nil]. *)
Definition evaluate (p : cloudwatchLogsPlugin) (messages : list string)
  : checkers.Checker :=
  let status :=
    if Z.of_nat (length messages) >? pCriticalOver p then checkers.CRITICAL
    else if Z.of_nat (length messages) >? pWarningOver p then checkers.WARNING
    else checkers.OK in
  match messages with
  | _ :: _ => checkers.NewChecker status (gostrings.Join messages EmptyString)
  | [] => checkers.NewChecker checkers.OK "ok"
  end.

Definition run (fuel : nat) (args : list string) (w : World)
  : option (outcome (World * checkers.Checker)) :=
  match newCloudwatchLogsPlugin args with
  | Exit n => Some (Exit n)
  | Panic msg => Some (Panic msg)
  | Return (_, Some err) => Some (Return (w, checkers.NewChecker checkers.UNKNOWN err))
  | Return (None, None) => Some (Panic nilDeref)
  | Return (Some p, None) =>
      match plugin_run fuel p w with
      | None => None
      | Some (Exit n) => Some (Exit n)
      | Some (Panic msg) => Some (Panic msg)
      | Some (Return (w', (_, Some err))) =>
          Some (Return (w', checkers.NewChecker checkers.UNKNOWN err))
      | Some (Return (w', (messages, None))) => Some (Return (w', evaluate p messages))
      end
  end.

Definition Do (fuel : nat) (args : list string) (w : World) : option process :=
  match run fuel args w with
  | None => None
  | Some r => Some (exitWith "CloudWatch Logs" (bind r (fun wc => Return (snd wc))))
  end.

End Plugin.

End checkcloudwatchlogs.

(** * check-ntpoffset *)

(** What running a command gives [withCmd]: the errors of [StdoutPipe],
    [Start] and [Wait], and the standard output of the process. *)
Module exec.
Record Run := {
  pipeErr : option error;
  startErr : option error;
  stdout : Reader;
  waitErr : option error
}.
End exec.

Module checkntpoffset.

Record Opts := { Crit : float64; Warn : float64 }.

(** The values of the [default] tags of the two options. *)
Definition defaultOpts : Opts :=
  {| Crit := float.of_Z 100; Warn := float.of_Z 50 |}.

(** The host: the user id of the process, the commands it can run with
    what they print, and whether [exec.LookPath] finds a program.  No
    command is run twice in one invocation. *)
Record Host := {
  Getuid : Z;
  Command : string -> list string -> exec.Run;
  LookPath : string -> option error
}.

Definition withCmd {S : Type} (cmd : exec.Run)
  (fn : Reader -> S -> outcome (S * option error)) (s : S)
  : outcome (S * option error) :=
  match exec.pipeErr cmd with
  | Some err => Return (s, Some err)
  | None =>
      match exec.startErr cmd with
      | Some err => Return (s, Some err)
      | None =>
          let* (s', err) := fn (exec.stdout cmd) s in
          match err with
          | Some e => Return (s', Some e)
          | None => Return (s', exec.waitErr cmd)
          end
      end
  end.

Definition noNtpErr : error := "it seems no ntp daemon is running".

(** The loop over the lines of [ps -eo comm]: the value left in
    [ntpdName], which is ["ntpd"] when the loop starts. *)
Fixpoint scanComm (h : Host) (lines : list string) : string :=
  match lines with
  | [] => "ntpd"
  | line :: lines' =>
      if gostrings.HasSuffix line "chronyd" then
        match LookPath h "chronyc" with
        | Some _ => "ntpd"
        | None => "chronyd"
        end
      else scanComm h lines'
  end.

Definition detectNTPDname (h : Host) : outcome (string * option error) :=
  if Getuid h =? 0 then
    withCmd (Command h "lsof" ["-i:123"])
      (fun out ntpdName =>
         let scr := bufio.NewScanner out in
         let '(_, scr) := bufio.Scan scr in (* skip first line *)
         match bufio.Scan scr with
         | (Some line, _) =>
             if String.eqb line EmptyString then Return (ntpdName, Some noNtpErr)
             else
               let fields := gostrings.Fields line in
               let* f0 := index fields 0 in
               Return (filepath.Base f0, None)
         | (None, _) => Return (ntpdName, Some noNtpErr)
         end)
      EmptyString
  else
    withCmd (Command h "ps" ["-eo"; "comm"])
      (fun out _ => Return (scanComm h (bufio.lines out), None))
      EmptyString.

Definition ntpdDown : error := "couldn't get ntp offset. ntpd process may be down".

(** The end of [parseNTPOffsetFromNTPD], on the line the [switch] has
    chosen. *)
Definition offsetOfLine (line : string) : float64 * option error :=
  match gostrings.Split line "=" with
  | [_; o1] => strconv.ParseFloat (gostrings.Trim o1 LF)
  | _ => (float.zero, Some ntpdDown)
  end.

Definition parseNTPOffsetFromNTPD (out : Reader) : float64 * option error :=
  let '(output, err) := ioutil.ReadAll out in
  match err with
  | Some e => (float.zero, Some e)
  | None =>
      let lines := gostrings.Split output LF in
      let chosen :=
        match lines with
        | [l0; _] => Some l0
        | [l0; l1; _] => if gostrings.Index l0 "assID=0" =? 0 then Some l1 else None
        | _ => None
        end in
      match chosen with
      | None => (float.zero, Some ntpdDown)
      | Some line => offsetOfLine line
      end
  end.

Definition getNTPOffsetFromNTPD (h : Host) : outcome (float64 * option error) :=
  withCmd (Command h "ntpq" ["-c"; "rv 0 offset"])
    (fun out _ => Return (parseNTPOffsetFromNTPD out))
    float.zero.

Definition chronyFailed : error := "failed to get ntp offset".

(** The loop of [parseNTPOffsetFromChrony] over the scanned lines. *)
Fixpoint parseChronyLines (lines : list string) : float64 * option error :=
  match lines with
  | [] => (float.zero, Some chronyFailed)
  | line :: lines' =>
      if gostrings.HasPrefix line "Last offset" then
        match gostrings.Fields line with
        | [_; _; _; f3; _] =>
            match strconv.ParseFloat f3 with
            | (_, Some err) => (float.zero, Some err)
            | (offset, None) => (float.mul offset (float.of_Z 1000), None)
            end
        | _ => (float.zero, Some chronyFailed)
        end
      else parseChronyLines lines'
  end.

Definition parseNTPOffsetFromChrony (out : Reader) : float64 * option error :=
  parseChronyLines (bufio.lines out).

Definition getNTPOffsetFromChrony (h : Host) : outcome (float64 * option error) :=
  withCmd (Command h "chronyc" ["tracking"])
    (fun out _ => Return (parseNTPOffsetFromChrony out))
    float.zero.

Definition getNtpOffset (h : Host) : outcome (float64 * option error) :=
  let* (ntpdName, err) := detectNTPDname h in
  match err with
  | Some e => Return (float.zero, Some e)
  | None =>
      if String.eqb ntpdName "ntpd" then getNTPOffsetFromNTPD h
      else if String.eqb ntpdName "chronyd" then getNTPOffsetFromChrony h
      else Return (float.zero,
                   Some ("unsupported ntp daemon " ++ strconv.Quote ntpdName))
  end.

(** The three-way comparison of [run] on a measured offset. *)
Definition classify (opts : Opts) (offset : float64) : checkers.Checker :=
  let a := float.Abs offset in
  if float.ltb (Crit opts) a then
    checkers.NewChecker checkers.CRITICAL
      ("ntp offset is over " ++ fmt.Sprint_f a ++ "(actual) > "
       ++ fmt.Sprint_f (Crit opts) ++ "(threshold)")
  else if float.ltb (Warn opts) a then
    checkers.NewChecker checkers.WARNING
      ("ntp offset is over " ++ fmt.Sprint_f a ++ "(actual) > "
       ++ fmt.Sprint_f (Warn opts) ++ "(threshold)")
  else
    checkers.NewChecker checkers.OK
      ("ntp offset is " ++ fmt.Sprint_f a ++ "(actual) < "
       ++ fmt.Sprint_f (Warn opts) ++ "(warning threshold), "
       ++ fmt.Sprint_f (Crit opts) ++ "(critial threshold)").

Section Run.

(** [flags.ParseArgs] filling the package variable [opts]. *)
Variable ParseArgs : list string -> Opts * option error.

Definition run (h : Host) (args : list string) : outcome checkers.Checker :=
  let '(opts, err) := ParseArgs args in
  match err with
  | Some _ => Exit 1
  | None =>
      let* (offset, err) := getNtpOffset h in
      match err with
      | Some e => Return (checkers.Unknown e)
      | None => Return (classify opts offset)
      end
  end.

Definition Do (h : Host) (args : list string) : process :=
  exitWith "NTP" (run h args).

End Run.

End checkntpoffset.

(** * check-mysql *)
Module checkmysql.

Record mysqlVersion := {
  major : Z;
  minor : Z;
  patch : Z;
  stability : string
}.

(** The database handle, as far as [getMySQLVersion] uses it: what
    [db.QueryRow("SELECT VERSION()").Scan(&rawVersion)] leaves in
    [rawVersion], and its error. *)
Record DB := { selectVersion : string * option error }.

Definition separateSub (argv : list string) : string * list string :=
  match argv with
  | [] => (EmptyString, argv)
  | a0 :: rest =>
      if gostrings.HasPrefix a0 "-" then (EmptyString, argv) else (a0, rest)
  end.

Definition usage : string :=
  "Usage:" ++ LF ++ "  check-mysql [subcommand] [OPTIONS]" ++ LF ++ LF ++ "SubCommands:".

(** [fmt.Printf("  %s\n", k)] for each key in the order of the iteration. *)
Fixpoint printKeys (order : list string) : string :=
  match order with
  | [] => EmptyString
  | k :: order' => ("  " ++ k ++ LF) ++ printKeys order'
  end.

Definition versionError (err : error) : error := "Failed to parse version: " ++ err.

Definition getMySQLVersion (db : DB) : outcome (option mysqlVersion * option error) :=
  let '(rawVersion, err) := selectVersion db in
  match err with
  | Some e => Return (None, Some ("Failed to query SELECT VERSION(): " ++ e))
  | None =>
      let splitted := gostrings.Split rawVersion "-" in
      let* stability :=
        if (1 <? length splitted)%nat then index splitted 1 else Return EmptyString in
      let* s0 := index splitted 0 in
      let versionSplitted := gostrings.Split s0 "." in
      let* v0 := index versionSplitted 0 in
      match strconv.Atoi v0 with
      | (_, Some e) => Return (None, Some (versionError e))
      | (major, None) =>
          let* v1 := index versionSplitted 1 in
          match strconv.Atoi v1 with
          | (_, Some e) => Return (None, Some (versionError e))
          | (minor, None) =>
              let* v2 := index versionSplitted 2 in
              match strconv.Atoi v2 with
              | (_, Some e) => Return (None, Some (versionError e))
              | (patch, None) =>
                  Return (Some {| major := major; minor := minor; patch := patch;
                                  stability := stability |}, None)
              end
          end
      end
  end.

(** Modelled from the spec: the subcommand handlers that call
    [getMySQLVersion] are not among the sources; the spec has an error of
    the version parser surfaced as UNKNOWN with the cause as message.
    [k] is what the handler does with a parsed version. *)
Definition withVersion (db : DB) (k : mysqlVersion -> outcome checkers.Checker)
  : outcome checkers.Checker :=
  let* (version, err) := getMySQLVersion db in
  match err, version with
  | Some e, _ => Return (checkers.Unknown e)
  | None, Some v => k v
  | None, None => Panic "runtime error: invalid memory address or nil pointer dereference"
  end.

Section Dispatch.

(** The four handlers of the table [commands]; their code is not
    among the sources. *)
Variables checkReplication checkConnection checkUptime checkReadOnly
  : list string -> outcome checkers.Checker.

Definition commands : gmap string (list string -> outcome checkers.Checker) :=
  <["replication" := checkReplication]>
    (<["connection" := checkConnection]>
       (<["uptime" := checkUptime]>
          (<["readonly" := checkReadOnly]> ∅))).

(** Go leaves the order of [range] over a map unspecified: [order] is
    the order one run of the usage branch takes through the keys.  The
    name of the checker is built from [subCmd[0]] only for a registered
    subcommand, whose first byte is an ASCII letter. *)
Definition Do (order : list string) (args : list string) : process :=
  let '(subCmd, argv) := separateSub args in
  match commands !! subCmd with
  | None => ExitUsage (usage ++ LF ++ printKeys order) 1
  | Some fn =>
      match fn argv with
      | Return ckr =>
          match subCmd with
          | String c rest =>
              ExitChecker
                (checkers.setName ckr
                   ("MySQL " ++ gostrings.ToUpper (String c EmptyString) ++ rest))
          | EmptyString => Crash "runtime error: index out of range"
          end
      | Exit code => ExitCode code
      | Panic msg => Crash msg
      end
  end.

End Dispatch.

End checkmysql.

(** ** The connection of check-mysql

    [mysql.Config] of the driver, with the fields [newDB] sets (the others
    keep their zero value).  [Config.FormatDSN] belongs to the driver and
    [sql.Open] to [database/sql]: they are parameters of [newDB]. *)
Module mysql.
Record Config := {
  User : string;
  Passwd : string;
  Net : string;
  Addr : string;
  AllowNativePasswords : bool
}.
End mysql.

Module checkmysqldb.

Record mysqlSetting := {
  Host : string;
  Port : string;
  Socket : string;
  User : string;
  Pass : string
}.

(** The values of the [default] tags of the options. *)
Definition defaultSetting : mysqlSetting :=
  {| Host := "localhost"; Port := "3306"; Socket := EmptyString;
     User := "root"; Pass := EmptyString |}.

Section NewDB.

Context {DB : Type}.
Variable FormatDSN : mysql.Config -> string.
Variable Open : string -> string -> option DB * option error.

Definition newDB (m : mysqlSetting) : option DB * option error :=
  let proto := "tcp" in
  let target := Host m ++ ":" ++ Port m in
  let '(proto, target) :=
    if negb (String.eqb (Socket m) EmptyString) then ("unix", Socket m)
    else (proto, target) in
  let cfg :=
    {| mysql.User := User m;
       mysql.Passwd := Pass m;
       mysql.Net := proto;
       mysql.Addr := target;
       mysql.AllowNativePasswords := true |} in
  Open "mysql" (FormatDSN cfg).

End NewDB.

End checkmysqldb.

Arguments checkcloudwatchlogs.FilterLogEvents {World} _ _ _.
Arguments checkcloudwatchlogs.Build_cloudwatchLogsPlugin {World} _ _ _ _ _.
Arguments checkcloudwatchlogs.Service {World} _.
Arguments checkcloudwatchlogs.pLogGroupName {World} _.
Arguments checkcloudwatchlogs.pPattern {World} _.
Arguments checkcloudwatchlogs.pWarningOver {World} _.
Arguments checkcloudwatchlogs.pCriticalOver {World} _.
Arguments checkcloudwatchlogs.createService {World Session} _ _ _.
Arguments checkcloudwatchlogs.newCloudwatchLogsPlugin {World} _ {Session} _ _ _.
Arguments checkcloudwatchlogs.appendMessages _ _ : clear implicits.
Arguments checkcloudwatchlogs.run_loop {World} _ _ _ _ _ _ _.
Arguments checkcloudwatchlogs.plugin_run {World} _ _ _ _ _.
Arguments checkcloudwatchlogs.evaluate {World} _ _.
Arguments checkcloudwatchlogs.run {World} _ _ _ {Session} _ _ _ _ _.
Arguments checkcloudwatchlogs.Do {World} _ _ _ {Session} _ _ _ _ _.

(** * Test doubles

    A scripted CloudWatch Logs service with a clock, a parser for the long
    options of the CloudWatch Logs plugin, and a scripted host for the NTP
    plugin.  They stand for the collaborators of the plugins wherever a
    property is evaluated on concrete inputs. *)
Module Mock.
Import checkcloudwatchlogs.

Definition response : Type := option FilterLogEventsOutput * option error.

(** The clock, the responses still to be given, and the requests
    received so far, oldest first. *)
Record World := {
  clock : Z;
  script : list response;
  requests : list FilterLogEventsInput
}.

Definition Now (w : World) : Z := clock w.

Definition Sleep (d : Z) (w : World) : World :=
  {| clock := clock w + d; script := script w; requests := requests w |}.

Definition API : CloudWatchLogsAPI World :=
  {| FilterLogEvents := fun input w =>
       match script w with
       | [] =>
           ({| clock := clock w; script := [];
               requests := (requests w ++ [input])%list |},
            (None, Some "mock: no response left"))
       | r :: rs =>
           ({| clock := clock w; script := rs;
               requests := (requests w ++ [input])%list |}, r)
       end |}.

Definition event (m : string) : FilteredLogEvent := {| Message := Some m |}.

(** A page of results, and a failed request. *)
Definition page (msgs : list string) (token : option string) : response :=
  (Some {| Events := map event msgs; NextToken := token |}, None).

Definition failure (e : error) : response := (None, Some e).

Definition plugin (warning critical : Z) : cloudwatchLogsPlugin World :=
  {| Service := Some API; pLogGroupName := "group"; pPattern := "ERROR";
     pWarningOver := warning; pCriticalOver := critical |}.

Definition start (c : Z) (responses : list response) : World :=
  {| clock := c; script := responses; requests := [] |}.

(** Long options in the form [--name value]; the log group and the
    pattern are required. *)
Definition emptyOpts : logOpts :=
  {| Region := EmptyString; AccessKeyID := EmptyString;
     SecretAccessKey := EmptyString; LogGroupName := EmptyString;
     Pattern := EmptyString; WarningOver := 0; CriticalOver := 0 |}.

Definition setOpt (o : logOpts) (name value : string) : option logOpts :=
  if String.eqb name "--region" then
    Some {| Region := value; AccessKeyID := AccessKeyID o;
            SecretAccessKey := SecretAccessKey o; LogGroupName := LogGroupName o;
            Pattern := Pattern o; WarningOver := WarningOver o;
            CriticalOver := CriticalOver o |}
  else if String.eqb name "--log-group-name" then
    Some {| Region := Region o; AccessKeyID := AccessKeyID o;
            SecretAccessKey := SecretAccessKey o; LogGroupName := value;
            Pattern := Pattern o; WarningOver := WarningOver o;
            CriticalOver := CriticalOver o |}
  else if String.eqb name "--pattern" then
    Some {| Region := Region o; AccessKeyID := AccessKeyID o;
            SecretAccessKey := SecretAccessKey o; LogGroupName := LogGroupName o;
            Pattern := value; WarningOver := WarningOver o;
            CriticalOver := CriticalOver o |}
  else if String.eqb name "--warning-over" then
    match strconv.Atoi value with
    | (n, None) =>
        Some {| Region := Region o; AccessKeyID := AccessKeyID o;
                SecretAccessKey := SecretAccessKey o; LogGroupName := LogGroupName o;
                Pattern := Pattern o; WarningOver := n;
                CriticalOver := CriticalOver o |}
    | _ => None
    end
  else if String.eqb name "--critical-over" then
    match strconv.Atoi value with
    | (n, None) =>
        Some {| Region := Region o; AccessKeyID := AccessKeyID o;
                SecretAccessKey := SecretAccessKey o; LogGroupName := LogGroupName o;
                Pattern := Pattern o; WarningOver := WarningOver o;
                CriticalOver := n |}
    | _ => None
    end
  else None.

Fixpoint parsePairs (o : logOpts) (args : list string) : logOpts * option error :=
  match args with
  | [] =>
      if String.eqb (LogGroupName o) EmptyString || String.eqb (Pattern o) EmptyString
      then (o, Some "the required flags were not specified")
      else (o, None)
  | [name] => (o, Some ("expected argument for flag " ++ name))
  | name :: value :: rest =>
      match setOpt o name value with
      | Some o' => parsePairs o' rest
      | None => (o, Some ("invalid flag " ++ name))
      end
  end.

Definition ParseArgs (args : list string) : logOpts * option error :=
  parsePairs emptyOpts args.

Definition NewSession : option unit * option error := (Some tt, None).
Definition New (_ : option unit) (_ : Config) : CloudWatchLogsAPI World := API.

Definition argv : list string :=
  ["--log-group-name"; "group"; "--pattern"; "ERROR";
   "--warning-over"; "5"; "--critical-over"; "10"].

(** A script of pages that all carry a continuation token, then a last
    response. *)
Definition tokenPages (pages : list (list string * string)) : list response :=
  map (fun pg => page (fst pg) (Some (snd pg))) pages.

Definition tokensOf (pages : list (list string * string)) : list (option string) :=
  map (fun pg => Some (snd pg)) pages.

Definition messagesOf (pages : list (list string * string)) : list string :=
  concat (map fst pages).

(** The request the loop sends at clock [c] with continuation [tok]. *)
Definition request (p : cloudwatchLogsPlugin World) (c : Z) (tok : option string)
  : FilterLogEventsInput :=
  {| StartTime := Some ((c - 5 * Minute) / 10 ^ 9 * 1000);
     InLogGroupName := Some (pLogGroupName p);
     InNextToken := tok;
     FilterPattern := Some (pPattern p) |}.

End Mock.

(** A scripted host for the NTP plugin: what [lsof], [ps], [ntpq] and
    [chronyc] print, whether [chronyc] is on the path, and an option parser
    for [--critical] and [--warning] in the form [--name value]. *)
Module MockHost.
Import checkntpoffset.

Definition prints (text : string) : exec.Run :=
  {| exec.pipeErr := None; exec.startErr := None;
     exec.stdout := textReader text; exec.waitErr := None |}.

Definition notFound (name : string) : exec.Run :=
  {| exec.pipeErr := None;
     exec.startErr :=
       Some ("exec: " ++ strconv.Quote name ++ ": executable file not found in $PATH");
     exec.stdout := textReader EmptyString; exec.waitErr := None |}.

Definition host (uid : Z) (lsof ps ntpq chronyc : exec.Run)
  (chronycPath : option error) : Host :=
  {| Getuid := uid;
     Command := fun name _ =>
       if String.eqb name "lsof" then lsof
       else if String.eqb name "ps" then ps
       else if String.eqb name "ntpq" then ntpq
       else if String.eqb name "chronyc" then chronyc
       else notFound name;
     LookPath := fun name =>
       if String.eqb name "chronyc" then chronycPath
       else Some ("exec: " ++ strconv.Quote name ++ ": executable file not found in $PATH") |}.

Fixpoint parsePairs (o : Opts) (args : list string) : Opts * option error :=
  match args with
  | [] => (o, None)
  | [name] => (o, Some ("expected argument for flag " ++ name))
  | name :: value :: rest =>
      match strconv.ParseFloat value with
      | (_, Some e) => (o, Some e)
      | (x, None) =>
          if String.eqb name "--critical"
          then parsePairs {| Crit := x; Warn := Warn o |} rest
          else if String.eqb name "--warning"
               then parsePairs {| Crit := Crit o; Warn := x |} rest
               else (o, Some ("unknown flag " ++ name))
      end
  end.

Definition ParseArgs (args : list string) : Opts * option error :=
  parsePairs defaultOpts args.

Definition psOutput : string :=
  "COMMAND" ++ LF ++ "systemd" ++ LF ++ "chronyd" ++ LF ++ "sshd" ++ LF.

Definition lsofOutput : string :=
  "COMMAND PID USER   FD   TYPE DEVICE SIZE/OFF NODE NAME" ++ LF
  ++ "ntpd    812  ntp   16u  IPv4  17613      0t0  UDP *:ntp" ++ LF.

Definition chronycOutput (lastOffset : string) : string :=
  "Reference ID    : A9FEA97B (169.254.169.123)" ++ LF
  ++ "Last offset     : " ++ lastOffset ++ " seconds" ++ LF
  ++ "RMS offset      : 0.000030 seconds" ++ LF.

(** An unprivileged user on a host that runs chronyd. *)
Definition chronyHost (chronyc : exec.Run) : Host :=
  host 1000 (notFound "lsof") (prints psOutput) (notFound "ntpq") chronyc None.

(** Root on a host that runs ntpd. *)
Definition ntpdHost (ntpq : exec.Run) : Host :=
  host 0 (prints lsofOutput) (prints psOutput) ntpq (notFound "chronyc") None.

End MockHost.

(** * Vocabulary of the statements *)

(** A command cannot be launched ([StdoutPipe] or [Start] fails with [e]),
    or is launched. *)
Definition launchFails (cmd : exec.Run) (e : error) : Prop :=
  exec.pipeErr cmd = Some e \/ (exec.pipeErr cmd = None /\ exec.startErr cmd = Some e).

Definition launched (cmd : exec.Run) : Prop :=
  exec.pipeErr cmd = None /\ exec.startErr cmd = None.

(** The command that measures for a daemon, and its parser. *)
Definition query (h : checkntpoffset.Host) (name : string) : exec.Run :=
  if String.eqb name "ntpd" then checkntpoffset.Command h "ntpq" ["-c"; "rv 0 offset"]
  else checkntpoffset.Command h "chronyc" ["tracking"].

Definition parser (name : string) : Reader -> float64 * option error :=
  if String.eqb name "ntpd" then checkntpoffset.parseNTPOffsetFromNTPD
  else checkntpoffset.parseNTPOffsetFromChrony.

(** A line without its trailing carriage return, if it has one. *)
Definition chomp (line : string) : string :=
  rev_string EmptyString (bufio.dropCR (rev_string EmptyString line)).

(** A database whose [SELECT VERSION()] returns [rawVersion]. *)
Definition versionDB (rawVersion : string) : checkmysql.DB :=
  {| checkmysql.selectVersion := (rawVersion, None) |}.

(** The dot-separated components of the first dash-separated segment. *)
Definition components (rawVersion : string) : list string :=
  gostrings.Split (hd EmptyString (gostrings.Split rawVersion "-")) ".".

Definition numeric (c : string) : Prop := snd (strconv.Atoi c) = None.

(** The names registered in the table [commands]. *)
Definition subcommands : list string :=
  ["replication"; "connection"; "uptime"; "readonly"].

(** * Vocabulary of the further properties *)

(** The requests the query loop sends from clock [c] on, one for each
    continuation of [toks], 250 ms apart. *)
Fixpoint requestLog (p : checkcloudwatchlogs.cloudwatchLogsPlugin Mock.World)
  (c : Z) (toks : list (option string)) : list checkcloudwatchlogs.FilterLogEventsInput :=
  match toks with
  | [] => []
  | tok :: toks' =>
      Mock.request p c tok
        :: requestLog p (c + 250 * checkcloudwatchlogs.Millisecond) toks'
  end.

(** The options without the two AWS keys. *)
Definition withoutKeys (o : checkcloudwatchlogs.logOpts) : checkcloudwatchlogs.logOpts :=
  {| checkcloudwatchlogs.Region := checkcloudwatchlogs.Region o;
     checkcloudwatchlogs.AccessKeyID := EmptyString;
     checkcloudwatchlogs.SecretAccessKey := EmptyString;
     checkcloudwatchlogs.LogGroupName := checkcloudwatchlogs.LogGroupName o;
     checkcloudwatchlogs.Pattern := checkcloudwatchlogs.Pattern o;
     checkcloudwatchlogs.WarningOver := checkcloudwatchlogs.WarningOver o;
     checkcloudwatchlogs.CriticalOver := checkcloudwatchlogs.CriticalOver o |}.

(** The value of a decimal numeral read from the left, from [acc] on. *)
Fixpoint uintValue (acc : Z) (d : Decimal.uint) : Z :=
  match d with
  | Decimal.Nil => acc
  | Decimal.D0 d' => uintValue (acc * 10) d'
  | Decimal.D1 d' => uintValue (acc * 10 + 1) d'
  | Decimal.D2 d' => uintValue (acc * 10 + 2) d'
  | Decimal.D3 d' => uintValue (acc * 10 + 3) d'
  | Decimal.D4 d' => uintValue (acc * 10 + 4) d'
  | Decimal.D5 d' => uintValue (acc * 10 + 5) d'
  | Decimal.D6 d' => uintValue (acc * 10 + 6) d'
  | Decimal.D7 d' => uintValue (acc * 10 + 7) d'
  | Decimal.D8 d' => uintValue (acc * 10 + 8) d'
  | Decimal.D9 d' => uintValue (acc * 10 + 9) d'
  end.

(** The text [major.minor.patch] of three numbers in decimal. *)
Definition versionText (a b c : Z) : string :=
  fmt.decimal a ++ "." ++ fmt.decimal b ++ "." ++ fmt.decimal c.

(** A text of printable ASCII bytes other than the blank. *)
Fixpoint graphic (s : string) : bool :=
  match s with
  | EmptyString => true
  | String c s' => (33 <=? code c) && (code c <=? 126) && graphic s'
  end.

Fixpoint blanks (n : nat) : string :=
  match n with
  | O => EmptyString
  | S n' => String " " (blanks n')
  end.

(** The line of [chronyc tracking] that holds the last offset [x], with
    [n] blanks between the label and the colon. *)
Definition trackingLine (n : nat) (x : string) : string :=
  "Last offset" ++ blanks n ++ ": " ++ x ++ " seconds".

(** * Properties *)

(** ** The CloudWatch Logs plugin *)

Section CloudwatchLogsFacts.
Import checkcloudwatchlogs.

Lemma appendMessages_events (acc msgs : list string) :
  appendMessages acc (map Mock.event msgs) = Some (acc ++ msgs)%list.
Proof.
  revert acc; induction msgs as [|m msgs IH]; intros acc; simpl.
  - now rewrite app_nil_r.
  - rewrite IH, <- app_assoc. reflexivity.
Qed.



Variable p : cloudwatchLogsPlugin Mock.World.
Hypothesis p_service : Service p = Some Mock.API.

(** One iteration of the loop against the script, by the kind of the
    next response. *)
Lemma run_loop_token fuel tok acc c msgs t rs reqs :
  run_loop Mock.Now Mock.Sleep (S fuel) p tok acc
    {| Mock.clock := c; Mock.script := Mock.page msgs (Some t) :: rs;
       Mock.requests := reqs |}
  = run_loop Mock.Now Mock.Sleep fuel p (Some t) (acc ++ msgs)%list
      {| Mock.clock := c + 250 * Millisecond; Mock.script := rs;
         Mock.requests := (reqs ++ [Mock.request p c tok])%list |}.
Proof.
  cbn [run_loop]. rewrite p_service. cbn. rewrite appendMessages_events.
  reflexivity.
Qed.

Lemma run_loop_final fuel tok acc c msgs rs reqs :
  run_loop Mock.Now Mock.Sleep (S fuel) p tok acc
    {| Mock.clock := c; Mock.script := Mock.page msgs None :: rs;
       Mock.requests := reqs |}
  = Some (Return ({| Mock.clock := c; Mock.script := rs;
                     Mock.requests := (reqs ++ [Mock.request p c tok])%list |},
                  ((acc ++ msgs)%list, None))).
Proof.
  cbn [run_loop]. rewrite p_service. cbn. rewrite appendMessages_events.
  reflexivity.
Qed.

Lemma run_loop_failure fuel tok acc c e rs reqs :
  run_loop Mock.Now Mock.Sleep (S fuel) p tok acc
    {| Mock.clock := c; Mock.script := Mock.failure e :: rs;
       Mock.requests := reqs |}
  = Some (Return ({| Mock.clock := c; Mock.script := rs;
                     Mock.requests := (reqs ++ [Mock.request p c tok])%list |},
                  ([], Some e))).
Proof. cbn [run_loop]. rewrite p_service. reflexivity. Qed.

(** The loop walks through every page that carries a token and stops at
    the first response without one, leaving the rest of the script. *)
Lemma run_loop_pages pages final rest : forall fuel tok acc c reqs,
    (length pages < fuel)%nat ->
    exists w',
      run_loop Mock.Now Mock.Sleep fuel p tok acc
        {| Mock.clock := c;
           Mock.script := (Mock.tokenPages pages ++ Mock.page final None :: rest)%list;
           Mock.requests := reqs |}
      = Some (Return (w', ((acc ++ Mock.messagesOf pages ++ final)%list, None)))
      /\ Mock.script w' = rest
      /\ map InNextToken (Mock.requests w')
         = (map InNextToken reqs ++ tok :: Mock.tokensOf pages)%list
      /\ Mock.clock w' = c + 250 * Millisecond * Z.of_nat (length pages).
Proof.
  induction pages as [|[msgs t] pages IH]; intros fuel tok acc c reqs Hfuel;
    (destruct fuel as [|fuel]; [simpl in Hfuel; lia|]).
  - cbn [Mock.tokenPages map app]. rewrite run_loop_final.
    eexists; split; [reflexivity|]. cbn.
    repeat split; try reflexivity.
    + now rewrite map_app.
    + lia.
  - cbn [Mock.tokenPages map app fst snd]. rewrite run_loop_token.
    destruct (IH fuel (Some t) (acc ++ msgs)%list (c + 250 * Millisecond)
                (reqs ++ [Mock.request p c tok])%list)
      as (w' & Hrun & Hscript & Hreq & Hclock); [simpl in Hfuel; lia|].
    exists w'. split; [|split; [|split]].
    + unfold Mock.tokenPages in Hrun. rewrite Hrun.
      unfold Mock.messagesOf; cbn [map concat fst]. now rewrite <- !app_assoc.
    + exact Hscript.
    + rewrite Hreq, map_app. cbn. now rewrite <- app_assoc.
    + rewrite Hclock. cbn [length]. lia.
Qed.

(** With too little fuel for the pages that carry a token, the loop has
    not stopped. *)
Lemma run_loop_pages_short pages responses : forall fuel tok acc c reqs,
    (fuel <= length pages)%nat ->
    run_loop Mock.Now Mock.Sleep fuel p tok acc
      {| Mock.clock := c; Mock.script := (Mock.tokenPages pages ++ responses)%list;
         Mock.requests := reqs |} = None.
Proof.
  induction pages as [|[msgs t] pages IH]; intros fuel tok acc c reqs Hfuel;
    (destruct fuel as [|fuel]; [reflexivity|]); simpl in Hfuel; [lia|].
  cbn [Mock.tokenPages map app fst snd]. rewrite run_loop_token.
  apply IH. lia.
Qed.

(** A failed Mock.request after any number of pages ends the loop with the
    error and no message. *)
Lemma run_loop_pages_failure pages e rest : forall fuel tok acc c reqs,
    (length pages < fuel)%nat ->
    exists w',
      run_loop Mock.Now Mock.Sleep fuel p tok acc
        {| Mock.clock := c;
           Mock.script := (Mock.tokenPages pages ++ Mock.failure e :: rest)%list;
           Mock.requests := reqs |}
      = Some (Return (w', ([], Some e)))
      /\ Mock.script w' = rest.
Proof.
  induction pages as [|[msgs t] pages IH]; intros fuel tok acc c reqs Hfuel;
    (destruct fuel as [|fuel]; [simpl in Hfuel; lia|]).
  - cbn [Mock.tokenPages map app]. rewrite run_loop_failure.
    eexists; split; reflexivity.
  - cbn [Mock.tokenPages map app fst snd]. rewrite run_loop_token.
    apply IH. simpl in Hfuel; lia.
Qed.

End CloudwatchLogsFacts.

(** C1. For every argument list the flag parser accepts, the instance that
    [newCloudwatchLogsPlugin] builds (when the service can be created) has
    [WarningOver = 0] and [CriticalOver = 0], whatever the parsed options
    hold: the log group and the pattern are copied from the options, the
    two thresholds are not. *)
Theorem newCloudwatchLogsPlugin_thresholds_zero
  (World : Type)
  (ParseArgs : list string -> checkcloudwatchlogs.logOpts * option error)
  (Session : Type) (NewSession : option Session * option error)
  (New : option Session -> checkcloudwatchlogs.Config ->
         checkcloudwatchlogs.CloudWatchLogsAPI World)
  (args : list string) (opts : checkcloudwatchlogs.logOpts) :
  ParseArgs args = (opts, None) ->
  (exists err,
      checkcloudwatchlogs.newCloudwatchLogsPlugin ParseArgs NewSession New args
      = Return (None, Some err))
  \/ (exists p,
         checkcloudwatchlogs.newCloudwatchLogsPlugin ParseArgs NewSession New args
         = Return (Some p, None)
         /\ checkcloudwatchlogs.pWarningOver p = 0
         /\ checkcloudwatchlogs.pCriticalOver p = 0
         /\ checkcloudwatchlogs.pLogGroupName p = checkcloudwatchlogs.LogGroupName opts
         /\ checkcloudwatchlogs.pPattern p = checkcloudwatchlogs.Pattern opts).
Proof.
  intros Hparse.
  unfold checkcloudwatchlogs.newCloudwatchLogsPlugin. rewrite Hparse.
  destruct (checkcloudwatchlogs.createService NewSession New opts) as [service [err|]].
  - left. now exists err.
  - right. eexists. split; [reflexivity|]. cbn. auto.
Qed.

(** The options [--warning-over 5 --critical-over 10] are parsed into the
    option record and are absent from the instance. *)
Lemma newCloudwatchLogsPlugin_thresholds_zero_witness :
  checkcloudwatchlogs.WarningOver (fst (Mock.ParseArgs Mock.argv)) = 5
  /\ checkcloudwatchlogs.CriticalOver (fst (Mock.ParseArgs Mock.argv)) = 10
  /\ ((exists err,
          checkcloudwatchlogs.newCloudwatchLogsPlugin
            Mock.ParseArgs Mock.NewSession Mock.New Mock.argv
          = Return (None, Some err))
      \/ (exists p,
             checkcloudwatchlogs.newCloudwatchLogsPlugin
               Mock.ParseArgs Mock.NewSession Mock.New Mock.argv
             = Return (Some p, None)
             /\ checkcloudwatchlogs.pWarningOver p = 0
             /\ checkcloudwatchlogs.pCriticalOver p = 0
             /\ checkcloudwatchlogs.pLogGroupName p
                = checkcloudwatchlogs.LogGroupName (fst (Mock.ParseArgs Mock.argv))
             /\ checkcloudwatchlogs.pPattern p
                = checkcloudwatchlogs.Pattern (fst (Mock.ParseArgs Mock.argv)))).
Proof.
  split; [reflexivity|]. split; [reflexivity|].
  apply (newCloudwatchLogsPlugin_thresholds_zero
           Mock.World Mock.ParseArgs unit Mock.NewSession Mock.New Mock.argv
           (fst (Mock.ParseArgs Mock.argv))).
  reflexivity.
Defined.

(** C2. Against responses whose continuation tokens are [t1], [t2], nil and
    which carry 3, 4 and 0 messages, the query loop sends exactly three
    requests (the first without token, then with [t1], then with [t2]),
    returns the seven messages in the order received, and stops at the
    response without token: it consumes no later response, and it has not
    stopped after fewer than three iterations. *)
Theorem run_three_pages
  (p : checkcloudwatchlogs.cloudwatchLogsPlugin Mock.World)
  (t1 t2 : string) (m1 m2 m3 : list string) (rest : list Mock.response)
  (c : Z) (fuel : nat) :
  checkcloudwatchlogs.Service p = Some Mock.API ->
  length m1 = 3%nat -> length m2 = 4%nat -> length m3 = 0%nat ->
  let w := Mock.start c
             (Mock.page m1 (Some t1) :: Mock.page m2 (Some t2)
                :: Mock.page m3 None :: rest) in
  ((3 <= fuel)%nat ->
   exists w',
     checkcloudwatchlogs.plugin_run Mock.Now Mock.Sleep fuel p w
     = Some (Return (w', ((m1 ++ m2 ++ m3)%list, None)))
     /\ length (m1 ++ m2 ++ m3)%list = 7%nat
     /\ length (Mock.requests w') = 3%nat
     /\ map checkcloudwatchlogs.InNextToken (Mock.requests w')
        = [None; Some t1; Some t2]
     /\ Mock.script w' = rest)
  /\ ((fuel < 3)%nat ->
      checkcloudwatchlogs.plugin_run Mock.Now Mock.Sleep fuel p w = None).
Proof.
  intros HS H1 H2 H3 w. split; intros Hfuel.
  - destruct (run_loop_pages p HS [(m1, t1); (m2, t2)] m3 rest fuel None [] c [])
      as (w' & Hrun & Hscript & Hreq & _); [simpl; lia|].
    assert (Hm : ([] ++ Mock.messagesOf [(m1, t1); (m2, t2)] ++ m3 = m1 ++ m2 ++ m3)%list)
      by (unfold Mock.messagesOf; cbn [map concat fst app];
          now rewrite app_nil_r, <- app_assoc).
    rewrite Hm in Hrun.
    exists w'. split; [exact Hrun|].
    split; [rewrite !length_app; lia|].
    split; [|split; [exact Hreq|exact Hscript]].
    rewrite <- (length_map checkcloudwatchlogs.InNextToken), Hreq. reflexivity.
  - apply (run_loop_pages_short p HS [(m1, t1); (m2, t2)] (Mock.page m3 None :: rest)).
    simpl; lia.
Qed.

Lemma run_three_pages_witness :
  let w := Mock.start 1700000000000000000
             [Mock.page ["a"; "b"; "c"] (Some "t1");
              Mock.page ["d"; "e"; "f"; "g"] (Some "t2");
              Mock.page [] None; Mock.failure "unused"] in
  ((3 <= 3)%nat ->
   exists w',
     checkcloudwatchlogs.plugin_run Mock.Now Mock.Sleep 3 (Mock.plugin 0 0) w
     = Some (Return (w', ((["a"; "b"; "c"] ++ ["d"; "e"; "f"; "g"] ++ [])%list, None)))
     /\ length (["a"; "b"; "c"] ++ ["d"; "e"; "f"; "g"] ++ [])%list = 7%nat
     /\ length (Mock.requests w') = 3%nat
     /\ map checkcloudwatchlogs.InNextToken (Mock.requests w')
        = [None; Some "t1"; Some "t2"]
     /\ Mock.script w' = [Mock.failure "unused"])
  /\ ((3 < 3)%nat ->
      checkcloudwatchlogs.plugin_run Mock.Now Mock.Sleep 3 (Mock.plugin 0 0) w = None).
Proof.
  apply (run_three_pages (Mock.plugin 0 0) "t1" "t2"
           ["a"; "b"; "c"] ["d"; "e"; "f"; "g"] [] [Mock.failure "unused"]
           1700000000000000000 3); reflexivity.
Defined.

(** C3. The evaluation of the CloudWatch Logs plugin on the aggregated
    messages and the thresholds of the instance.  With no message (the nil
    list) the result is OK with the message "ok".  Otherwise the message is
    the concatenation of the lines and the status follows the count:
    CRITICAL above the critical threshold, else WARNING above the warning
    threshold, else OK, a count equal to a threshold not breaching it.  For
    thresholds that no count can be below (zero or more) the nil case
    agrees with the rule.  With thresholds 5 and 10 the counts
    0, 5, 6, 10, 11 give OK, OK, WARNING, WARNING, CRITICAL. *)
Theorem evaluate_three_tier
  (World : Type) (p : checkcloudwatchlogs.cloudwatchLogsPlugin World)
  (messages : list string) :
  let warning := checkcloudwatchlogs.pWarningOver p in
  let critical := checkcloudwatchlogs.pCriticalOver p in
  let count := Z.of_nat (length messages) in
  let ckr := checkcloudwatchlogs.evaluate p messages in
  (messages = [] -> ckr = checkers.NewChecker checkers.OK "ok")
  /\ (messages <> [] ->
      checkers.Message ckr = gostrings.Join messages EmptyString)
  /\ (messages <> [] \/ (0 <= warning /\ 0 <= critical) ->
      (count > critical -> checkers.status ckr = checkers.CRITICAL)
      /\ (count <= critical -> count > warning ->
          checkers.status ckr = checkers.WARNING)
      /\ (count <= critical -> count <= warning ->
          checkers.status ckr = checkers.OK))
  /\ (warning = 5 -> critical = 10 ->
      (count = 0 -> checkers.status ckr = checkers.OK)
      /\ (count = 5 -> checkers.status ckr = checkers.OK)
      /\ (count = 6 -> checkers.status ckr = checkers.WARNING)
      /\ (count = 10 -> checkers.status ckr = checkers.WARNING)
      /\ (count = 11 -> checkers.status ckr = checkers.CRITICAL)).
Proof.
  intros warning critical count ckr.
  assert (Hrule :
    messages <> [] \/ (0 <= warning /\ 0 <= critical) ->
    checkers.status ckr
    = if count >? critical then checkers.CRITICAL
      else if count >? warning then checkers.WARNING else checkers.OK).
  { subst ckr count warning critical. unfold checkcloudwatchlogs.evaluate.
    destruct messages as [|m ms]; cbn [checkers.status checkers.NewChecker].
    - intros [H|[Hw Hc]]; [congruence|].
      change (Z.of_nat (length (@nil string))) with 0.
      destruct (Z.gtb_spec 0 (checkcloudwatchlogs.pCriticalOver p)); [lia|].
      destruct (Z.gtb_spec 0 (checkcloudwatchlogs.pWarningOver p)); [lia|].
      reflexivity.
    - reflexivity. }
  split; [|split; [|split]].
  - intros ->. reflexivity.
  - destruct messages as [|m ms]; [congruence|]. reflexivity.
  - intros H. rewrite (Hrule H).
    destruct (Z.gtb_spec count critical), (Z.gtb_spec count warning);
      repeat split; intros; try reflexivity; lia.
  - intros Hw Hc.
    assert (H0 : checkers.status (checkcloudwatchlogs.evaluate p []) = checkers.OK)
      by reflexivity.
    repeat split; intros Hn.
    + destruct messages; [exact H0|discriminate Hn].
    + rewrite Hrule by (left; intros ->; discriminate Hn).
      rewrite Hn, Hc, Hw. reflexivity.
    + rewrite Hrule by (left; intros ->; discriminate Hn).
      rewrite Hn, Hc, Hw. reflexivity.
    + rewrite Hrule by (left; intros ->; discriminate Hn).
      rewrite Hn, Hc, Hw. reflexivity.
    + rewrite Hrule by (left; intros ->; discriminate Hn).
      rewrite Hn, Hc, Hw. reflexivity.
Qed.

Lemma evaluate_three_tier_witness :
  checkers.status
    (checkcloudwatchlogs.evaluate (Mock.plugin 5 10) ["a"; "b"; "c"; "d"; "e"; "f"])
  = checkers.WARNING
  /\ checkers.Message
       (checkcloudwatchlogs.evaluate (Mock.plugin 5 10) ["a"; "b"; "c"; "d"; "e"; "f"])
     = "abcdef".
Proof.
  pose proof (evaluate_three_tier Mock.World (Mock.plugin 5 10)
                ["a"; "b"; "c"; "d"; "e"; "f"]) as H.
  cbv zeta in H. destruct H as (_ & Hmsg & _ & Hex).
  split.
  - destruct (Hex eq_refl eq_refl) as (_ & _ & H6 & _). apply H6. reflexivity.
  - rewrite Hmsg by discriminate. reflexivity.
Defined.

(** ** Facts about the string functions *)

Section StringFacts.

Lemma Index_prefix (s t : string) :
  gostrings.Index s t = 0 <-> gostrings.HasPrefix s t = true.
Proof.
  destruct s as [|c s]; cbn [gostrings.Index];
    destruct (gostrings.HasPrefix _ t); split; intros H; try easy.
  destruct (gostrings.Index s t <? 0) eqn:E; [discriminate|].
  apply Z.ltb_ge in E. lia.
Qed.

Lemma HasPrefix_empty (s : string) : gostrings.HasPrefix s EmptyString = true.
Proof. now destruct s. Qed.


Lemma split_go_byte c d s :
  gostrings.split_go (sep1 c) 0 (String d s)
  = if Ascii.eqb d c then EmptyString :: gostrings.split_go (sep1 c) 0 s
    else match gostrings.split_go (sep1 c) 0 s with
         | piece :: pieces => String d piece :: pieces
         | [] => [String d EmptyString]
         end.
Proof.
  cbn [gostrings.split_go gostrings.HasPrefix sep1 String.length Nat.pred].
  now rewrite HasPrefix_empty, andb_true_r.
Qed.

(** Splitting on a byte gives one piece more than the byte occurs. *)
Lemma Split_length c s :
  length (gostrings.Split s (sep1 c)) = S (count c s).
Proof.
  unfold gostrings.Split. induction s as [|d s IH]; [reflexivity|].
  rewrite split_go_byte. cbn [count].
  destruct (Ascii.eqb d c); cbn [length]; [now rewrite IH|].
  destruct (gostrings.split_go (sep1 c) 0 s); [discriminate IH|exact IH].
Qed.

(** The pieces do not contain the byte, and joined by it give the text. *)
Lemma Split_pieces c s :
  Forall (fun piece => count c piece = 0%nat) (gostrings.Split s (sep1 c)).
Proof.
  unfold gostrings.Split. induction s as [|d s IH].
  - repeat constructor.
  - rewrite split_go_byte. destruct (Ascii.eqb d c) eqn:E.
    + constructor; [reflexivity|exact IH].
    + destruct (gostrings.split_go (sep1 c) 0 s) as [|piece pieces].
      * constructor; [cbn; now rewrite E|constructor].
      * inversion IH; subst. constructor; [cbn; now rewrite E|assumption].
Qed.

Lemma Split_Join c s :
  gostrings.Join (gostrings.Split s (sep1 c)) (sep1 c) = s.
Proof.
  unfold gostrings.Split. induction s as [|d s IH]; [reflexivity|].
  rewrite split_go_byte. destruct (Ascii.eqb_spec d c) as [->|Hne].
  - pose proof (Split_length c s) as Hlen. unfold gostrings.Split in Hlen.
    destruct (gostrings.split_go (sep1 c) 0 s) as [|piece pieces];
      [discriminate Hlen|].
    change (gostrings.Join (EmptyString :: piece :: pieces) (sep1 c))
      with (EmptyString ++ sep1 c ++ gostrings.Join (piece :: pieces) (sep1 c)).
    now rewrite IH.
  - pose proof (Split_length c s) as Hlen. unfold gostrings.Split in Hlen.
    destruct (gostrings.split_go (sep1 c) 0 s) as [|piece [|piece' pieces]];
      [discriminate Hlen| |].
    + cbn in IH |- *. now rewrite IH.
    + change (gostrings.Join (String d piece :: piece' :: pieces) (sep1 c))
        with (String d (piece ++ sep1 c ++ gostrings.Join (piece' :: pieces) (sep1 c))).
      change (gostrings.Join (piece :: piece' :: pieces) (sep1 c))
        with (piece ++ sep1 c ++ gostrings.Join (piece' :: pieces) (sep1 c)) in IH.
      now rewrite IH.
Qed.

(** A text with the byte once is two pieces around it, and so on. *)
Lemma Split_two c s :
  count c s = 1%nat ->
  exists a b, gostrings.Split s (sep1 c) = [a; b] /\ s = a ++ sep1 c ++ b.
Proof.
  intros H. pose proof (Split_length c s) as Hlen.
  pose proof (Split_Join c s) as Hjoin. rewrite H in Hlen.
  destruct (gostrings.Split s (sep1 c)) as [|a [|b [|]]]; try discriminate Hlen.
  exists a, b. split; [reflexivity|]. now rewrite <- Hjoin.
Qed.

Lemma Split_three c s :
  count c s = 2%nat ->
  exists a b d, gostrings.Split s (sep1 c) = [a; b; d]
                /\ s = a ++ sep1 c ++ b ++ sep1 c ++ d.
Proof.
  intros H. pose proof (Split_length c s) as Hlen.
  pose proof (Split_Join c s) as Hjoin. rewrite H in Hlen.
  destruct (gostrings.Split s (sep1 c)) as [|a [|b [|d [|]]]]; try discriminate Hlen.
  exists a, b, d. split; [reflexivity|]. now rewrite <- Hjoin.
Qed.

End StringFacts.

(** ** The library functions on samples *)

Example Split_samples :
  gostrings.Split "8.0.1-dmr" "-" = ["8.0.1"; "dmr"]
  /\ gostrings.Split "8.0.1" "." = ["8"; "0"; "1"]
  /\ gostrings.Split EmptyString "." = [EmptyString]
  /\ gostrings.Split ("offset=12.5" ++ LF) LF = ["offset=12.5"; EmptyString]
  /\ gostrings.Split "a=b=c" "=" = ["a"; "b"; "c"].
Proof. repeat split. Qed.

Example Fields_samples :
  gostrings.Fields "Last offset     : -0.000123456 seconds"
  = ["Last"; "offset"; ":"; "-0.000123456"; "seconds"]
  /\ gostrings.Fields ("  ntpd" ++ String (byte 9) "812 ") = ["ntpd"; "812"]
  /\ gostrings.Fields "   " = [].
Proof. repeat split. Qed.

Example Atoi_samples :
  strconv.Atoi "33" = (33, None)
  /\ strconv.Atoi "-7" = (-7, None)
  /\ snd (strconv.Atoi "abc") = Some (strconv.syntaxError "Atoi" "abc")
  /\ snd (strconv.Atoi EmptyString) = Some (strconv.syntaxError "Atoi" EmptyString)
  /\ strconv.Atoi "9223372036854775808"
     = (strconv.maxInt64, Some (strconv.rangeError "Atoi" "9223372036854775808")).
Proof. repeat split. Qed.

(** The double that [0.180] parses to lies within half a unit in the last
    place of 180/1000; [12.5] and [1e3] are exact. *)
Example ParseFloat_samples :
  strconv.ParseFloat "0.180" = (S754_finite false 6485183463413514 (-55), None)
  /\ 2 * Z.abs (6485183463413514 * 1000 - 180 * 2 ^ 55) <= 1000
  /\ strconv.ParseFloat "12.5" = (S754_finite false 7036874417766400 (-49), None)
  /\ 7036874417766400 * 10 = 125 * 2 ^ 49
  /\ strconv.ParseFloat "1e3" = (float.of_Z 1000, None)
  /\ strconv.ParseFloat "0x1p-2" = (float.of_quotient false 1 4, None)
  /\ strconv.ParseFloat "-Inf" = (S754_infinity true, None)
  /\ snd (strconv.ParseFloat "12.5ms") = Some (strconv.syntaxError "ParseFloat" "12.5ms")
  /\ strconv.ParseFloat "1e400"
     = (S754_infinity false, Some (strconv.rangeError "ParseFloat" "1e400")).
Proof. repeat split; vm_compute; try reflexivity; discriminate. Qed.

Example Sprint_f_samples :
  fmt.Sprint_f (float.of_quotient false 180 1000) = "0.180000"
  /\ fmt.Sprint_f (float.of_Z 100) = "100.000000"
  /\ fmt.Sprint_f (float.of_quotient false 15 10000000) = "0.000002"
  /\ fmt.Sprint_f S754_nan = "NaN".
Proof. repeat split; vm_compute; reflexivity. Qed.

Example lines_samples :
  bufio.lines (textReader ("COMMAND" ++ LF ++ "chronyd" ++ String (byte 13) LF ++ "sshd"))
  = ["COMMAND"; "chronyd"; "sshd"]
  /\ bufio.lines (textReader EmptyString) = []
  /\ filepath.Base "/usr/sbin/ntpd" = "ntpd".
Proof. repeat split. Qed.

(** ** The NTP offset plugin: the two parsers *)

Section ParserFacts.
Import checkntpoffset.


(** The choice of the line, by the number of line feeds of the text. *)
Lemma parseNTPOffsetFromNTPD_lines text :
  parseNTPOffsetFromNTPD (textReader text)
  = match gostrings.Split text LF with
    | [l0; _] => offsetOfLine l0
    | [l0; l1; _] =>
        if gostrings.HasPrefix l0 "assID=0" then offsetOfLine l1
        else (float.zero, Some ntpdDown)
    | _ => (float.zero, Some ntpdDown)
    end.
Proof.
  unfold parseNTPOffsetFromNTPD, textReader, ioutil.ReadAll. cbn [data readErr].
  destruct (gostrings.Split text LF) as [|l0 [|l1 [|l2 [|l3 ls]]]]; try reflexivity.
  destruct (gostrings.HasPrefix l0 "assID=0") eqn:E.
  - apply Index_prefix in E. now rewrite E.
  - destruct (gostrings.Index l0 "assID=0" =? 0) eqn:E'; [|reflexivity].
    apply Z.eqb_eq, Index_prefix in E'. congruence.
Qed.

Lemma offsetOfLine_pair line :
  count "=" line = 1%nat ->
  exists k v, line = k ++ "=" ++ v
              /\ offsetOfLine line = strconv.ParseFloat (gostrings.Trim v LF).
Proof.
  intros H. destruct (Split_two "=" line H) as (k & v & Hs & Hl).
  exists k, v. split; [exact Hl|].
  unfold offsetOfLine. change "=" with (sep1 "="). now rewrite Hs.
Qed.

Lemma offsetOfLine_other line :
  count "=" line <> 1%nat -> offsetOfLine line = (float.zero, Some ntpdDown).
Proof.
  intros H. pose proof (Split_length "=" line) as Hlen.
  unfold offsetOfLine. change "=" with (sep1 "=").
  destruct (gostrings.Split line (sep1 "=")) as [|a [|b [|]]]; try reflexivity.
  cbn in Hlen. congruence.
Qed.

(** The scanner on a text that starts with a line: the line is yielded when
    it fits the buffer with its line feed, and ends the scan when not. *)
Lemma scan_go_line line rest : forall cur n,
  count (byte 10) line = 0%nat ->
  n + len line + 1 <= bufio.MaxScanTokenSize ->
  bufio.scan_go cur n (line ++ LF ++ rest)
  = rev_string EmptyString (bufio.dropCR (rev_string cur line))
      :: bufio.scan_go EmptyString 0 rest.
Proof.
  unfold len. induction line as [|c line IH]; intros cur n Hc Hn.
  - change (EmptyString ++ LF ++ rest) with (String (byte 10) rest).
    cbn [bufio.scan_go rev_string]. rewrite Ascii.eqb_refl.
    cbn [String.length] in Hn.
    destruct (Z.leb_spec (n + 1) bufio.MaxScanTokenSize); [reflexivity|lia].
  - cbn [count] in Hc.
    change (String c line ++ LF ++ rest) with (String c (line ++ LF ++ rest)).
    cbn [bufio.scan_go rev_string].
    destruct (Ascii.eqb c (byte 10)); [discriminate Hc|].
    apply IH; [exact Hc|]. cbn [String.length] in Hn. lia.
Qed.

Lemma scan_go_long line rest : forall cur n,
  count (byte 10) line = 0%nat ->
  bufio.MaxScanTokenSize < n + len line + 1 ->
  bufio.scan_go cur n (line ++ LF ++ rest) = [].
Proof.
  unfold len. induction line as [|c line IH]; intros cur n Hc Hn.
  - change (EmptyString ++ LF ++ rest) with (String (byte 10) rest).
    cbn [bufio.scan_go]. rewrite Ascii.eqb_refl.
    cbn [String.length] in Hn.
    destruct (Z.leb_spec (n + 1) bufio.MaxScanTokenSize); [lia|reflexivity].
  - cbn [count] in Hc.
    change (String c line ++ LF ++ rest) with (String c (line ++ LF ++ rest)).
    cbn [bufio.scan_go].
    destruct (Ascii.eqb c (byte 10)); [discriminate Hc|].
    apply IH; [exact Hc|]. cbn [String.length] in Hn. lia.
Qed.

(** Lines that do not start with the label are passed over. *)
Lemma parseChronyLines_skip pre lines :
  Forall (fun l => gostrings.HasPrefix l "Last offset" = false) pre ->
  parseChronyLines (pre ++ lines) = parseChronyLines lines.
Proof.
  induction 1 as [|l pre Hl _ IH]; [reflexivity|].
  cbn [app parseChronyLines]. now rewrite Hl.
Qed.

End ParserFacts.

(** C5. The ntpd parser, on every text read without error.  A text with
    one line feed (two lines) is parsed by its first line; a text with two
    line feeds (three lines) by its second line, if the first line starts
    with [assID=0], and is an error otherwise; any other number of lines is
    an error.  The chosen line must hold [=] exactly once, [key=value], and
    the result is the value, line feeds trimmed, parsed as a float; a line
    with no or several [=] is an error.  A read error is returned as it is.
    The two sample outputs give the doubles nearest to 0.180 and 12.5. *)
Theorem parseNTPOffsetFromNTPD_spec (text : string) :
  let result := checkntpoffset.parseNTPOffsetFromNTPD (textReader text) in
  let failed := (float.zero, Some checkntpoffset.ntpdDown) in
  (count (byte 10) text = 1%nat ->
   exists l0 l1,
     text = l0 ++ LF ++ l1 /\ count (byte 10) l0 = 0%nat
     /\ result = checkntpoffset.offsetOfLine l0)
  /\ (count (byte 10) text = 2%nat ->
      exists l0 l1 l2,
        text = l0 ++ LF ++ l1 ++ LF ++ l2
        /\ count (byte 10) l0 = 0%nat /\ count (byte 10) l1 = 0%nat
        /\ (gostrings.HasPrefix l0 "assID=0" = true ->
            result = checkntpoffset.offsetOfLine l1)
        /\ (gostrings.HasPrefix l0 "assID=0" = false -> result = failed))
  /\ (count (byte 10) text <> 1%nat -> count (byte 10) text <> 2%nat ->
      result = failed)
  /\ (forall line,
         (count "=" line = 1%nat ->
          exists k v,
            line = k ++ "=" ++ v
            /\ checkntpoffset.offsetOfLine line
               = strconv.ParseFloat (gostrings.Trim v LF))
         /\ (count "=" line <> 1%nat -> checkntpoffset.offsetOfLine line = failed))
  /\ (forall e,
         checkntpoffset.parseNTPOffsetFromNTPD {| data := text; readErr := Some e |}
         = (float.zero, Some e))
  /\ checkntpoffset.parseNTPOffsetFromNTPD
       (textReader ("assID=0 status=06f4 ..." ++ LF ++ "offset=0.180" ++ LF))
     = (float.of_quotient false 180 1000, None)
  /\ checkntpoffset.parseNTPOffsetFromNTPD (textReader ("offset=12.5" ++ LF))
     = (float.of_quotient false 125 10, None).
Proof.
  intros result failed. subst result. rewrite parseNTPOffsetFromNTPD_lines.
  change LF with (sep1 (byte 10)).
  pose proof (Split_pieces (byte 10) text) as Hpieces.
  split; [|split; [|split; [|split; [intros line; split|split; [|split]]]]].
  - intros H. destruct (Split_two _ _ H) as (l0 & l1 & Hs & Ht).
    rewrite Hs in Hpieces |- *. inversion Hpieces; subst. now exists l0, l1.
  - intros H. destruct (Split_three _ _ H) as (l0 & l1 & l2 & Hs & Ht).
    rewrite Hs in Hpieces |- *.
    inversion Hpieces as [|? ? H0 Hrest]; subst. inversion Hrest; subst.
    exists l0, l1, l2. repeat split; trivial; intros E; now rewrite E.
  - intros H1 H2. pose proof (Split_length (byte 10) text) as Hlen.
    destruct (gostrings.Split text (sep1 (byte 10))) as [|a [|b [|d [|]]]];
      try reflexivity; cbn in Hlen; congruence.
  - apply offsetOfLine_pair.
  - apply offsetOfLine_other.
  - reflexivity.
  - vm_compute. reflexivity.
  - vm_compute. reflexivity.
Qed.

Lemma parseNTPOffsetFromNTPD_spec_witness :
  exists l0 l1,
    "offset=12.5" ++ LF = l0 ++ LF ++ l1 /\ count (byte 10) l0 = 0%nat
    /\ checkntpoffset.parseNTPOffsetFromNTPD (textReader ("offset=12.5" ++ LF))
       = checkntpoffset.offsetOfLine l0.
Proof.
  pose proof (parseNTPOffsetFromNTPD_spec ("offset=12.5" ++ LF)) as H.
  cbv zeta in H. destruct H as (H & _). apply H. reflexivity.
Defined.

(** C6. The chrony parser, on every input.  The lines the scanner yields
    (each line of the text without its end of line marker, as long as the
    lines fit the scanner's buffer) are taken in order up to the first that
    begins with [Last offset].  If that line has
    exactly five white-space separated fields, the field of index 3 is
    parsed as a float of seconds (its error, if any, is returned) and the
    result is that value times 1000; with another number of fields, 4 or 6
    among them, the result is an error; so it is when no line begins with
    the label.  The sample line gives the double nearest to -0.000123456,
    times 1000. *)
Theorem parseNTPOffsetFromChrony_spec (out : Reader) :
  let result := checkntpoffset.parseNTPOffsetFromChrony out in
  let failed := (float.zero, Some checkntpoffset.chronyFailed) in
  let labelled := fun l => gostrings.HasPrefix l "Last offset" in
  (forall pre line post,
      bufio.lines out = (pre ++ line :: post)%list ->
      Forall (fun l => labelled l = false) pre ->
      labelled line = true ->
      (forall f0 f1 f2 f3 f4,
          gostrings.Fields line = [f0; f1; f2; f3; f4] ->
          result = match strconv.ParseFloat f3 with
                   | (_, Some err) => (float.zero, Some err)
                   | (seconds, None) => (float.mul seconds (float.of_Z 1000), None)
                   end)
      /\ (length (gostrings.Fields line) <> 5%nat -> result = failed))
  /\ (Forall (fun l => labelled l = false) (bufio.lines out) -> result = failed)
  /\ (forall line rest,
         count (byte 10) line = 0%nat ->
         (len line < bufio.MaxScanTokenSize ->
          bufio.lines (textReader (line ++ LF ++ rest))
          = chomp line :: bufio.lines (textReader rest))
         /\ (bufio.MaxScanTokenSize <= len line ->
             bufio.lines (textReader (line ++ LF ++ rest)) = []))
  /\ checkntpoffset.parseNTPOffsetFromChrony
       (textReader "Last offset     : -0.000123456 seconds")
     = (float.mul (float.of_quotient true 123456 (10 ^ 9)) (float.of_Z 1000), None)
  /\ checkntpoffset.parseNTPOffsetFromChrony
       (textReader "Last offset     : -0.000123456")
     = failed
  /\ checkntpoffset.parseNTPOffsetFromChrony
       (textReader "Last offset     : -0.000123456 seconds fast")
     = failed.
Proof.
  intros result failed labelled. subst result.
  unfold checkntpoffset.parseNTPOffsetFromChrony.
  split; [|split; [|split; [|split; [|split]]]].
  - intros pre line post Hlines Hpre Hline. rewrite Hlines.
    rewrite (parseChronyLines_skip pre (line :: post) Hpre).
    cbn [checkntpoffset.parseChronyLines]. subst labelled. cbv beta in Hline.
    rewrite Hline. split.
    + intros f0 f1 f2 f3 f4 ->. reflexivity.
    + intros Hlen.
      destruct (gostrings.Fields line) as [|a [|b [|c [|d [|e [|]]]]]];
        try reflexivity.
      now elim Hlen.
  - intros Hnone.
    rewrite <- (app_nil_r (bufio.lines out)).
    now rewrite (parseChronyLines_skip _ [] Hnone).
  - intros line rest Hc. unfold bufio.lines, textReader. cbn [data]. split; intros Hlen.
    + apply scan_go_line; [exact Hc|lia].
    + apply scan_go_long; [exact Hc|lia].
  - vm_compute. reflexivity.
  - vm_compute. reflexivity.
  - vm_compute. reflexivity.
Qed.

Lemma parseNTPOffsetFromChrony_spec_witness :
  checkntpoffset.parseNTPOffsetFromChrony
    (textReader ("Reference ID    : A9FEA97B (169.254.169.123)" ++ LF
                 ++ "Last offset     : +0.000021 seconds" ++ LF
                 ++ "RMS offset      : 0.000030 seconds" ++ LF))
  = match strconv.ParseFloat "+0.000021" with
    | (_, Some err) => (float.zero, Some err)
    | (seconds, None) => (float.mul seconds (float.of_Z 1000), None)
    end.
Proof.
  pose proof (parseNTPOffsetFromChrony_spec
                (textReader ("Reference ID    : A9FEA97B (169.254.169.123)" ++ LF
                             ++ "Last offset     : +0.000021 seconds" ++ LF
                             ++ "RMS offset      : 0.000030 seconds" ++ LF))) as H.
  cbv zeta in H. destruct H as (H & _).
  destruct (H ["Reference ID    : A9FEA97B (169.254.169.123)"]
              "Last offset     : +0.000021 seconds"
              ["RMS offset      : 0.000030 seconds"]) as (H5 & _).
  - vm_compute. reflexivity.
  - repeat constructor.
  - reflexivity.
  - apply (H5 "Last" "offset" ":" "+0.000021" "seconds"). vm_compute. reflexivity.
Defined.

(** ** Facts about [float64] comparisons *)

Section FloatFacts.

Ltac compare_cases :=
  repeat match goal with
    | H : context [Z.compare ?a ?b] |- _ => destruct (Z.compare_spec a b)
    | |- context [Z.compare ?a ?b] => destruct (Z.compare_spec a b)
    | H : context [Pos.compare_cont Eq ?a ?b] |- _ =>
        change (Pos.compare_cont Eq a b) with (Pos.compare a b) in *;
        destruct (Pos.compare_spec a b)
    | |- context [Pos.compare_cont Eq ?a ?b] =>
        change (Pos.compare_cont Eq a b) with (Pos.compare a b) in *;
        destruct (Pos.compare_spec a b)
    end.

(** Below a value, hence below every value that is at least as large. *)
Lemma ltb_leb_trans (c x y : float64) :
  float.ltb c x = true -> float.leb x y = true -> float.ltb c y = true.
Proof.
  unfold float.ltb, float.leb, SFltb, SFleb.
  destruct c as [sc|sc| |sc mc ec], x as [sx|sx| |sx mx ex],
        y as [sy|sy| |sy my ey];
    cbn [SFcompare]; try easy;
    repeat match goal with s : bool |- _ => destruct s end;
    cbn; try easy;
    intros H1 H2; compare_cases; subst; cbn in *; try easy; try lia.
Qed.

Lemma Abs_Abs (x : float64) : float.Abs (float.Abs x) = float.Abs x.
Proof. now destruct x. Qed.

End FloatFacts.

(** ** The NTP offset plugin: classification *)

(** C7. The classification of a measured offset looks at its absolute
    value only: CRITICAL when the critical threshold is below it, else
    WARNING when the warning threshold is below it, else OK, whatever the
    sign of the offset.  Hence it is monotonic: with the same thresholds, an
    offset whose absolute value is at most that of another gets a status
    that is not more severe.  The defaults are 50 and 100 milliseconds, and
    [run] classifies every offset it measures. *)
Theorem classify_abs_monotone (opts : checkntpoffset.Opts) (o1 o2 : float64) :
  let st := fun o => checkers.status (checkntpoffset.classify opts o) in
  (float.ltb (checkntpoffset.Crit opts) (float.Abs o1) = true ->
   st o1 = checkers.CRITICAL)
  /\ (float.ltb (checkntpoffset.Crit opts) (float.Abs o1) = false ->
      float.ltb (checkntpoffset.Warn opts) (float.Abs o1) = true ->
      st o1 = checkers.WARNING)
  /\ (float.ltb (checkntpoffset.Crit opts) (float.Abs o1) = false ->
      float.ltb (checkntpoffset.Warn opts) (float.Abs o1) = false ->
      st o1 = checkers.OK)
  /\ (float.Abs o1 = float.Abs o2 ->
      checkntpoffset.classify opts o1 = checkntpoffset.classify opts o2)
  /\ checkntpoffset.classify opts (float.Abs o1) = checkntpoffset.classify opts o1
  /\ (float.leb (float.Abs o1) (float.Abs o2) = true ->
      checkers.severity (st o1) <= checkers.severity (st o2))
  /\ (checkntpoffset.Warn checkntpoffset.defaultOpts = fst (strconv.ParseFloat "50")
      /\ checkntpoffset.Crit checkntpoffset.defaultOpts = fst (strconv.ParseFloat "100"))
  /\ (forall ParseArgs h args,
         ParseArgs args = (opts, None) ->
         checkntpoffset.getNtpOffset h = Return (o1, None) ->
         checkntpoffset.run ParseArgs h args
         = Return (checkntpoffset.classify opts o1)).
Proof.
  intros st. subst st. unfold checkntpoffset.classify. cbv beta.
  split; [|split; [|split; [|split; [|split; [|split; [|split]]]]]].
  - now intros ->.
  - now intros -> ->.
  - now intros -> ->.
  - now intros ->.
  - now rewrite Abs_Abs.
  - intros Hle.
    destruct (float.ltb (checkntpoffset.Crit opts) (float.Abs o1)) eqn:C1.
    + now rewrite (ltb_leb_trans _ _ _ C1 Hle).
    + destruct (float.ltb (checkntpoffset.Warn opts) (float.Abs o1)) eqn:W1.
      * rewrite (ltb_leb_trans _ _ _ W1 Hle).
        now destruct (float.ltb (checkntpoffset.Crit opts) (float.Abs o2)).
      * now destruct (float.ltb (checkntpoffset.Crit opts) (float.Abs o2)),
                     (float.ltb (checkntpoffset.Warn opts) (float.Abs o2)).
  - split; vm_compute; reflexivity.
  - intros ParseArgs h args Hparse Hoffset.
    unfold checkntpoffset.run. rewrite Hparse, Hoffset. reflexivity.
Qed.

(** With the default thresholds: 12.5 ms is OK, -75.5 ms is WARNING, and
    the status of -75.5 ms is not more severe than that of 180 ms. *)
Lemma classify_abs_monotone_witness :
  checkers.status
    (checkntpoffset.classify checkntpoffset.defaultOpts
       (float.of_quotient true 755 10)) = checkers.WARNING
  /\ checkers.severity
       (checkers.status
          (checkntpoffset.classify checkntpoffset.defaultOpts
             (float.of_quotient true 755 10)))
     <= checkers.severity
          (checkers.status
             (checkntpoffset.classify checkntpoffset.defaultOpts (float.of_Z 180))).
Proof.
  pose proof (classify_abs_monotone checkntpoffset.defaultOpts
                (float.of_quotient true 755 10) (float.of_Z 180)) as H.
  cbv zeta beta in H. destruct H as (_ & Hw & _ & _ & _ & Hmono & _).
  split.
  - apply Hw; vm_compute; reflexivity.
  - apply Hmono. vm_compute. reflexivity.
Defined.

(** ** The scanner, one call at a time *)

Section ScannerFacts.

(** Past the size of the buffer no token comes. *)
Lemma scan_go_full s : forall cur n,
  bufio.MaxScanTokenSize <= n -> bufio.scan_go cur n s = [].
Proof.
  induction s as [|c s IH]; intros cur n Hn; cbn [bufio.scan_go].
  - destruct (Z.ltb_spec n bufio.MaxScanTokenSize); [lia|].
    now rewrite andb_false_r.
  - destruct (Ascii.eqb c (byte 10)).
    + destruct (Z.leb_spec (n + 1) bufio.MaxScanTokenSize); [lia|reflexivity].
    + apply IH. lia.
Qed.

(** The tokens of a loop [for scr.Scan()] are those of the successive
    calls, up to the first that returns [false]. *)
Lemma scan_go_scanToken s : forall cur n,
  n < bufio.MaxScanTokenSize ->
  bufio.scan_go cur n s
  = match bufio.scanToken false cur n s with
    | (Some text, scr) => text :: bufio.scan_go EmptyString 0 (bufio.pending scr)
    | (None, _) => []
    end
  /\ (forall text scr,
        bufio.scanToken false cur n s = (Some text, scr) -> bufio.tooLong scr = false).
Proof.
  induction s as [|c s IH]; intros cur n Hn; cbn [bufio.scan_go bufio.scanToken].
  - destruct (Z.ltb_spec n bufio.MaxScanTokenSize); [|lia].
    rewrite andb_true_r. split.
    + now destruct (0 <? n).
    + intros text scr Heq. now injection Heq as _ <-.
  - destruct (Ascii.eqb c (byte 10)).
    + destruct (Z.leb_spec (n + 1) bufio.MaxScanTokenSize); [|lia]. split.
      * reflexivity.
      * intros text scr Heq. now injection Heq as _ <-.
    + cbn [negb andb].
      destruct (Z.leb_spec bufio.MaxScanTokenSize (n + 1)).
      * split; [now apply scan_go_full|discriminate].
      * now apply IH.
Qed.

Lemma lines_Scan (s : string) :
  bufio.scan_go EmptyString 0 s
  = match bufio.Scan {| bufio.pending := s; bufio.tooLong := false |} with
    | (Some text, scr) => text :: bufio.scan_go EmptyString 0 (bufio.pending scr)
    | (None, _) => []
    end
  /\ (forall text scr,
        bufio.Scan {| bufio.pending := s; bufio.tooLong := false |} = (Some text, scr) ->
        bufio.tooLong scr = false).
Proof. apply scan_go_scanToken. reflexivity. Qed.

(** Two lines of a loop are the texts of the first two calls. *)
Lemma lines_two (r : Reader) l0 line rest :
  bufio.lines r = l0 :: line :: rest ->
  exists scr1 scr2,
    bufio.Scan (bufio.NewScanner r) = (Some l0, scr1)
    /\ bufio.Scan scr1 = (Some line, scr2).
Proof.
  unfold bufio.lines, bufio.NewScanner. intros H.
  destruct (lines_Scan (data r)) as [H1 Hflag1]. rewrite H1 in H.
  destruct (bufio.Scan {| bufio.pending := data r; bufio.tooLong := false |})
    as [[text1|] [p1 f1]] eqn:E1; [|discriminate H].
  specialize (Hflag1 text1 _ eq_refl). cbn [bufio.tooLong bufio.pending] in Hflag1, H.
  subst f1. injection H as <- H.
  destruct (lines_Scan p1) as [H2 _]. rewrite H2 in H.
  destruct (bufio.Scan {| bufio.pending := p1; bufio.tooLong := false |})
    as [[text2|] scr2] eqn:E2; [|discriminate H].
  injection H as <- _. now exists {| bufio.pending := p1; bufio.tooLong := false |}, scr2.
Qed.

End ScannerFacts.

(** ** Failures to measure *)

Section FailureFacts.

Import checkntpoffset.

(** [withCmd] by cases: the pipe, the start, the function, the wait. *)
Lemma withCmd_pipe {S : Type} cmd (fn : Reader -> S -> outcome (S * option error)) s e :
  exec.pipeErr cmd = Some e -> withCmd cmd fn s = Return (s, Some e).
Proof. unfold withCmd. now intros ->. Qed.

Lemma withCmd_start {S : Type} cmd (fn : Reader -> S -> outcome (S * option error)) s e :
  exec.pipeErr cmd = None -> exec.startErr cmd = Some e ->
  withCmd cmd fn s = Return (s, Some e).
Proof. unfold withCmd. now intros -> ->. Qed.

Lemma withCmd_fn {S : Type} cmd (fn : Reader -> S -> outcome (S * option error)) s s' e :
  exec.pipeErr cmd = None -> exec.startErr cmd = None ->
  fn (exec.stdout cmd) s = Return (s', Some e) ->
  withCmd cmd fn s = Return (s', Some e).
Proof. unfold withCmd. now intros -> -> ->. Qed.

Lemma withCmd_wait {S : Type} cmd (fn : Reader -> S -> outcome (S * option error)) s s' :
  exec.pipeErr cmd = None -> exec.startErr cmd = None ->
  fn (exec.stdout cmd) s = Return (s', None) ->
  withCmd cmd fn s = Return (s', exec.waitErr cmd).
Proof. unfold withCmd. now intros -> -> ->. Qed.

Lemma withCmd_launch {S : Type} cmd (fn : Reader -> S -> outcome (S * option error)) s e :
  launchFails cmd e -> withCmd cmd fn s = Return (s, Some e).
Proof.
  intros [H|[H1 H2]]; [now apply withCmd_pipe|now apply withCmd_start].
Qed.

Lemma detect_launch h e :
  launchFails (if Getuid h =? 0 then Command h "lsof" ["-i:123"]
               else Command h "ps" ["-eo"; "comm"]) e ->
  detectNTPDname h = Return (EmptyString, Some e).
Proof.
  unfold detectNTPDname. destruct (Getuid h =? 0); apply withCmd_launch.
Qed.

Lemma detect_no_daemon h :
  Getuid h = 0 -> launched (Command h "lsof" ["-i:123"]) ->
  (forall line,
      fst (bufio.Scan (snd (bufio.Scan (bufio.NewScanner
                                          (exec.stdout (Command h "lsof" ["-i:123"]))))))
      = Some line -> line = EmptyString) ->
  detectNTPDname h = Return (EmptyString, Some noNtpErr).
Proof.
  intros Huid [Hpipe Hstart] Hline. unfold detectNTPDname. rewrite Huid.
  cbn [Z.eqb]. apply withCmd_fn; trivial. cbv zeta.
  destruct (bufio.Scan (bufio.NewScanner _)) as [first scr1]. cbn [snd] in Hline.
  destruct (bufio.Scan scr1) as [[line|] scr2]; [|reflexivity].
  now rewrite (Hline line eq_refl).
Qed.

Lemma getNtpOffset_detect h name e :
  detectNTPDname h = Return (name, Some e) ->
  getNtpOffset h = Return (float.zero, Some e).
Proof. unfold getNtpOffset. now intros ->. Qed.

Lemma getNtpOffset_unsupported h name :
  detectNTPDname h = Return (name, None) ->
  name <> "ntpd" -> name <> "chronyd" ->
  getNtpOffset h
  = Return (float.zero, Some ("unsupported ntp daemon " ++ strconv.Quote name)).
Proof.
  unfold getNtpOffset. intros -> H1 H2. cbn [bind].
  destruct (String.eqb_spec name "ntpd"); [contradiction|].
  destruct (String.eqb_spec name "chronyd"); [contradiction|]. reflexivity.
Qed.

Lemma getNtpOffset_supported h name :
  detectNTPDname h = Return (name, None) ->
  name = "ntpd" \/ name = "chronyd" ->
  getNtpOffset h
  = withCmd (query h name) (fun out _ => Return (parser name out)) float.zero.
Proof.
  unfold getNtpOffset. intros -> [->| ->]; reflexivity.
Qed.

Lemma getNtpOffset_launch h name e :
  detectNTPDname h = Return (name, None) ->
  name = "ntpd" \/ name = "chronyd" ->
  launchFails (query h name) e ->
  getNtpOffset h = Return (float.zero, Some e).
Proof.
  intros Hd Hn Hl. rewrite (getNtpOffset_supported h name Hd Hn).
  now apply withCmd_launch.
Qed.

Lemma getNtpOffset_parse h name v e :
  detectNTPDname h = Return (name, None) ->
  name = "ntpd" \/ name = "chronyd" ->
  launched (query h name) ->
  parser name (exec.stdout (query h name)) = (v, Some e) ->
  getNtpOffset h = Return (v, Some e).
Proof.
  intros Hd Hn [Hp Hs] Hparse. rewrite (getNtpOffset_supported h name Hd Hn).
  apply withCmd_fn; trivial. now rewrite Hparse.
Qed.

Lemma getNtpOffset_wait h name v e :
  detectNTPDname h = Return (name, None) ->
  name = "ntpd" \/ name = "chronyd" ->
  launched (query h name) ->
  parser name (exec.stdout (query h name)) = (v, None) ->
  exec.waitErr (query h name) = Some e ->
  getNtpOffset h = Return (v, Some e).
Proof.
  intros Hd Hn [Hp Hs] Hparse Hw. rewrite (getNtpOffset_supported h name Hd Hn).
  rewrite <- Hw. apply withCmd_wait; trivial. now rewrite Hparse.
Qed.

Lemma classify_status opts o :
  checkers.status (classify opts o) = checkers.CRITICAL ->
  float.ltb (Crit opts) (float.Abs o) = true.
Proof.
  unfold classify. destruct (float.ltb (Crit opts) (float.Abs o)); [easy|].
  now destruct (float.ltb (Warn opts) (float.Abs o)).
Qed.

End FailureFacts.

(** C4, at the input where the code departs from it.  Root runs the
    plugin and [lsof] prints a header and a second line.  When the second
    line is empty the detection fails with the error "it seems no ntp daemon
    is running" and the result is UNKNOWN.  When the second line holds
    white space only, no daemon is detected either, but the code has tested
    the line against the empty text only: it indexes the first field of a
    line that has none and panics.  No check result is built, for any
    argument list the flag parser accepts, and the process ends with exit
    code 2, the exit code of CRITICAL. *)
Theorem blank_lsof_line_crashes :
  let root := fun lsofOutput =>
    MockHost.host 0 (MockHost.prints lsofOutput) (MockHost.notFound "ps")
      (MockHost.notFound "ntpq") (MockHost.notFound "chronyc") None in
  let empty := root ("COMMAND PID USER" ++ LF ++ LF) in
  let blank := root ("COMMAND PID USER" ++ LF ++ "  " ++ LF) in
  checkntpoffset.detectNTPDname empty
  = Return (EmptyString, Some checkntpoffset.noNtpErr)
  /\ checkntpoffset.Do MockHost.ParseArgs empty []
     = ExitChecker (checkers.setName (checkers.Unknown checkntpoffset.noNtpErr) "NTP")
  /\ exitCode (checkntpoffset.Do MockHost.ParseArgs empty [])
     = checkers.int checkers.UNKNOWN
  /\ gostrings.Fields "  " = []
  /\ checkntpoffset.detectNTPDname blank = Panic "runtime error: index out of range"
  /\ (forall (ParseArgs : list string -> checkntpoffset.Opts * option error) args,
         snd (ParseArgs args) = None ->
         checkntpoffset.Do ParseArgs blank args
         = Crash "runtime error: index out of range"
         /\ exitCode (checkntpoffset.Do ParseArgs blank args)
            = checkers.int checkers.CRITICAL
         /\ exitCode (checkntpoffset.Do ParseArgs blank args)
            <> checkers.int checkers.UNKNOWN
         /\ forall ckr, checkntpoffset.Do ParseArgs blank args <> ExitChecker ckr).
Proof.
  intros root empty blank.
  assert (Hblank : checkntpoffset.detectNTPDname blank
                   = Panic "runtime error: index out of range") by reflexivity.
  split; [reflexivity|]. split; [reflexivity|]. split; [reflexivity|].
  split; [reflexivity|]. split; [exact Hblank|].
  intros ParseArgs args Hparse.
  assert (HDo : checkntpoffset.Do ParseArgs blank args
                = Crash "runtime error: index out of range").
  { unfold checkntpoffset.Do, checkntpoffset.run, checkntpoffset.getNtpOffset.
    destruct (ParseArgs args) as [opts err]. cbn [snd] in Hparse. subst err.
    now rewrite Hblank. }
  rewrite HDo. cbn [exitCode checkers.int].
  split; [reflexivity|]. split; [reflexivity|]. split; discriminate.
Qed.

(** ** The MySQL plugin: the version parser *)

Section VersionFacts.
Import checkmysql.

Lemma Split_cons c s :
  exists piece pieces, gostrings.Split s (sep1 c) = piece :: pieces.
Proof.
  pose proof (Split_length c s) as H.
  destruct (gostrings.Split s (sep1 c)) as [|piece pieces]; [discriminate H|].
  now exists piece, pieces.
Qed.

(** The parser as a cascade over the components. *)
Lemma getMySQLVersion_components raw :
  getMySQLVersion (versionDB raw)
  = match components raw with
    | [] => Panic "runtime error: index out of range"
    | c0 :: rest =>
        match strconv.Atoi c0 with
        | (_, Some e) => Return (None, Some (versionError e))
        | (a, None) =>
            match rest with
            | [] => Panic "runtime error: index out of range"
            | c1 :: rest =>
                match strconv.Atoi c1 with
                | (_, Some e) => Return (None, Some (versionError e))
                | (b, None) =>
                    match rest with
                    | [] => Panic "runtime error: index out of range"
                    | c2 :: _ =>
                        match strconv.Atoi c2 with
                        | (_, Some e) => Return (None, Some (versionError e))
                        | (c, None) =>
                            Return (Some {| major := a; minor := b; patch := c;
                                            stability :=
                                              nth 1 (gostrings.Split raw "-") EmptyString |},
                                    None)
                        end
                    end
                end
            end
        end
    end.
Proof.
  unfold getMySQLVersion, components, versionDB. cbn [selectVersion].
  change "-" with (sep1 "-"). change "." with (sep1 ".").
  destruct (Split_cons "-" raw) as (seg0 & segs & ->).
  assert (Hstab :
    (if (1 <? length (seg0 :: segs))%nat then index (seg0 :: segs) 1
     else Return EmptyString)
    = Return (nth 1 (seg0 :: segs) EmptyString)).
  { destruct segs; reflexivity. }
  rewrite Hstab. cbn [bind index nth_error hd].
  destruct (Split_cons "." seg0) as (c0 & rest & ->). cbn [bind index nth_error].
  destruct (strconv.Atoi c0) as [a [e|]]; [reflexivity|].
  destruct rest as [|c1 rest]; [reflexivity|]. cbn [bind index nth_error].
  destruct (strconv.Atoi c1) as [b [e|]]; [reflexivity|].
  destruct rest as [|c2 rest]; [reflexivity|]. cbn [bind index nth_error].
  destruct (strconv.Atoi c2) as [c [e|]]; reflexivity.
Qed.

End VersionFacts.

(** C8. The version parser splits the text the server returns on [-], takes
    the second segment, if any, as stability, and parses the first three
    dot-separated components of the first segment as numbers.  If these
    three are numeric the result is the version they give.  If one of the
    first three components is not numeric the result is a parse error and no
    version, and a handler that surfaces the error reports UNKNOWN.  A
    version is returned only when the three components have been parsed: no
    default stands in.  The samples [8.0.1-dmr], [5.7.2] and [abc.0.1]
    parse as stated. *)
Theorem getMySQLVersion_parse (raw : string) :
  let db := versionDB raw in
  (forall c0 c1 c2 more a b c,
      components raw = c0 :: c1 :: c2 :: more ->
      strconv.Atoi c0 = (a, None) -> strconv.Atoi c1 = (b, None) ->
      strconv.Atoi c2 = (c, None) ->
      checkmysql.getMySQLVersion db
      = Return (Some {| checkmysql.major := a; checkmysql.minor := b;
                        checkmysql.patch := c;
                        checkmysql.stability :=
                          nth 1 (gostrings.Split raw "-") EmptyString |}, None))
  /\ (forall i c,
         (i < 3)%nat -> nth_error (components raw) i = Some c -> ~ numeric c ->
         exists e,
           checkmysql.getMySQLVersion db
           = Return (None, Some (checkmysql.versionError e))
           /\ forall k,
               checkmysql.withVersion db k
               = Return (checkers.Unknown (checkmysql.versionError e)))
  /\ (forall v err,
         checkmysql.getMySQLVersion db = Return (Some v, err) ->
         err = None
         /\ exists c0 c1 c2 more,
             components raw = c0 :: c1 :: c2 :: more
             /\ strconv.Atoi c0 = (checkmysql.major v, None)
             /\ strconv.Atoi c1 = (checkmysql.minor v, None)
             /\ strconv.Atoi c2 = (checkmysql.patch v, None))
  /\ checkmysql.getMySQLVersion (versionDB "8.0.1-dmr")
     = Return (Some {| checkmysql.major := 8; checkmysql.minor := 0;
                       checkmysql.patch := 1; checkmysql.stability := "dmr" |}, None)
  /\ checkmysql.getMySQLVersion (versionDB "5.7.2")
     = Return (Some {| checkmysql.major := 5; checkmysql.minor := 7;
                       checkmysql.patch := 2; checkmysql.stability := EmptyString |},
               None)
  /\ checkmysql.getMySQLVersion (versionDB "abc.0.1")
     = Return (None, Some (checkmysql.versionError (strconv.syntaxError "Atoi" "abc")))
  /\ (forall k,
         checkers.status
           (match checkmysql.withVersion (versionDB "abc.0.1") k with
            | Return ckr => ckr
            | _ => checkers.NewChecker checkers.OK EmptyString
            end) = checkers.UNKNOWN).
Proof.
  intros db. subst db.
  split; [|split; [|split; [|split; [|split; [|split]]]]].
  - intros c0 c1 c2 more a b c Hc H0 H1 H2.
    rewrite getMySQLVersion_components, Hc, H0, H1, H2. reflexivity.
  - intros i c Hi Hnth Hnum. unfold numeric in Hnum.
    assert (Hget : exists e,
      checkmysql.getMySQLVersion (versionDB raw)
      = Return (None, Some (checkmysql.versionError e))).
    { rewrite getMySQLVersion_components.
      destruct (components raw) as [|c0 rest]; [now destruct i|].
      destruct (strconv.Atoi c0) as [a [e|]] eqn:E0; [now exists e|].
      destruct i as [|i]; [injection Hnth as ->; now rewrite E0 in Hnum|].
      destruct rest as [|c1 rest]; [now destruct i|].
      destruct (strconv.Atoi c1) as [b [e|]] eqn:E1; [now exists e|].
      destruct i as [|i]; [injection Hnth as ->; now rewrite E1 in Hnum|].
      destruct rest as [|c2 rest]; [now destruct i|].
      destruct (strconv.Atoi c2) as [d [e|]] eqn:E2; [now exists e|].
      destruct i as [|i]; [injection Hnth as ->; now rewrite E2 in Hnum|].
      lia. }
    destruct Hget as (e & Hget). exists e. split; [exact Hget|].
    intros k. unfold checkmysql.withVersion. now rewrite Hget.
  - intros v err. rewrite getMySQLVersion_components.
    destruct (components raw) as [|c0 rest]; [discriminate|].
    destruct (strconv.Atoi c0) as [a [e|]] eqn:E0; [discriminate|].
    destruct rest as [|c1 rest]; [discriminate|].
    destruct (strconv.Atoi c1) as [b [e|]] eqn:E1; [discriminate|].
    destruct rest as [|c2 rest]; [discriminate|].
    destruct (strconv.Atoi c2) as [d [e|]] eqn:E2; [discriminate|].
    intros H. injection H as <- <-. split; [reflexivity|].
    exists c0, c1, c2, rest. cbn. auto.
  - vm_compute. reflexivity.
  - vm_compute. reflexivity.
  - vm_compute. reflexivity.
  - intros k. unfold checkmysql.withVersion.
    replace (checkmysql.getMySQLVersion (versionDB "abc.0.1"))
      with (@Return (option checkmysql.mysqlVersion * option error)
              (None, Some (checkmysql.versionError (strconv.syntaxError "Atoi" "abc"))))
      by (vm_compute; reflexivity).
    reflexivity.
Qed.

Lemma getMySQLVersion_parse_witness :
  checkmysql.getMySQLVersion (versionDB "5.7.33-0ubuntu0.18.04.1-log")
  = Return (Some {| checkmysql.major := 5; checkmysql.minor := 7;
                    checkmysql.patch := 33;
                    checkmysql.stability :=
                      nth 1 (gostrings.Split "5.7.33-0ubuntu0.18.04.1-log" "-")
                        EmptyString |}, None)
  /\ exists e,
      checkmysql.getMySQLVersion (versionDB "8.x.1")
      = Return (None, Some (checkmysql.versionError e))
      /\ forall k,
          checkmysql.withVersion (versionDB "8.x.1") k
          = Return (checkers.Unknown (checkmysql.versionError e)).
Proof.
  split.
  - pose proof (getMySQLVersion_parse "5.7.33-0ubuntu0.18.04.1-log") as H.
    cbv zeta in H. destruct H as (H & _).
    apply (H "5" "7" "33" []); vm_compute; reflexivity.
  - pose proof (getMySQLVersion_parse "8.x.1") as H.
    cbv zeta in H. destruct H as (_ & H & _).
    apply (H 1%nat "x").
    + lia.
    + vm_compute. reflexivity.
    + unfold numeric. vm_compute. discriminate.
Defined.

(** C10, as the code has it.  When the first segment has fewer than three
    components and all of them are numeric, [getMySQLVersion] panics with an
    index out of range, so that no caller gets a result to report: the panic
    passes through whatever the caller would do next.  So do [5.7] and [8].
    When one of the components present is not numeric, the components before
    the first such one are numeric and the result is the parse error of that
    component: for [abc] the error of parsing [abc], for [5.x] that of
    parsing [x]. *)
Theorem getMySQLVersion_short (raw : string) :
  (length (components raw) < 3)%nat ->
  (Forall numeric (components raw) ->
   checkmysql.getMySQLVersion (versionDB raw)
   = Panic "runtime error: index out of range"
   /\ forall (k : option checkmysql.mysqlVersion * option error
                  -> outcome checkers.Checker),
       bind (checkmysql.getMySQLVersion (versionDB raw)) k
       = Panic "runtime error: index out of range")
  /\ (~ Forall numeric (components raw) ->
      exists i c e,
        nth_error (components raw) i = Some c
        /\ (forall j cj,
               (j < i)%nat -> nth_error (components raw) j = Some cj -> numeric cj)
        /\ snd (strconv.Atoi c) = Some e
        /\ checkmysql.getMySQLVersion (versionDB raw)
           = Return (None, Some (checkmysql.versionError e)))
  /\ checkmysql.getMySQLVersion (versionDB "5.7")
     = Panic "runtime error: index out of range"
  /\ checkmysql.getMySQLVersion (versionDB "8")
     = Panic "runtime error: index out of range"
  /\ checkmysql.getMySQLVersion (versionDB "abc")
     = Return (None, Some (checkmysql.versionError (strconv.syntaxError "Atoi" "abc")))
  /\ checkmysql.getMySQLVersion (versionDB "5.x")
     = Return (None, Some (checkmysql.versionError (strconv.syntaxError "Atoi" "x"))).
Proof.
  intros Hlen.
  assert (Hcases :
    match components raw with
    | [] => True
    | [c0] =>
        match strconv.Atoi c0 with
        | (_, Some e) => ~ numeric c0
        | (_, None) => numeric c0
        end
    | [c0; c1] =>
        match strconv.Atoi c0, strconv.Atoi c1 with
        | (_, Some e), _ => ~ numeric c0
        | (_, None), (_, Some e) => numeric c0 /\ ~ numeric c1
        | (_, None), (_, None) => numeric c0 /\ numeric c1
        end
    | _ => False
    end).
  { unfold numeric.
    destruct (components raw) as [|c0 [|c1 [|c2 rest]]]; [exact I| | |cbn in Hlen; lia].
    - destruct (strconv.Atoi c0) as [a [e|]]; cbn; congruence.
    - destruct (strconv.Atoi c0) as [a [e|]], (strconv.Atoi c1) as [b [e'|]];
        cbn; try split; congruence. }
  rewrite getMySQLVersion_components.
  split; [|split; [|split; [|split; [|split]]]].
  - intros Hall.
    assert (Hpanic :
      match components raw with
      | [] => Panic "runtime error: index out of range"
      | c0 :: rest =>
          match strconv.Atoi c0 with
          | (_, Some e) => Return (None, Some (checkmysql.versionError e))
          | (a, None) =>
              match rest with
              | [] => Panic "runtime error: index out of range"
              | c1 :: rest =>
                  match strconv.Atoi c1 with
                  | (_, Some e) => Return (None, Some (checkmysql.versionError e))
                  | (b, None) =>
                      match rest with
                      | [] => Panic "runtime error: index out of range"
                      | c2 :: _ =>
                          match strconv.Atoi c2 with
                          | (_, Some e) =>
                              Return (None, Some (checkmysql.versionError e))
                          | (c, None) =>
                              Return
                                (Some {| checkmysql.major := a; checkmysql.minor := b;
                                         checkmysql.patch := c;
                                         checkmysql.stability :=
                                           nth 1 (gostrings.Split raw "-") EmptyString |},
                                 None)
                          end
                      end
                  end
              end
          end
      end = @Panic (option checkmysql.mysqlVersion * option error)
              "runtime error: index out of range").
    { destruct (components raw) as [|c0 [|c1 [|c2 rest]]]; [reflexivity| | |contradiction].
      - inversion Hall as [|? ? H0 _]; subst.
        destruct (strconv.Atoi c0) as [a [e|]]; [contradiction|reflexivity].
      - inversion Hall as [|? ? H0 Hrest]; subst. inversion Hrest as [|? ? H1 _]; subst.
        destruct (strconv.Atoi c0) as [a [e|]]; [contradiction|].
        destruct (strconv.Atoi c1) as [b [e|]]; [|reflexivity].
        destruct Hcases as [_ Hc]. contradiction. }
    rewrite Hpanic. split; [reflexivity|]. intros k. reflexivity.
  - intros Hnot. unfold numeric in *.
    destruct (components raw) as [|c0 [|c1 [|c2 rest]]];
      [elim Hnot; constructor| | |contradiction].
    + destruct (strconv.Atoi c0) as [a [e|]] eqn:E0.
      * exists 0%nat, c0, e. split; [reflexivity|]. split; [intros j cj Hj; lia|].
        split; [now rewrite E0|reflexivity].
      * elim Hnot. repeat constructor. now rewrite E0.
    + destruct (strconv.Atoi c0) as [a [e|]] eqn:E0.
      * exists 0%nat, c0, e. split; [reflexivity|]. split; [intros j cj Hj; lia|].
        split; [now rewrite E0|reflexivity].
      * destruct (strconv.Atoi c1) as [b [e|]] eqn:E1.
        -- exists 1%nat, c1, e. split; [reflexivity|]. split.
           ++ intros j cj Hj Hnth. destruct j as [|j]; [|lia].
              injection Hnth as <-. now rewrite E0.
           ++ split; [now rewrite E1|reflexivity].
        -- elim Hnot. repeat constructor; [now rewrite E0|now rewrite E1].
  - vm_compute. reflexivity.
  - vm_compute. reflexivity.
  - vm_compute. reflexivity.
  - vm_compute. reflexivity.
Qed.


Lemma getMySQLVersion_short_witness :
  checkmysql.getMySQLVersion (versionDB "10.4-MariaDB")
  = Panic "runtime error: index out of range"
  /\ forall (k : option checkmysql.mysqlVersion * option error
                 -> outcome checkers.Checker),
      bind (checkmysql.getMySQLVersion (versionDB "10.4-MariaDB")) k
      = Panic "runtime error: index out of range".
Proof.
  assert (Hlen : (length (components "10.4-MariaDB") < 3)%nat)
    by (vm_compute; lia).
  destruct (getMySQLVersion_short "10.4-MariaDB" Hlen) as (H & _).
  apply H.
  change (components "10.4-MariaDB") with ["10"; "4"].
  repeat constructor.
Defined.

(** Fewer than three components do not always end in a panic: the first
    segment of [abc] has one component, and the parser returns the parse
    error of that component. *)
Lemma getMySQLVersion_short_not_numeric :
  (length (components "abc") < 3)%nat
  /\ checkmysql.getMySQLVersion (versionDB "abc")
     = Return (None, Some (checkmysql.versionError (strconv.syntaxError "Atoi" "abc")))
  /\ ~ (exists msg, checkmysql.getMySQLVersion (versionDB "abc") = Panic msg).
Proof.
  split; [vm_compute; lia|].
  assert (H : checkmysql.getMySQLVersion (versionDB "abc")
              = Return (None, Some (checkmysql.versionError
                                      (strconv.syntaxError "Atoi" "abc"))))
    by (vm_compute; reflexivity).
  split; [exact H|]. intros [msg Hmsg]. rewrite H in Hmsg. discriminate Hmsg.
Qed.

(** ** The MySQL plugin: dispatch *)

Section DispatchFacts.
Import checkmysql.

Variables checkReplication checkConnection checkUptime checkReadOnly
  : list string -> outcome checkers.Checker.

Local Abbreviation table :=
  (commands checkReplication checkConnection checkUptime checkReadOnly).

Lemma commands_registered (k : string) :
  is_Some (table !! k) <-> In k subcommands.
Proof.
  unfold commands, subcommands. cbn [In].
  rewrite !lookup_insert_is_Some, lookup_empty.
  split.
  - intros [->|[_ [->|[_ [->|[_ [->|[_ H]]]]]]]]; auto.
    now destruct H.
  - intros [<-|[<-|[<-|[<-|[]]]]].
    + now left.
    + right. split; [discriminate|]. now left.
    + right. split; [discriminate|]. right. split; [discriminate|]. now left.
    + right. split; [discriminate|]. right. split; [discriminate|].
      right. split; [discriminate|]. now left.
Qed.

(** The keys a [range] over a map goes through, in any order. *)
Lemma range_keys {V : Type} (m : gmap string V) (order : list string) :
  Permutation order (map_to_list m).*1 ->
  forall k, In k order <-> is_Some (m !! k).
Proof.
  intros Hperm k. rewrite <- list_elem_of_In, Hperm, list_elem_of_fmap. split.
  - intros ([k' v] & Hk & Hin). cbn [fst] in Hk. subst k'.
    apply elem_of_map_to_list in Hin. now exists v.
  - intros [v Hv]. exists (k, v). split; [reflexivity|].
    now apply elem_of_map_to_list.
Qed.

Lemma keys_range {V : Type} (m : gmap string V) (names : list string) :
  NoDup names -> (forall k, In k names <-> is_Some (m !! k)) ->
  Permutation names (map_to_list m).*1.
Proof.
  intros Hnd Hnames. apply NoDup_Permutation.
  - exact Hnd.
  - apply NoDup_fst_map_to_list.
  - intros k. rewrite list_elem_of_In, Hnames, list_elem_of_fmap. split.
    + intros [v Hv]. exists (k, v). split; [reflexivity|].
      now apply elem_of_map_to_list.
    + intros ([k' v] & Hk & Hin). cbn [fst] in Hk. subst k'.
      apply elem_of_map_to_list in Hin. now exists v.
Qed.

Lemma Do_unregistered (order args : list string) :
  table !! fst (separateSub args) = None ->
  Do checkReplication checkConnection checkUptime checkReadOnly order args
  = ExitUsage (usage ++ LF ++ printKeys order) 1.
Proof.
  unfold Do. destruct (separateSub args) as [subCmd argv]. cbn [fst].
  intros H. rewrite H. reflexivity.
Qed.

Lemma empty_not_registered : table !! EmptyString = None.
Proof.
  apply eq_None_not_Some. intros H.
  apply commands_registered in H. unfold subcommands in H. cbn [In] in H.
  repeat (destruct H as [H|H]; [discriminate H|]). destruct H.
Qed.

Lemma subcommands_NoDup : NoDup subcommands.
Proof.
  unfold subcommands.
  repeat (apply NoDup_cons_2;
          [rewrite ?elem_of_cons, elem_of_nil; intros H;
           repeat (destruct H as [H|H]; [discriminate H|]); exact H|]).
  apply NoDup_nil_2.
Qed.

(** The four names are the keys of the table, each once. *)
Lemma subcommands_range : Permutation subcommands (map_to_list table).*1.
Proof.
  apply keys_range; [exact subcommands_NoDup|].
  intros k. symmetry. apply commands_registered.
Qed.

Lemma separateSub_flag (a : string) (rest : list string) :
  gostrings.HasPrefix a "-" = true -> fst (separateSub (a :: rest)) = EmptyString.
Proof. cbn [separateSub]. now intros ->. Qed.

Lemma separateSub_name (a : string) (rest : list string) :
  fst (separateSub (a :: rest)) = EmptyString \/ fst (separateSub (a :: rest)) = a.
Proof. cbn [separateSub]. destruct (gostrings.HasPrefix a "-"); auto. Qed.

End DispatchFacts.

(** C9, as the code has it.  When the first argument is absent, begins with
    [-], or names no registered subcommand, [Do] prints the usage text
    followed by the names of the registered subcommands, each once in the
    order the iteration over the table takes, and exits with code 1 without
    building a check result.  The code is not zero; it is the exit code of
    WARNING. *)
Theorem Do_usage_error
  (checkReplication checkConnection checkUptime checkReadOnly
     : list string -> outcome checkers.Checker)
  (order args : list string) :
  let table :=
    checkmysql.commands checkReplication checkConnection checkUptime checkReadOnly in
  let ended :=
    checkmysql.Do checkReplication checkConnection checkUptime checkReadOnly
      order args in
  Permutation order (map_to_list table).*1 ->
  (args = []
   \/ exists a rest,
       args = a :: rest /\ (gostrings.HasPrefix a "-" = true \/ table !! a = None)) ->
  ended = ExitUsage (checkmysql.usage ++ LF ++ checkmysql.printKeys order) 1
  /\ exitCode ended = 1
  /\ exitCode ended <> checkers.int checkers.OK
  /\ exitCode ended = checkers.int checkers.WARNING
  /\ (forall ckr, ended <> ExitChecker ckr)
  /\ (forall k, In k order <-> In k subcommands).
Proof.
  intros table ended Hperm Hargs.
  assert (Hnone : table !! fst (checkmysql.separateSub args) = None).
  { destruct Hargs as [->|(a & rest & -> & [Hflag|Hname])].
    - apply empty_not_registered.
    - rewrite (separateSub_flag a rest Hflag). apply empty_not_registered.
    - destruct (separateSub_name a rest) as [-> | ->];
        [apply empty_not_registered|exact Hname]. }
  assert (Hended :
    ended = ExitUsage (checkmysql.usage ++ LF ++ checkmysql.printKeys order) 1)
    by (apply Do_unregistered; exact Hnone).
  rewrite Hended. cbn [exitCode checkers.int].
  split; [reflexivity|]. split; [reflexivity|]. split; [discriminate|].
  split; [reflexivity|]. split; [discriminate|].
  intros k. rewrite (range_keys table order Hperm k).
  apply commands_registered.
Qed.

Lemma Do_usage_error_witness :
  let handler := fun _ : list string => Return (checkers.Unknown EmptyString) in
  let ended :=
    checkmysql.Do handler handler handler handler subcommands ["--host"; "db"] in
  ended = ExitUsage (checkmysql.usage ++ LF ++ checkmysql.printKeys subcommands) 1
  /\ exitCode ended = 1
  /\ exitCode ended <> checkers.int checkers.OK
  /\ exitCode ended = checkers.int checkers.WARNING
  /\ (forall ckr, ended <> ExitChecker ckr)
  /\ (forall k, In k subcommands <-> In k subcommands).
Proof.
  intros handler.
  apply (Do_usage_error handler handler handler handler subcommands ["--host"; "db"]).
  - apply subcommands_range.
  - right. exists "--host", ["db"]. split; [reflexivity|]. left. reflexivity.
Defined.

(** The exit code of the usage branch is not distinct from the four codes
    of a check result: on an empty argument list it is the exit code of
    WARNING. *)
Lemma Do_usage_code_is_warning_code :
  let handler := fun _ : list string => Return (checkers.Unknown EmptyString) in
  let ended := checkmysql.Do handler handler handler handler subcommands [] in
  exitCode ended = checkers.int checkers.WARNING
  /\ ~ (forall st, exitCode ended <> checkers.int st).
Proof.
  intros handler ended.
  assert (H : exitCode ended = checkers.int checkers.WARNING).
  { subst ended. rewrite Do_unregistered; [reflexivity|].
    cbn [checkmysql.separateSub fst]. apply empty_not_registered. }
  split; [exact H|]. intros Hall. exact (Hall checkers.WARNING H).
Qed.

(** * Further properties *)

(** ** The CloudWatch Logs plugin: the query loop on the scripted service *)

Section QueryLoopFacts.
Import checkcloudwatchlogs.

Variable p : cloudwatchLogsPlugin Mock.World.
Hypothesis p_service : Service p = Some Mock.API.

(** The whole log of the loop over pages with tokens and a last response
    without: the requests, the messages, the clock. *)
Lemma run_loop_log pages final rest : forall fuel tok acc c reqs,
  (length pages < fuel)%nat ->
  run_loop Mock.Now Mock.Sleep fuel p tok acc
    {| Mock.clock := c;
       Mock.script := (Mock.tokenPages pages ++ Mock.page final None :: rest)%list;
       Mock.requests := reqs |}
  = Some (Return
            ({| Mock.clock := c + 250 * Millisecond * Z.of_nat (length pages);
                Mock.script := rest;
                Mock.requests :=
                  (reqs ++ requestLog p c (tok :: Mock.tokensOf pages))%list |},
             ((acc ++ Mock.messagesOf pages ++ final)%list, None))).
Proof.
  induction pages as [|[msgs t] pages IH]; intros fuel tok acc c reqs Hfuel;
    (destruct fuel as [|fuel]; [simpl in Hfuel; lia|]).
  - cbn [Mock.tokenPages map app]. rewrite (run_loop_final p p_service).
    cbn [length Mock.tokensOf map Mock.messagesOf concat app requestLog].
    now replace (c + 250 * Millisecond * Z.of_nat 0) with c by (cbn; lia).
  - cbn [Mock.tokenPages map app fst snd]. rewrite (run_loop_token p p_service).
    unfold Mock.tokenPages in IH. rewrite IH by (simpl in Hfuel; lia).
    unfold Mock.messagesOf, Mock.tokensOf.
    cbn [map concat fst snd requestLog length].
    rewrite <- !app_assoc. cbn [app].
    do 4 f_equal. lia.
Qed.

(** The same for a failed request after the pages. *)
Lemma run_loop_failure_log pages e rest : forall fuel tok acc c reqs,
  (length pages < fuel)%nat ->
  run_loop Mock.Now Mock.Sleep fuel p tok acc
    {| Mock.clock := c;
       Mock.script := (Mock.tokenPages pages ++ Mock.failure e :: rest)%list;
       Mock.requests := reqs |}
  = Some (Return
            ({| Mock.clock := c + 250 * Millisecond * Z.of_nat (length pages);
                Mock.script := rest;
                Mock.requests :=
                  (reqs ++ requestLog p c (tok :: Mock.tokensOf pages))%list |},
             ([], Some e))).
Proof.
  induction pages as [|[msgs t] pages IH]; intros fuel tok acc c reqs Hfuel;
    (destruct fuel as [|fuel]; [simpl in Hfuel; lia|]).
  - cbn [Mock.tokenPages map app]. rewrite (run_loop_failure p p_service).
    cbn [length Mock.tokensOf map requestLog].
    now replace (c + 250 * Millisecond * Z.of_nat 0) with c by (cbn; lia).
  - cbn [Mock.tokenPages map app fst snd]. rewrite (run_loop_token p p_service).
    unfold Mock.tokenPages in IH. rewrite IH by (simpl in Hfuel; lia).
    unfold Mock.tokensOf. cbn [map snd requestLog length].
    rewrite <- !app_assoc. cbn [app].
    do 4 f_equal. lia.
Qed.

Lemma requestLog_length c toks : length (requestLog p c toks) = length toks.
Proof. revert c; induction toks; intros c; cbn; [reflexivity|now rewrite IHtoks]. Qed.

Lemma requestLog_tokens c toks : map InNextToken (requestLog p c toks) = toks.
Proof. revert c; induction toks; intros c; cbn; [reflexivity|now rewrite IHtoks]. Qed.

Lemma requestLog_nth c toks : forall k r,
  nth_error (requestLog p c toks) k = Some r ->
  exists tok,
    nth_error toks k = Some tok
    /\ r = Mock.request p (c + 250 * Millisecond * Z.of_nat k) tok.
Proof.
  revert c; induction toks as [|t toks IH]; intros c k r H.
  - now destruct k.
  - destruct k as [|k].
    + cbn in H. injection H as <-. exists t. split; [reflexivity|].
      f_equal. cbn. lia.
    + cbn [requestLog nth_error] in H. destruct (IH _ _ _ H) as (tok & Htok & ->).
      exists tok. split; [exact Htok|]. f_equal. lia.
Qed.

End QueryLoopFacts.

(** X1. On the scripted service, for any number of pages that carry a
    token followed by a response without token: the loop returns the
    messages of all the pages in the order received, sends one request per
    response read, the first without token and each next one with the token
    of the response before, and leaves the rest of the script unread; with
    no more fuel than pages with a token it has not returned. *)
Theorem run_any_number_of_pages
  (p : checkcloudwatchlogs.cloudwatchLogsPlugin Mock.World)
  (pages : list (list string * string)) (final : list string)
  (rest : list Mock.response) (c : Z) (fuel : nat) :
  checkcloudwatchlogs.Service p = Some Mock.API ->
  let w := Mock.start c (Mock.tokenPages pages ++ Mock.page final None :: rest)%list in
  ((length pages < fuel)%nat ->
   exists w',
     checkcloudwatchlogs.plugin_run Mock.Now Mock.Sleep fuel p w
     = Some (Return (w', ((Mock.messagesOf pages ++ final)%list, None)))
     /\ length (Mock.requests w') = S (length pages)
     /\ map checkcloudwatchlogs.InNextToken (Mock.requests w')
        = None :: Mock.tokensOf pages
     /\ Mock.script w' = rest)
  /\ ((fuel <= length pages)%nat ->
      checkcloudwatchlogs.plugin_run Mock.Now Mock.Sleep fuel p w = None).
Proof.
  intros HS w. split; intros Hfuel.
  - eexists. split; [|split; [|split]].
    + unfold checkcloudwatchlogs.plugin_run, w, Mock.start.
      rewrite (run_loop_log p HS pages final rest fuel None [] c [] Hfuel).
      reflexivity.
    + cbn [Mock.requests app]. rewrite (requestLog_length p).
      cbn [length]. unfold Mock.tokensOf. now rewrite length_map.
    + cbn [Mock.requests app]. apply requestLog_tokens.
    + reflexivity.
  - apply (run_loop_pages_short p HS pages (Mock.page final None :: rest)). exact Hfuel.
Qed.

Lemma run_any_number_of_pages_witness :
  exists w',
    checkcloudwatchlogs.plugin_run Mock.Now Mock.Sleep 5 (Mock.plugin 0 0)
      (Mock.start 1700000000000000000
         (Mock.tokenPages [(["a"], "t1"); ([], "t2"); (["b"; "c"], "t3"); (["d"], "t4")]
            ++ Mock.page ["e"] None :: [Mock.failure "unused"])%list)
    = Some (Return (w', ((Mock.messagesOf
                            [(["a"], "t1"); ([], "t2"); (["b"; "c"], "t3"); (["d"], "t4")]
                          ++ ["e"])%list, None)))
    /\ length (Mock.requests w') = 5%nat
    /\ map checkcloudwatchlogs.InNextToken (Mock.requests w')
       = None :: Mock.tokensOf
                   [(["a"], "t1"); ([], "t2"); (["b"; "c"], "t3"); (["d"], "t4")]
    /\ Mock.script w' = [Mock.failure "unused"].
Proof.
  apply (run_any_number_of_pages (Mock.plugin 0 0)
           [(["a"], "t1"); ([], "t2"); (["b"; "c"], "t3"); (["d"], "t4")]
           ["e"] [Mock.failure "unused"] 1700000000000000000 5 eq_refl).
  cbn. lia.
Defined.

(** X2. The time window of the query moves with the clock: the request
    number [k] (from 0) is sent 250 ms times [k] after the first and its
    start time is the whole second five minutes before that instant, in
    milliseconds; every request names the log group and the pattern of the
    instance; the loop does not sleep after the last response. *)
Theorem run_request_times
  (p : checkcloudwatchlogs.cloudwatchLogsPlugin Mock.World)
  (pages : list (list string * string)) (final : list string)
  (rest : list Mock.response) (c : Z) (fuel : nat) :
  checkcloudwatchlogs.Service p = Some Mock.API ->
  (length pages < fuel)%nat ->
  exists w' messages,
    checkcloudwatchlogs.plugin_run Mock.Now Mock.Sleep fuel p
      (Mock.start c (Mock.tokenPages pages ++ Mock.page final None :: rest)%list)
    = Some (Return (w', (messages, None)))
    /\ (forall k r,
           nth_error (Mock.requests w') k = Some r ->
           let sent := c + 250 * checkcloudwatchlogs.Millisecond * Z.of_nat k in
           checkcloudwatchlogs.StartTime r
           = Some ((sent - 5 * checkcloudwatchlogs.Minute) / 10 ^ 9 * 1000)
           /\ checkcloudwatchlogs.InLogGroupName r
              = Some (checkcloudwatchlogs.pLogGroupName p)
           /\ checkcloudwatchlogs.FilterPattern r
              = Some (checkcloudwatchlogs.pPattern p))
    /\ Mock.clock w'
       = c + 250 * checkcloudwatchlogs.Millisecond * Z.of_nat (length pages).
Proof.
  intros HS Hfuel. eexists. eexists. split; [|split].
  - unfold checkcloudwatchlogs.plugin_run, Mock.start.
    rewrite (run_loop_log p HS pages final rest fuel None [] c [] Hfuel).
    reflexivity.
  - cbn [Mock.requests app]. intros k r Hr.
    destruct (requestLog_nth p c _ k r Hr) as (tok & _ & ->).
    cbv zeta. unfold Mock.request. cbn. auto.
  - reflexivity.
Qed.

Lemma run_request_times_witness :
  exists w' messages,
    checkcloudwatchlogs.plugin_run Mock.Now Mock.Sleep 3 (Mock.plugin 0 0)
      (Mock.start 1700000000900000000
         (Mock.tokenPages [(["a"], "t1"); (["b"], "t2")] ++ Mock.page [] None :: [])%list)
    = Some (Return (w', (messages, None)))
    /\ (forall k r,
           nth_error (Mock.requests w') k = Some r ->
           let sent :=
             1700000000900000000 + 250 * checkcloudwatchlogs.Millisecond * Z.of_nat k in
           checkcloudwatchlogs.StartTime r
           = Some ((sent - 5 * checkcloudwatchlogs.Minute) / 10 ^ 9 * 1000)
           /\ checkcloudwatchlogs.InLogGroupName r
              = Some (checkcloudwatchlogs.pLogGroupName (Mock.plugin 0 0))
           /\ checkcloudwatchlogs.FilterPattern r
              = Some (checkcloudwatchlogs.pPattern (Mock.plugin 0 0)))
    /\ Mock.clock w'
       = 1700000000900000000
         + 250 * checkcloudwatchlogs.Millisecond
           * Z.of_nat (length [(["a"], "t1"); (["b"], "t2")]).
Proof.
  apply (run_request_times (Mock.plugin 0 0) [(["a"], "t1"); (["b"], "t2")] [] []
           1700000000900000000 3 eq_refl).
  cbn. lia.
Defined.

(** X3. A failed request ends the loop at once, after any number of pages:
    the result is the error with the nil slice, the messages of the pages
    read before are dropped, no request follows the failed one and no
    further response is read. *)
Theorem run_stops_at_failure
  (p : checkcloudwatchlogs.cloudwatchLogsPlugin Mock.World)
  (pages : list (list string * string)) (e : error)
  (rest : list Mock.response) (c : Z) (fuel : nat) :
  checkcloudwatchlogs.Service p = Some Mock.API ->
  (length pages < fuel)%nat ->
  exists w',
    checkcloudwatchlogs.plugin_run Mock.Now Mock.Sleep fuel p
      (Mock.start c (Mock.tokenPages pages ++ Mock.failure e :: rest)%list)
    = Some (Return (w', ([], Some e)))
    /\ length (Mock.requests w') = S (length pages)
    /\ Mock.script w' = rest.
Proof.
  intros HS Hfuel. eexists. split; [|split].
  - unfold checkcloudwatchlogs.plugin_run, Mock.start.
    rewrite (run_loop_failure_log p HS pages e rest fuel None [] c [] Hfuel).
    reflexivity.
  - cbn [Mock.requests app]. rewrite (requestLog_length p).
    cbn [length]. unfold Mock.tokensOf. now rewrite length_map.
  - reflexivity.
Qed.

Lemma run_stops_at_failure_witness :
  exists w',
    checkcloudwatchlogs.plugin_run Mock.Now Mock.Sleep 3 (Mock.plugin 0 0)
      (Mock.start 1700000000000000000
         (Mock.tokenPages [(["a"; "b"], "t1"); (["c"], "t2")]
            ++ Mock.failure "ThrottlingException" :: [Mock.page ["d"] None])%list)
    = Some (Return (w', ([], Some "ThrottlingException")))
    /\ length (Mock.requests w') = 3%nat
    /\ Mock.script w' = [Mock.page ["d"] None].
Proof.
  apply (run_stops_at_failure (Mock.plugin 0 0) [(["a"; "b"], "t1"); (["c"], "t2")]
           "ThrottlingException" [Mock.page ["d"] None] 1700000000000000000 3 eq_refl).
  cbn. lia.
Defined.

Section NilPointerFacts.
Import checkcloudwatchlogs.

Lemma appendMessages_nil_message events : forall acc,
  Exists (fun ev => Message ev = None) events -> appendMessages acc events = None.
Proof.
  induction events as [|ev events IH]; intros acc H; [inversion H|].
  cbn [appendMessages]. destruct (Message ev) as [m|] eqn:E; [|reflexivity].
  apply IH. inversion H as [? ? H0|? ? H0]; subst; [congruence|exact H0].
Qed.

Variable p : cloudwatchLogsPlugin Mock.World.
Hypothesis p_service : Service p = Some Mock.API.

Lemma run_loop_panic pages response rest :
  (exists events tok,
      response = (Some {| Events := events; NextToken := tok |}, None)
      /\ Exists (fun ev => Message ev = None) events)
  \/ response = (None, None) ->
  forall fuel tok acc c reqs,
    (length pages < fuel)%nat ->
    run_loop Mock.Now Mock.Sleep fuel p tok acc
      {| Mock.clock := c;
         Mock.script := (Mock.tokenPages pages ++ response :: rest)%list;
         Mock.requests := reqs |}
    = Some (Panic nilDeref).
Proof.
  intros Hresp.
  induction pages as [|[msgs t] pages IH]; intros fuel tok acc c reqs Hfuel;
    (destruct fuel as [|fuel]; [simpl in Hfuel; lia|]).
  - cbn [Mock.tokenPages map app run_loop]. rewrite p_service.
    destruct Hresp as [(events & tok' & -> & Hnil)| ->]; cbn.
    + now rewrite (appendMessages_nil_message events acc Hnil).
    + reflexivity.
  - cbn [Mock.tokenPages map app fst snd]. rewrite (run_loop_token p p_service).
    apply IH. simpl in Hfuel; lia.
Qed.

End NilPointerFacts.

(** X4. A response that comes without error but holds an event whose
    [Message] pointer is nil, or that is itself nil, makes the query panic
    on the dereference, whatever was read before: no list of messages and
    no error is returned. *)
Theorem run_nil_pointer_panics
  (p : checkcloudwatchlogs.cloudwatchLogsPlugin Mock.World)
  (pages : list (list string * string)) (response : Mock.response)
  (rest : list Mock.response) (c : Z) (fuel : nat) :
  checkcloudwatchlogs.Service p = Some Mock.API ->
  (length pages < fuel)%nat ->
  (exists events tok,
      response
      = (Some {| checkcloudwatchlogs.Events := events;
                 checkcloudwatchlogs.NextToken := tok |}, None)
      /\ Exists (fun ev => checkcloudwatchlogs.Message ev = None) events)
  \/ response = (None, None) ->
  checkcloudwatchlogs.plugin_run Mock.Now Mock.Sleep fuel p
    (Mock.start c (Mock.tokenPages pages ++ response :: rest)%list)
  = Some (Panic checkcloudwatchlogs.nilDeref).
Proof.
  intros HS Hfuel Hresp. unfold checkcloudwatchlogs.plugin_run, Mock.start.
  now apply (run_loop_panic p HS pages response rest Hresp).
Qed.

Lemma run_nil_pointer_panics_witness :
  checkcloudwatchlogs.plugin_run Mock.Now Mock.Sleep 2 (Mock.plugin 0 0)
    (Mock.start 1700000000000000000
       (Mock.tokenPages [(["a"], "t1")]
          ++ (Some {| checkcloudwatchlogs.Events :=
                        [Mock.event "b"; {| checkcloudwatchlogs.Message := None |}];
                      checkcloudwatchlogs.NextToken := None |}, None) :: [])%list)
  = Some (Panic checkcloudwatchlogs.nilDeref).
Proof.
  apply (run_nil_pointer_panics (Mock.plugin 0 0) [(["a"], "t1")] _ [] _ 2 eq_refl).
  - cbn. lia.
  - left. eexists. eexists. split; [reflexivity|].
    apply Exists_cons_tl, Exists_cons_hd. reflexivity.
Defined.

(** ** The CloudWatch Logs plugin: what [run] and [Do] can report *)

Section ReportFacts.
Import checkcloudwatchlogs.

Context {World Session : Type}.
Variable Now : World -> Z.
Variable Sleep : Z -> World -> World.
Variable ParseArgs : list string -> logOpts * option error.
Variable NewSession : option Session * option error.
Variable New : option Session -> Config -> CloudWatchLogsAPI World.

Lemma new_plugin_thresholds args p err :
  newCloudwatchLogsPlugin ParseArgs NewSession New args = Return (Some p, err) ->
  pWarningOver p = 0 /\ pCriticalOver p = 0.
Proof.
  unfold newCloudwatchLogsPlugin. destruct (ParseArgs args) as [opts [e|]]; [discriminate|].
  destruct (createService NewSession New opts) as [service [e|]]; [discriminate|].
  intros H. injection H as <- <-. split; reflexivity.
Qed.

Lemma new_plugin_parsed args r :
  newCloudwatchLogsPlugin ParseArgs NewSession New args = Return r ->
  snd (ParseArgs args) = None.
Proof.
  unfold newCloudwatchLogsPlugin. destruct (ParseArgs args) as [opts [e|]]; [discriminate|].
  reflexivity.
Qed.

Lemma new_plugin_exit args n :
  newCloudwatchLogsPlugin ParseArgs NewSession New args = Exit n ->
  n = 1 /\ exists e, snd (ParseArgs args) = Some e.
Proof.
  unfold newCloudwatchLogsPlugin. destruct (ParseArgs args) as [opts [e|]].
  - intros H. injection H as <-. split; [reflexivity|]. now exists e.
  - destruct (createService NewSession New opts) as [service [e|]]; discriminate.
Qed.

Lemma new_plugin_no_panic args msg :
  newCloudwatchLogsPlugin ParseArgs NewSession New args <> Panic msg.
Proof.
  unfold newCloudwatchLogsPlugin. destruct (ParseArgs args) as [opts [e|]]; [discriminate|].
  destruct (createService NewSession New opts) as [service [e|]]; discriminate.
Qed.

Lemma run_loop_no_exit fuel p : forall tok acc (w : World) n,
  run_loop Now Sleep fuel p tok acc w <> Some (Exit n).
Proof.
  induction fuel as [|fuel IH]; intros tok acc w n; [discriminate|].
  cbn [run_loop]. destruct (Service p) as [service|]; [|discriminate].
  destruct (FilterLogEvents service _ w) as [w1 [output [e|]]]; [discriminate|].
  destruct output as [out|]; [|discriminate].
  destruct (appendMessages acc (Events out)); [|discriminate].
  destruct (NextToken out); [apply IH|discriminate].
Qed.

(** The evaluation with the thresholds of a constructed instance. *)
Lemma evaluate_zero (p : cloudwatchLogsPlugin World) messages :
  pWarningOver p = 0 -> pCriticalOver p = 0 ->
  evaluate p messages
  = match messages with
    | [] => checkers.NewChecker checkers.OK "ok"
    | _ :: _ => checkers.NewChecker checkers.CRITICAL (gostrings.Join messages EmptyString)
    end.
Proof.
  intros Hw Hc. unfold evaluate. rewrite Hw, Hc.
  destruct messages as [|m ms]; [reflexivity|].
  replace (Z.of_nat (length (m :: ms)) >? 0) with true; [reflexivity|].
  symmetry. apply Z.gtb_lt. cbn [length]. lia.
Qed.

End ReportFacts.

Section RunCases.
Import checkcloudwatchlogs.

Context {World Session : Type}.
Variable Now : World -> Z.
Variable Sleep : Z -> World -> World.
Variable ParseArgs : list string -> logOpts * option error.
Variable NewSession : option Session * option error.
Variable New : option Session -> Config -> CloudWatchLogsAPI World.

(** What [run] has done when it returns a checker, when it exits and when
    it panics. *)
Lemma run_returns fuel args (w w' : World) ckr :
  run Now Sleep ParseArgs NewSession New fuel args w = Some (Return (w', ckr)) ->
  snd (ParseArgs args) = None
  /\ (checkers.status ckr = checkers.UNKNOWN
      \/ exists p messages,
          newCloudwatchLogsPlugin ParseArgs NewSession New args = Return (Some p, None)
          /\ plugin_run Now Sleep fuel p w = Some (Return (w', (messages, None)))
          /\ ckr = match messages with
                   | [] => checkers.NewChecker checkers.OK "ok"
                   | _ :: _ =>
                       checkers.NewChecker checkers.CRITICAL
                         (gostrings.Join messages EmptyString)
                   end).
Proof.
  unfold run. intros Hrun.
  destruct (newCloudwatchLogsPlugin ParseArgs NewSession New args)
    as [[[p|] [e|]]| |] eqn:Hnew; try discriminate Hrun;
    (split; [exact (new_plugin_parsed _ _ _ _ _ Hnew)|]);
    try (injection Hrun as <- <-; left; reflexivity).
  destruct (new_plugin_thresholds ParseArgs NewSession New args p None Hnew) as [Hw Hc].
  destruct (plugin_run Now Sleep fuel p w)
    as [[[w1 [messages [e|]]]| |]|] eqn:Hquery; try discriminate Hrun;
    injection Hrun as <- <-; [left; reflexivity|].
  right. exists p, messages.
  split; [reflexivity|]. split; [exact Hquery|]. now apply evaluate_zero.
Qed.

Lemma run_exits fuel args (w : World) n :
  run Now Sleep ParseArgs NewSession New fuel args w = Some (Exit n) ->
  n = 1 /\ exists e, snd (ParseArgs args) = Some e.
Proof.
  unfold run. intros Hrun.
  destruct (newCloudwatchLogsPlugin ParseArgs NewSession New args)
    as [[[p|] [e|]]|n'|msg] eqn:Hnew; try discriminate Hrun.
  - unfold plugin_run in Hrun.
    destruct (run_loop Now Sleep fuel p None [] w)
      as [[[w1 [ms [e|]]]|n'|msg]|] eqn:Hloop; try discriminate Hrun.
    now elim (run_loop_no_exit Now Sleep fuel p None [] w n').
  - injection Hrun as <-. exact (new_plugin_exit _ _ _ _ _ Hnew).
Qed.

Lemma run_panics fuel args (w : World) msg :
  run Now Sleep ParseArgs NewSession New fuel args w = Some (Panic msg) ->
  snd (ParseArgs args) = None.
Proof.
  unfold run. intros Hrun.
  destruct (newCloudwatchLogsPlugin ParseArgs NewSession New args)
    as [r| |msg'] eqn:Hnew;
    [exact (new_plugin_parsed _ _ _ _ _ Hnew)|discriminate Hrun|].
  now elim (new_plugin_no_panic ParseArgs NewSession New args msg').
Qed.

End RunCases.

(** X5. Whatever the service answers and whatever options were parsed,
    [run] never returns WARNING: the thresholds of the instance are zero, so
    the result is CRITICAL exactly when the query returned at least one
    message, and otherwise OK with the message "ok" (or UNKNOWN for an
    error). *)
Theorem run_never_warning
  (World Session : Type) (Now : World -> Z) (Sleep : Z -> World -> World)
  (ParseArgs : list string -> checkcloudwatchlogs.logOpts * option error)
  (NewSession : option Session * option error)
  (New : option Session -> checkcloudwatchlogs.Config ->
         checkcloudwatchlogs.CloudWatchLogsAPI World)
  (fuel : nat) (args : list string) (w w' : World) (ckr : checkers.Checker) :
  checkcloudwatchlogs.run Now Sleep ParseArgs NewSession New fuel args w
  = Some (Return (w', ckr)) ->
  checkers.status ckr <> checkers.WARNING
  /\ (checkers.status ckr = checkers.CRITICAL <->
      exists p m ms,
        checkcloudwatchlogs.newCloudwatchLogsPlugin ParseArgs NewSession New args
        = Return (Some p, None)
        /\ checkcloudwatchlogs.plugin_run Now Sleep fuel p w
           = Some (Return (w', (m :: ms, None))))
  /\ (checkers.status ckr = checkers.OK -> checkers.Message ckr = "ok").
Proof.
  intros Hrun.
  destruct (run_returns Now Sleep ParseArgs NewSession New fuel args w w' ckr Hrun)
    as (_ & [Hunknown|(p & messages & Hnew & Hquery & ->)]).
  - rewrite Hunknown. split; [discriminate|]. split; [|discriminate].
    split; [discriminate|]. intros (p & m & ms & Hnew & Hquery).
    unfold checkcloudwatchlogs.run in Hrun. rewrite Hnew, Hquery in Hrun.
    destruct (new_plugin_thresholds ParseArgs NewSession New args p None Hnew) as [Hw Hc].
    rewrite (evaluate_zero p (m :: ms) Hw Hc) in Hrun.
    injection Hrun as <-. discriminate Hunknown.
  - destruct messages as [|m ms]; cbn [checkers.status checkers.Message checkers.NewChecker].
    + split; [discriminate|]. split; [|reflexivity].
      split; [discriminate|]. intros (p' & m & ms & Hp & Hq).
      rewrite Hnew in Hp. injection Hp as <-. rewrite Hquery in Hq. discriminate Hq.
    + split; [discriminate|]. split; [|discriminate].
      split; [|reflexivity]. intros _. now exists p, m, ms.
Qed.

(** Seven messages with [--warning-over 5 --critical-over 10] on the
    command line: CRITICAL. *)
Lemma run_never_warning_witness :
  let w := Mock.start 1700000000000000000
             [Mock.page ["a"; "b"; "c"] (Some "t1");
              Mock.page ["d"; "e"; "f"; "g"] None] in
  exists w',
    checkcloudwatchlogs.run Mock.Now Mock.Sleep Mock.ParseArgs Mock.NewSession
      Mock.New 2 Mock.argv w
    = Some (Return (w', checkers.NewChecker checkers.CRITICAL "abcdefg"))
    /\ checkers.status (checkers.NewChecker checkers.CRITICAL "abcdefg")
       <> checkers.WARNING.
Proof.
  intros w. eexists. split; [reflexivity|].
  eapply (run_never_warning Mock.World unit Mock.Now Mock.Sleep Mock.ParseArgs
            Mock.NewSession Mock.New 2 Mock.argv w).
  reflexivity.
Defined.

(** X6. The exit code of the CloudWatch Logs plugin is 1 exactly when the
    flag parser has refused the arguments: a check result never exits with
    1, since WARNING is never reported.  A check result carries the name
    [CloudWatch Logs]. *)
Theorem Do_exit_code_one
  (World Session : Type) (Now : World -> Z) (Sleep : Z -> World -> World)
  (ParseArgs : list string -> checkcloudwatchlogs.logOpts * option error)
  (NewSession : option Session * option error)
  (New : option Session -> checkcloudwatchlogs.Config ->
         checkcloudwatchlogs.CloudWatchLogsAPI World)
  (fuel : nat) (args : list string) (w : World) (ended : process) :
  checkcloudwatchlogs.Do Now Sleep ParseArgs NewSession New fuel args w = Some ended ->
  (exitCode ended = 1 <-> exists e, snd (ParseArgs args) = Some e)
  /\ (forall ckr,
         ended = ExitChecker ckr ->
         checkers.Name ckr = "CloudWatch Logs"
         /\ checkers.status ckr <> checkers.WARNING).
Proof.
  unfold checkcloudwatchlogs.Do. intros HDo.
  destruct (checkcloudwatchlogs.run Now Sleep ParseArgs NewSession New fuel args w)
    as [[[w' ckr]|n|msg]|] eqn:Hrun; try discriminate HDo;
    injection HDo as <-; cbn [bind exitWith snd exitCode].
  - destruct (run_returns Now Sleep ParseArgs NewSession New fuel args w w' ckr Hrun)
      as (Hparsed & Hckr).
    assert (Hnw : checkers.status ckr <> checkers.WARNING).
    { destruct Hckr as [->|(p & [|m ms] & _ & _ & ->)]; discriminate. }
    split.
    + split.
      * cbn [checkers.setName checkers.status]. intros Hone.
        destruct (checkers.status ckr); try discriminate Hone. now elim Hnw.
      * intros [e He]. rewrite Hparsed in He. discriminate He.
    + intros ckr' H. injection H as <-.
      cbn [checkers.setName checkers.Name checkers.status].
      split; [reflexivity|exact Hnw].
  - destruct (run_exits Now Sleep ParseArgs NewSession New fuel args w n Hrun)
      as [-> Hparse].
    split; [|discriminate]. split; [intros _; exact Hparse|reflexivity].
  - pose proof (run_panics Now Sleep ParseArgs NewSession New fuel args w msg Hrun)
      as Hparsed.
    split; [|discriminate]. split; [discriminate|].
    intros [e He]. rewrite Hparsed in He. discriminate He.
Qed.

Lemma Do_exit_code_one_witness :
  checkcloudwatchlogs.Do Mock.Now Mock.Sleep Mock.ParseArgs Mock.NewSession Mock.New
    1 ["--help"] (Mock.start 0 [])
  = Some (ExitCode 1)
  /\ exists e, snd (Mock.ParseArgs ["--help"]) = Some e.
Proof.
  split; [reflexivity|].
  apply (Do_exit_code_one Mock.World unit Mock.Now Mock.Sleep Mock.ParseArgs
           Mock.NewSession Mock.New 1 ["--help"] (Mock.start 0 []) (ExitCode 1) eq_refl).
  reflexivity.
Defined.

(** X7. [createService]: an error of the session is returned and no
    client is built.  Otherwise the client gets static credentials exactly
    when both keys are given, with an empty session token: one key alone is
    ignored, as if none were given; and it gets a region exactly when the
    option is not empty. *)
Theorem createService_config
  (World Session : Type)
  (New : option Session -> checkcloudwatchlogs.Config ->
         checkcloudwatchlogs.CloudWatchLogsAPI World)
  (sess : option Session) (opts : checkcloudwatchlogs.logOpts) :
  (forall e,
      checkcloudwatchlogs.createService (sess, Some e) New opts = (None, Some e))
  /\ (checkcloudwatchlogs.AccessKeyID opts = EmptyString
      \/ checkcloudwatchlogs.SecretAccessKey opts = EmptyString ->
      checkcloudwatchlogs.createService (sess, None) New opts
      = checkcloudwatchlogs.createService (sess, None) New (withoutKeys opts))
  /\ (exists config,
         checkcloudwatchlogs.createService (sess, None) New opts
         = (Some (New sess config), None)
         /\ (checkcloudwatchlogs.AccessKeyID opts <> EmptyString ->
             checkcloudwatchlogs.SecretAccessKey opts <> EmptyString ->
             checkcloudwatchlogs.Credentials config
             = Some (checkcloudwatchlogs.AccessKeyID opts,
                     checkcloudwatchlogs.SecretAccessKey opts, EmptyString))
         /\ (checkcloudwatchlogs.AccessKeyID opts = EmptyString
             \/ checkcloudwatchlogs.SecretAccessKey opts = EmptyString ->
             checkcloudwatchlogs.Credentials config = None)
         /\ (checkcloudwatchlogs.Region opts <> EmptyString ->
             checkcloudwatchlogs.ConfigRegion config
             = Some (checkcloudwatchlogs.Region opts))
         /\ (checkcloudwatchlogs.Region opts = EmptyString ->
             checkcloudwatchlogs.ConfigRegion config = None)).
Proof.
  unfold checkcloudwatchlogs.createService, withoutKeys. cbn.
  destruct (String.eqb_spec (checkcloudwatchlogs.AccessKeyID opts) EmptyString) as [Ha|Ha],
           (String.eqb_spec (checkcloudwatchlogs.SecretAccessKey opts) EmptyString) as [Hs|Hs],
           (String.eqb_spec (checkcloudwatchlogs.Region opts) EmptyString) as [Hr|Hr];
    cbn; (split; [reflexivity|]); (split; [try reflexivity; intros [H|H]; congruence|]);
    eexists; (split; [reflexivity|]); cbn; repeat split; intros; try reflexivity;
    try congruence; intuition congruence.
Qed.

Lemma createService_config_witness :
  checkcloudwatchlogs.createService (Some tt, None) Mock.New
    {| checkcloudwatchlogs.Region := "eu-west-1";
       checkcloudwatchlogs.AccessKeyID := "AKIAEXAMPLE";
       checkcloudwatchlogs.SecretAccessKey := EmptyString;
       checkcloudwatchlogs.LogGroupName := "group";
       checkcloudwatchlogs.Pattern := "ERROR";
       checkcloudwatchlogs.WarningOver := 0;
       checkcloudwatchlogs.CriticalOver := 0 |}
  = checkcloudwatchlogs.createService (Some tt, None) Mock.New
      (withoutKeys
         {| checkcloudwatchlogs.Region := "eu-west-1";
            checkcloudwatchlogs.AccessKeyID := "AKIAEXAMPLE";
            checkcloudwatchlogs.SecretAccessKey := EmptyString;
            checkcloudwatchlogs.LogGroupName := "group";
            checkcloudwatchlogs.Pattern := "ERROR";
            checkcloudwatchlogs.WarningOver := 0;
            checkcloudwatchlogs.CriticalOver := 0 |}).
Proof.
  apply (createService_config Mock.World unit Mock.New (Some tt)).
  right. reflexivity.
Defined.

(** ** The NTP offset plugin: detection of the daemon *)

Section DetectionFacts.
Import checkntpoffset.

Lemma rev_string_rev s : forall acc acc',
  rev_string acc' (rev_string acc s) = rev_string (s ++ acc') acc.
Proof.
  induction s as [|c s IH]; intros acc acc'; [reflexivity|].
  cbn [rev_string]. now rewrite IH.
Qed.

Lemma append_empty_r (s : string) : s ++ EmptyString = s.
Proof.
  induction s as [|c s IH]; [reflexivity|].
  change (String c (s ++ EmptyString) = String c s). now rewrite IH.
Qed.

Lemma rev_string_involutive s :
  rev_string EmptyString (rev_string EmptyString s) = s.
Proof. rewrite rev_string_rev. cbn [rev_string]. apply append_empty_r. Qed.

Lemma rev_string_app a : forall b acc,
  rev_string acc (a ++ b) = rev_string (rev_string acc a) b.
Proof. induction a as [|c a IH]; intros b acc; [reflexivity|]. cbn. apply IH. Qed.

Lemma append_assoc (a b c : string) : (a ++ b) ++ c = a ++ (b ++ c).
Proof.
  induction a as [|d a IH]; [reflexivity|].
  change (String d ((a ++ b) ++ c) = String d (a ++ (b ++ c))). now rewrite IH.
Qed.

Lemma rev_string_acc s : forall acc,
  rev_string acc s = rev_string EmptyString s ++ acc.
Proof.
  induction s as [|c s IH]; intros acc; [reflexivity|].
  cbn [rev_string]. rewrite IH, (IH (String c EmptyString)).
  now rewrite append_assoc.
Qed.

Lemma count_rev_string c s : forall acc,
  count c (rev_string acc s) = (count c s + count c acc)%nat.
Proof.
  induction s as [|d s IH]; intros acc; [reflexivity|].
  cbn [rev_string count]. rewrite IH. cbn [count].
  destruct (Ascii.eqb d c); lia.
Qed.



(** The loop over the lines of [ps]: the name is [chronyd] exactly when a
    line ends in [chronyd] and [chronyc] is on the path, and [ntpd] in
    every other case. *)
Lemma scanComm_chronyd h lines :
  scanComm h lines = "chronyd"
  <-> Exists (fun l => gostrings.HasSuffix l "chronyd" = true) lines
      /\ LookPath h "chronyc" = None.
Proof.
  induction lines as [|line lines IH]; cbn [scanComm].
  - split; [discriminate|]. intros [H _]. inversion H.
  - destruct (gostrings.HasSuffix line "chronyd") eqn:E.
    + destruct (LookPath h "chronyc") as [e|]; split; try discriminate.
      * now intros [_ H].
      * intros _. split; [now constructor|reflexivity].
      * reflexivity.
    + rewrite IH. split; intros [Hex Hp]; (split; [|exact Hp]).
      * now constructor 2.
      * inversion Hex as [? ? H|? ? H]; subst; [congruence|exact H].
Qed.

Lemma scanComm_names h lines :
  scanComm h lines = "ntpd" \/ scanComm h lines = "chronyd".
Proof.
  induction lines as [|line lines IH]; cbn [scanComm]; [now left|].
  destruct (gostrings.HasSuffix line "chronyd"); [|exact IH].
  destruct (LookPath h "chronyc"); auto.
Qed.

Lemma detect_unprivileged h :
  Getuid h <> 0 -> launched (Command h "ps" ["-eo"; "comm"]) ->
  detectNTPDname h
  = Return (scanComm h (bufio.lines (exec.stdout (Command h "ps" ["-eo"; "comm"]))),
            exec.waitErr (Command h "ps" ["-eo"; "comm"])).
Proof.
  intros Huid [Hpipe Hstart]. unfold detectNTPDname.
  destruct (Z.eqb_spec (Getuid h) 0) as [H0|_]; [contradiction|].
  now apply withCmd_wait.
Qed.

Lemma detect_root_field h l0 line rest f0 fs :
  Getuid h = 0 -> launched (Command h "lsof" ["-i:123"]) ->
  bufio.lines (exec.stdout (Command h "lsof" ["-i:123"])) = l0 :: line :: rest ->
  line <> EmptyString ->
  gostrings.Fields line = f0 :: fs ->
  detectNTPDname h
  = Return (filepath.Base f0, exec.waitErr (Command h "lsof" ["-i:123"])).
Proof.
  intros Huid [Hpipe Hstart] Hlines Hne Hf. unfold detectNTPDname.
  rewrite Huid. cbn [Z.eqb]. apply withCmd_wait; trivial.
  destruct (lines_two _ l0 line rest Hlines) as (scr1 & scr2 & -> & ->).
  destruct (String.eqb_spec line EmptyString); [contradiction|].
  now rewrite Hf.
Qed.


End DetectionFacts.

(** X8. Detection of the daemon by an unprivileged user whose [ps] can be
    launched.  The name found is [chronyd] exactly when some line of the
    output of [ps] ends in [chronyd] and [chronyc] is on the path; in every
    other case it is [ntpd], also when no line names ntpd.  The error is
    that of waiting for [ps].  So when [ps] ends well the plugin goes on to
    query [ntpq] or [chronyc]: the branch for an unsupported daemon is never
    taken. *)
Theorem detectNTPDname_unprivileged (h : checkntpoffset.Host) :
  let ps := checkntpoffset.Command h "ps" ["-eo"; "comm"] in
  checkntpoffset.Getuid h <> 0 ->
  launched ps ->
  exists name,
    checkntpoffset.detectNTPDname h = Return (name, exec.waitErr ps)
    /\ (name = "chronyd"
        <-> Exists (fun l => gostrings.HasSuffix l "chronyd" = true)
              (bufio.lines (exec.stdout ps))
            /\ checkntpoffset.LookPath h "chronyc" = None)
    /\ (name <> "chronyd" -> name = "ntpd")
    /\ (exec.waitErr ps = None ->
        checkntpoffset.getNtpOffset h
        = checkntpoffset.withCmd (query h name)
            (fun out _ => Return (parser name out)) float.zero).
Proof.
  intros ps Huid Hps. subst ps.
  exists (checkntpoffset.scanComm h
            (bufio.lines (exec.stdout (checkntpoffset.Command h "ps" ["-eo"; "comm"])))).
  split; [now apply detect_unprivileged|].
  split; [apply scanComm_chronyd|]. split.
  - intros Hne. now destruct (scanComm_names h
      (bufio.lines (exec.stdout (checkntpoffset.Command h "ps" ["-eo"; "comm"])))).
  - intros Hwait. apply getNtpOffset_supported.
    + rewrite <- Hwait. now apply detect_unprivileged.
    + apply scanComm_names.
Qed.

(** A host whose [ps] lists [/usr/sbin/chronyd] and that has [chronyc]. *)
Lemma detectNTPDname_unprivileged_witness :
  exists name,
    checkntpoffset.detectNTPDname
      (MockHost.host 1000 (MockHost.notFound "lsof")
         (MockHost.prints ("COMMAND" ++ LF ++ "/usr/sbin/chronyd" ++ LF))
         (MockHost.notFound "ntpq") (MockHost.notFound "chronyc") None)
    = Return (name, None)
    /\ name = "chronyd".
Proof.
  destruct (detectNTPDname_unprivileged
              (MockHost.host 1000 (MockHost.notFound "lsof")
                 (MockHost.prints ("COMMAND" ++ LF ++ "/usr/sbin/chronyd" ++ LF))
                 (MockHost.notFound "ntpq") (MockHost.notFound "chronyc") None))
    as (name & Hd & Hname & _).
  - cbn. discriminate.
  - split; reflexivity.
  - exists name. split; [exact Hd|]. apply Hname. split; [|reflexivity].
    constructor 2. constructor. reflexivity.
Defined.



(** ** The NTP offset plugin: what a measured offset implies *)

(** X10. [getNtpOffset] returns an offset without error exactly when every
    step has succeeded: the detection has returned [ntpd] or [chronyd]
    without error, the query command of that daemon was launched, its output
    was parsed to that offset without error, and the command ended without
    error. *)
Theorem getNtpOffset_measured (h : checkntpoffset.Host) (v : float64) :
  checkntpoffset.getNtpOffset h = Return (v, None)
  <-> exists name,
      checkntpoffset.detectNTPDname h = Return (name, None)
      /\ (name = "ntpd" \/ name = "chronyd")
      /\ launched (query h name)
      /\ parser name (exec.stdout (query h name)) = (v, None)
      /\ exec.waitErr (query h name) = None.
Proof.
  split.
  - intros Hget.
    destruct (checkntpoffset.detectNTPDname h) as [[name [e|]]| |] eqn:Hd;
      try (unfold checkntpoffset.getNtpOffset in Hget; rewrite Hd in Hget;
           discriminate Hget).
    assert (Hname : name = "ntpd" \/ name = "chronyd").
    { destruct (String.eqb_spec name "ntpd") as [|H1]; [now left|].
      destruct (String.eqb_spec name "chronyd") as [|H2]; [now right|].
      rewrite (getNtpOffset_unsupported h name Hd H1 H2) in Hget.
      discriminate Hget. }
    exists name. split; [reflexivity|]. split; [exact Hname|].
    rewrite (getNtpOffset_supported h name Hd Hname) in Hget.
    unfold checkntpoffset.withCmd in Hget. unfold launched.
    destruct (exec.pipeErr (query h name)); [discriminate Hget|].
    destruct (exec.startErr (query h name)); [discriminate Hget|].
    cbn [bind] in Hget.
    destruct (parser name (exec.stdout (query h name))) as [v' [e|]];
      [discriminate Hget|].
    injection Hget as -> Hwait. auto.
  - intros (name & Hd & Hname & [Hpipe Hstart] & Hparse & Hwait).
    rewrite (getNtpOffset_supported h name Hd Hname), <- Hwait.
    apply withCmd_wait; trivial. now rewrite Hparse.
Qed.

(** ** The NTP offset plugin: thresholds, exit codes and the ntpd text *)

Section ThresholdFacts.

Ltac compare_cases :=
  repeat match goal with
    | H : context [Z.compare ?a ?b] |- _ => destruct (Z.compare_spec a b)
    | |- context [Z.compare ?a ?b] => destruct (Z.compare_spec a b)
    | H : context [Pos.compare_cont Eq ?a ?b] |- _ =>
        change (Pos.compare_cont Eq a b) with (Pos.compare a b) in *;
        destruct (Pos.compare_spec a b)
    | |- context [Pos.compare_cont Eq ?a ?b] =>
        change (Pos.compare_cont Eq a b) with (Pos.compare a b) in *;
        destruct (Pos.compare_spec a b)
    end.

(** At most a value that is below another: below that one. *)
Lemma leb_ltb_trans (c w a : float64) :
  float.leb c w = true -> float.ltb w a = true -> float.ltb c a = true.
Proof.
  unfold float.ltb, float.leb, SFltb, SFleb.
  destruct c as [sc|sc| |sc mc ec], w as [sw|sw| |sw mw ew],
        a as [sa|sa| |sa ma ea];
    cbn [SFcompare]; try easy;
    repeat match goal with s : bool |- _ => destruct s end;
    cbn; try easy;
    intros H1 H2; compare_cases; subst; cbn in *; try easy; try lia.
Qed.

(** No comparison with a NaN holds. *)
Lemma ltb_nan_r (x : float64) : float.ltb x S754_nan = false.
Proof. now destruct x as [[|]|[|]| |[|] m e]. Qed.

Lemma ltb_nan_l (x : float64) : float.ltb S754_nan x = false.
Proof. now destruct x. Qed.

End ThresholdFacts.

Section TextFacts.

Lemma Split_app c a rest :
  count c a = 0%nat ->
  gostrings.Split (a ++ sep1 c ++ rest) (sep1 c) = a :: gostrings.Split rest (sep1 c).
Proof.
  unfold gostrings.Split. induction a as [|d a IH]; intros Hc.
  - change (EmptyString ++ sep1 c ++ rest) with (String c rest).
    rewrite split_go_byte. now rewrite Ascii.eqb_refl.
  - cbn [count] in Hc. destruct (Ascii.eqb d c) eqn:E; [discriminate Hc|].
    change (String d a ++ sep1 c ++ rest) with (String d (a ++ sep1 c ++ rest)).
    rewrite split_go_byte, E, (IH Hc). reflexivity.
Qed.

Lemma Split_none c a :
  count c a = 0%nat -> gostrings.Split a (sep1 c) = [a].
Proof.
  unfold gostrings.Split. induction a as [|d a IH]; intros Hc; [reflexivity|].
  cbn [count] in Hc. destruct (Ascii.eqb d c) eqn:E; [discriminate Hc|].
  rewrite split_go_byte, E, (IH Hc). reflexivity.
Qed.

Lemma TrimLeft_none c s :
  count c s = 0%nat -> gostrings.TrimLeft s (sep1 c) = s.
Proof.
  destruct s as [|d s]; [reflexivity|]. cbn [count gostrings.TrimLeft gostrings.mem sep1].
  destruct (Ascii.eqb d c); [discriminate|reflexivity].
Qed.

Lemma Trim_none c s :
  count c s = 0%nat -> gostrings.Trim s (sep1 c) = s.
Proof.
  intros Hc. unfold gostrings.Trim, gostrings.TrimRight.
  rewrite (TrimLeft_none c s Hc), TrimLeft_none.
  - apply rev_string_involutive.
  - rewrite count_rev_string, Hc. reflexivity.
Qed.

Lemma HasPrefix_app p s : gostrings.HasPrefix (p ++ s) p = true.
Proof.
  induction p as [|c p IH]; [apply HasPrefix_empty|].
  change (String c p ++ s) with (String c (p ++ s)).
  cbn [gostrings.HasPrefix]. now rewrite Ascii.eqb_refl, IH.
Qed.

Lemma count_app c a b : count c (a ++ b) = (count c a + count c b)%nat.
Proof.
  induction a as [|d a IH]; [reflexivity|].
  change (String d a ++ b) with (String d (a ++ b)). cbn [count]. rewrite IH.
  now destruct (Ascii.eqb d c).
Qed.

Lemma offsetOfLine_key_value k v :
  count "=" k = 0%nat -> count "=" v = 0%nat -> count (byte 10) v = 0%nat ->
  checkntpoffset.offsetOfLine (k ++ "=" ++ v) = strconv.ParseFloat v.
Proof.
  intros Hk Hv Hlf. unfold checkntpoffset.offsetOfLine.
  change "=" with (sep1 "="). rewrite (Split_app "=" k v Hk), (Split_none "=" v Hv).
  change LF with (sep1 (byte 10)). now rewrite Trim_none.
Qed.

End TextFacts.

Section ExitFacts.
Import checkntpoffset.

Lemma withCmd_no_exit {S : Type} cmd (fn : Reader -> S -> outcome (S * option error)) s n :
  (forall out s0, fn out s0 <> Exit n) -> withCmd cmd fn s <> Exit n.
Proof.
  intros Hfn. unfold withCmd.
  destruct (exec.pipeErr cmd); [discriminate|].
  destruct (exec.startErr cmd); [discriminate|].
  specialize (Hfn (exec.stdout cmd) s).
  destruct (fn (exec.stdout cmd) s) as [[s' [e|]]|n'|msg]; cbn [bind];
    try discriminate. exact Hfn.
Qed.

(** No step of the measurement calls [os.Exit]. *)
Lemma getNtpOffset_no_exit h n : getNtpOffset h <> Exit n.
Proof.
  unfold getNtpOffset.
  destruct (detectNTPDname h) as [[name [e|]]|n'|msg] eqn:Hd; cbn [bind];
    try discriminate.
  - destruct (String.eqb name "ntpd");
      [apply withCmd_no_exit; discriminate|].
    destruct (String.eqb name "chronyd");
      [apply withCmd_no_exit; discriminate|discriminate].
  - intros H. injection H as ->. revert Hd. unfold detectNTPDname.
    destruct (Getuid h =? 0); apply withCmd_no_exit; [|discriminate].
    intros out s0. cbv zeta.
    destruct (bufio.Scan (bufio.NewScanner out)) as [first scr1].
    destruct (bufio.Scan scr1) as [[line|] scr2]; [|discriminate].
    destruct (String.eqb line EmptyString); [discriminate|].
    now destruct (gostrings.Fields line).
Qed.

End ExitFacts.

(** X11. With a critical threshold that is not above the warning threshold
    the plugin never reports WARNING: every offset above the warning
    threshold is above the critical one.  The result is then CRITICAL when
    the absolute value of the offset is above the critical threshold, and OK
    otherwise. *)
Theorem classify_inverted_thresholds (opts : checkntpoffset.Opts) (o : float64) :
  float.leb (checkntpoffset.Crit opts) (checkntpoffset.Warn opts) = true ->
  let st := checkers.status (checkntpoffset.classify opts o) in
  st <> checkers.WARNING
  /\ (st = checkers.CRITICAL
      <-> float.ltb (checkntpoffset.Crit opts) (float.Abs o) = true)
  /\ (st = checkers.OK
      <-> float.ltb (checkntpoffset.Crit opts) (float.Abs o) = false).
Proof.
  intros Hle st. subst st. unfold checkntpoffset.classify.
  destruct (float.ltb (checkntpoffset.Crit opts) (float.Abs o)) eqn:Hc.
  - cbn [checkers.status checkers.NewChecker]. repeat split; congruence.
  - destruct (float.ltb (checkntpoffset.Warn opts) (float.Abs o)) eqn:Hw.
    + rewrite (leb_ltb_trans _ _ _ Hle Hw) in Hc. discriminate Hc.
    + cbn [checkers.status checkers.NewChecker]. repeat split; congruence.
Qed.

(** Both thresholds at 50 ms: an offset of 75.5 ms is CRITICAL. *)
Lemma classify_inverted_thresholds_witness :
  checkers.status
    (checkntpoffset.classify
       {| checkntpoffset.Crit := float.of_Z 50; checkntpoffset.Warn := float.of_Z 50 |}
       (float.of_quotient false 755 10))
  <> checkers.WARNING.
Proof.
  apply (classify_inverted_thresholds
           {| checkntpoffset.Crit := float.of_Z 50; checkntpoffset.Warn := float.of_Z 50 |}
           (float.of_quotient false 755 10)).
  vm_compute. reflexivity.
Defined.

(** X12. Not-a-number.  The parser of the ntpd text accepts [NaN] as a
    value, and an offset that is not a number is reported OK whatever the
    thresholds, since no comparison with it holds; its message shows [NaN].
    A threshold that is not a number is never exceeded: a NaN critical
    threshold leaves no CRITICAL, a NaN warning threshold no WARNING. *)
Theorem classify_nan (opts : checkntpoffset.Opts) (o : float64) :
  checkntpoffset.parseNTPOffsetFromNTPD (textReader ("offset=NaN" ++ LF))
  = (S754_nan, None)
  /\ checkntpoffset.classify opts S754_nan
     = checkers.NewChecker checkers.OK
         ("ntp offset is NaN(actual) < "
          ++ fmt.Sprint_f (checkntpoffset.Warn opts) ++ "(warning threshold), "
          ++ fmt.Sprint_f (checkntpoffset.Crit opts) ++ "(critial threshold)")
  /\ (checkntpoffset.Crit opts = S754_nan ->
      checkers.status (checkntpoffset.classify opts o) <> checkers.CRITICAL)
  /\ (checkntpoffset.Warn opts = S754_nan ->
      checkers.status (checkntpoffset.classify opts o) <> checkers.WARNING).
Proof.
  split; [vm_compute; reflexivity|]. unfold checkntpoffset.classify.
  split; [|split].
  - cbn [float.Abs SFabs]. now rewrite !ltb_nan_r.
  - intros ->. rewrite ltb_nan_l.
    now destruct (float.ltb (checkntpoffset.Warn opts) (float.Abs o)).
  - intros ->. rewrite ltb_nan_l.
    now destruct (float.ltb (checkntpoffset.Crit opts) (float.Abs o)).
Qed.

(** A critical threshold given as [nan] on the command line: an offset of
    one million milliseconds is a WARNING. *)
Lemma classify_nan_witness :
  checkers.status
    (checkntpoffset.classify
       (fst (MockHost.ParseArgs ["--critical"; "nan"])) (float.of_Z 1000000))
  <> checkers.CRITICAL.
Proof.
  destruct (classify_nan (fst (MockHost.ParseArgs ["--critical"; "nan"]))
              (float.of_Z 1000000)) as (_ & _ & H & _).
  apply H. vm_compute. reflexivity.
Defined.

(** X13. The exit codes of the NTP plugin.  Code 3 means exactly that the
    flags were parsed and [getNtpOffset] returned an error; code 0 exactly
    that the flags were parsed and an offset was measured whose absolute
    value exceeds neither threshold.  A refused argument list ends the
    process with code 1, which is also the code of WARNING, before any
    command is run.  A check result carries the name [NTP]. *)
Theorem ntpoffset_exit_codes
  (ParseArgs : list string -> checkntpoffset.Opts * option error)
  (h : checkntpoffset.Host) (args : list string) :
  let ended := checkntpoffset.Do ParseArgs h args in
  let opts := fst (ParseArgs args) in
  (exitCode ended = 3
   <-> snd (ParseArgs args) = None
       /\ exists v e, checkntpoffset.getNtpOffset h = Return (v, Some e))
  /\ (exitCode ended = 0
      <-> snd (ParseArgs args) = None
          /\ exists o,
              checkntpoffset.getNtpOffset h = Return (o, None)
              /\ float.ltb (checkntpoffset.Crit opts) (float.Abs o) = false
              /\ float.ltb (checkntpoffset.Warn opts) (float.Abs o) = false)
  /\ (forall e, snd (ParseArgs args) = Some e ->
                forall h', checkntpoffset.Do ParseArgs h' args = ExitCode 1)
  /\ (forall ckr, ended = ExitChecker ckr ->
                  checkers.Name ckr = "NTP" /\ snd (ParseArgs args) = None).
Proof.
  intros ended opts. subst ended opts.
  unfold checkntpoffset.Do, checkntpoffset.run.
  destruct (ParseArgs args) as [opts [e|]]; cbn [fst snd].
  - cbn [exitWith exitCode].
    split; [split; [discriminate|now intros [H _]]|].
    split; [split; [discriminate|now intros [H _]]|].
    split; [reflexivity|discriminate].
  - destruct (checkntpoffset.getNtpOffset h) as [[o [e|]]|n|msg] eqn:Hget;
      cbn [bind exitWith exitCode checkers.setName checkers.status checkers.Unknown
           checkers.NewChecker checkers.int checkers.Name].
    + split; [split; [intros _; split; [reflexivity|now exists o, e]|reflexivity]|].
      split; [split; [discriminate|intros [_ (o' & H & _)]; discriminate H]|].
      split; [discriminate|]. intros ckr H. injection H as <-. now split.
    + split.
      { split; [|intros [_ (v & e & H)]; discriminate H].
        unfold checkntpoffset.classify.
        destruct (float.ltb (checkntpoffset.Crit opts) (float.Abs o));
          [discriminate|].
        destruct (float.ltb (checkntpoffset.Warn opts) (float.Abs o)); discriminate. }
      split.
      * unfold checkntpoffset.classify.
        destruct (float.ltb (checkntpoffset.Crit opts) (float.Abs o)) eqn:Hc;
          [|destruct (float.ltb (checkntpoffset.Warn opts) (float.Abs o)) eqn:Hw];
          cbn [checkers.status checkers.NewChecker checkers.int].
        -- split; [discriminate|]. intros [_ (o' & H & Hc' & _)].
           injection H as <-. congruence.
        -- split; [discriminate|]. intros [_ (o' & H & _ & Hw')].
           injection H as <-. congruence.
        -- split; [|reflexivity]. intros _. split; [reflexivity|]. now exists o.
      * split; [discriminate|]. intros ckr H. injection H as <-. now split.
    + now elim (getNtpOffset_no_exit h n).
    + split; [split; [discriminate|intros [_ (v & e & H)]; discriminate H]|].
      split; [split; [discriminate|intros [_ (o' & H & _)]; discriminate H]|].
      split; [discriminate|discriminate].
Qed.

(** An unknown flag: exit code 1 on every host. *)
Lemma ntpoffset_exit_codes_witness :
  checkntpoffset.Do MockHost.ParseArgs
    (MockHost.chronyHost (MockHost.prints (MockHost.chronycOutput "+0.000021")))
    ["--verbose"; "1"]
  = ExitCode 1.
Proof.
  pose proof (ntpoffset_exit_codes MockHost.ParseArgs
                (MockHost.ntpdHost (MockHost.notFound "ntpq")) ["--verbose"; "1"]) as H.
  cbv zeta in H. destruct H as (_ & _ & H & _).
  apply (H "unknown flag --verbose"). reflexivity.
Defined.

(** X14. The text of [ntpq] that the parser accepts.  A single line
    [key=value] ended by a line feed gives the value parsed as a float,
    whatever the key is: the key is not compared with [offset].  So does
    such a line after a first line that begins with [assID=0].  The same
    line without the final line feed is refused. *)
Theorem parseNTPOffsetFromNTPD_key_value (header k v : string) :
  count "=" k = 0%nat -> count (byte 10) k = 0%nat ->
  count "=" v = 0%nat -> count (byte 10) v = 0%nat ->
  count (byte 10) header = 0%nat ->
  checkntpoffset.parseNTPOffsetFromNTPD (textReader (k ++ "=" ++ v ++ LF))
  = strconv.ParseFloat v
  /\ checkntpoffset.parseNTPOffsetFromNTPD
       (textReader (("assID=0" ++ header) ++ LF ++ (k ++ "=" ++ v) ++ LF))
     = strconv.ParseFloat v
  /\ checkntpoffset.parseNTPOffsetFromNTPD (textReader (k ++ "=" ++ v))
     = (float.zero, Some checkntpoffset.ntpdDown).
Proof.
  intros Hk Hklf Hv Hvlf Hh.
  assert (Hline : count (byte 10) (k ++ "=" ++ v) = 0%nat).
  { rewrite !count_app, Hklf, Hvlf. reflexivity. }
  rewrite !parseNTPOffsetFromNTPD_lines. change LF with (sep1 (byte 10)).
  split; [|split].
  - replace (k ++ "=" ++ v ++ sep1 (byte 10))
      with ((k ++ "=" ++ v) ++ sep1 (byte 10) ++ EmptyString).
    + rewrite (Split_app _ _ _ Hline). cbn [gostrings.Split gostrings.split_go].
      now apply offsetOfLine_key_value.
    + now rewrite !append_assoc.
  - rewrite Split_app.
    + replace ((k ++ "=" ++ v) ++ sep1 (byte 10))
        with ((k ++ "=" ++ v) ++ sep1 (byte 10) ++ EmptyString) by reflexivity.
      rewrite (Split_app _ _ _ Hline). cbn [gostrings.Split gostrings.split_go].
      rewrite HasPrefix_app. now apply offsetOfLine_key_value.
    + rewrite count_app, Hh. reflexivity.
  - now rewrite (Split_none _ _ Hline).
Qed.

(** The key [phase] and the sample value of the ntp 4.2.2 output. *)
Lemma parseNTPOffsetFromNTPD_key_value_witness :
  checkntpoffset.parseNTPOffsetFromNTPD (textReader ("phase" ++ "=" ++ "0.180" ++ LF))
  = strconv.ParseFloat "0.180"
  /\ checkntpoffset.parseNTPOffsetFromNTPD (textReader ("phase" ++ "=" ++ "0.180"))
     = (float.zero, Some checkntpoffset.ntpdDown).
Proof.
  destruct (parseNTPOffsetFromNTPD_key_value " status=06f4" "phase" "0.180")
    as (H1 & _ & H3); try reflexivity.
  split; [exact H1|exact H3].
Defined.

(** ** The NTP offset plugin: from the output of the commands to the result *)

Section FieldFacts.

Lemma spaceWidth_graphic c s :
  33 <= code c <= 126 -> gostrings.spaceWidth (String c s) = 0%nat.
Proof.
  intros Hc. unfold gostrings.spaceWidth.
  repeat match goal with
         | |- context [code c =? ?k] =>
             destruct (Z.eqb_spec (code c) k) as [E|_]; [lia|]
         end.
  cbn [orb andb]. now destruct s as [|c1 [|c2 s2]].
Qed.

Lemma markSpace_graphic c s :
  33 <= code c <= 126 ->
  gostrings.markSpace 0 (String c s) = (c, false) :: gostrings.markSpace 0 s.
Proof.
  intros Hc. cbn [gostrings.markSpace]. now rewrite spaceWidth_graphic.
Qed.

Lemma markSpace_blank s :
  gostrings.markSpace 0 (String " " s) = (" "%char, true) :: gostrings.markSpace 0 s.
Proof. reflexivity. Qed.

Lemma graphic_cons c w :
  graphic (String c w) = true -> 33 <= code c <= 126 /\ graphic w = true.
Proof.
  cbn [graphic]. intros H. apply andb_true_iff in H as [H Hw].
  apply andb_true_iff in H as [H1 H2]. split; [lia|exact Hw].
Qed.

Lemma fields_go_word w : forall f rest,
  graphic w = true ->
  gostrings.fields_go (Some f) (gostrings.markSpace 0 (w ++ rest))
  = gostrings.fields_go (Some (rev_string f w)) (gostrings.markSpace 0 rest).
Proof.
  induction w as [|c w IH]; intros f rest Hw; [reflexivity|].
  destruct (graphic_cons c w Hw) as [Hc Hw'].
  change (String c w ++ rest) with (String c (w ++ rest)).
  rewrite (markSpace_graphic c _ Hc). cbn [gostrings.fields_go rev_string].
  now apply IH.
Qed.

Lemma fields_go_start w rest :
  graphic w = true -> w <> EmptyString ->
  gostrings.fields_go None (gostrings.markSpace 0 (w ++ rest))
  = gostrings.fields_go (Some (rev_string EmptyString w)) (gostrings.markSpace 0 rest).
Proof.
  intros Hw Hne. destruct w as [|c w]; [now elim Hne|].
  destruct (graphic_cons c w Hw) as [Hc Hw'].
  change (String c w ++ rest) with (String c (w ++ rest)).
  rewrite (markSpace_graphic c _ Hc). cbn [gostrings.fields_go rev_string].
  now apply fields_go_word.
Qed.

(** A word before a blank is a field. *)
Lemma fields_word_blank w rest :
  graphic w = true -> w <> EmptyString ->
  gostrings.fields_go None (gostrings.markSpace 0 (w ++ String " " rest))
  = w :: gostrings.fields_go None (gostrings.markSpace 0 rest).
Proof.
  intros Hw Hne. rewrite (fields_go_start w _ Hw Hne), markSpace_blank.
  cbn [gostrings.fields_go]. now rewrite rev_string_involutive.
Qed.

Lemma fields_word_end w :
  graphic w = true -> w <> EmptyString ->
  gostrings.fields_go None (gostrings.markSpace 0 w) = [w].
Proof.
  intros Hw Hne. rewrite <- (append_empty_r w) at 1.
  rewrite (fields_go_start w _ Hw Hne). cbn [gostrings.markSpace gostrings.fields_go].
  now rewrite rev_string_involutive.
Qed.

Lemma fields_blanks n rest :
  gostrings.fields_go None (gostrings.markSpace 0 (blanks n ++ rest))
  = gostrings.fields_go None (gostrings.markSpace 0 rest).
Proof.
  induction n as [|n IH]; [reflexivity|].
  change (blanks (S n) ++ rest) with (String " " (blanks n ++ rest)).
  rewrite markSpace_blank. cbn [gostrings.fields_go]. exact IH.
Qed.

(** The fields of the line of the last offset. *)
Lemma Fields_trackingLine n x :
  graphic x = true -> x <> EmptyString ->
  gostrings.Fields (trackingLine (S n) x) = ["Last"; "offset"; ":"; x; "seconds"].
Proof.
  intros Hx Hne. unfold gostrings.Fields, trackingLine.
  change ("Last offset" ++ blanks (S n) ++ ": " ++ x ++ " seconds")
    with ("Last" ++ String " " ("offset" ++ String " " (blanks n ++
            (":" ++ String " " (x ++ String " " "seconds"))))).
  rewrite fields_word_blank by (reflexivity || discriminate).
  rewrite fields_word_blank by (reflexivity || discriminate).
  rewrite fields_blanks.
  rewrite fields_word_blank by (reflexivity || discriminate).
  rewrite (fields_word_blank x _ Hx Hne).
  now rewrite fields_word_end by (reflexivity || discriminate).
Qed.

(** Without a blank before the colon the label and the colon are one field. *)
Lemma Fields_trackingLine_0 x :
  graphic x = true -> x <> EmptyString ->
  gostrings.Fields (trackingLine 0 x) = ["Last"; "offset:"; x; "seconds"].
Proof.
  intros Hx Hne. unfold gostrings.Fields, trackingLine.
  change ("Last offset" ++ blanks 0 ++ ": " ++ x ++ " seconds")
    with ("Last" ++ String " " ("offset:" ++ String " " (x ++ String " " "seconds"))).
  rewrite fields_word_blank by (reflexivity || discriminate).
  rewrite fields_word_blank by (reflexivity || discriminate).
  rewrite (fields_word_blank x _ Hx Hne).
  now rewrite fields_word_end by (reflexivity || discriminate).
Qed.

Lemma trackingLine_labelled n x :
  gostrings.HasPrefix (trackingLine n x) "Last offset" = true.
Proof. apply HasPrefix_app. Qed.

Lemma parseChronyLines_tracking pre n x post :
  Forall (fun l => gostrings.HasPrefix l "Last offset" = false) pre ->
  graphic x = true -> x <> EmptyString ->
  checkntpoffset.parseChronyLines (pre ++ trackingLine (S n) x :: post)
  = match strconv.ParseFloat x with
    | (_, Some err) => (float.zero, Some err)
    | (seconds, None) => (float.mul seconds (float.of_Z 1000), None)
    end.
Proof.
  intros Hpre Hx Hne. rewrite (parseChronyLines_skip pre _ Hpre).
  cbn [checkntpoffset.parseChronyLines].
  now rewrite trackingLine_labelled, (Fields_trackingLine n x Hx Hne).
Qed.

End FieldFacts.

(** X15. The chrony parser on the tracking format.  When the first line
    that begins with [Last offset] is the label, one or more blanks, a
    colon, a blank, a text [x] of printable non-blank ASCII, a blank and
    [seconds], the result is [x] parsed as a float, times 1000 (or the
    error of parsing [x]), whatever stands on the lines before and after.
    When no blank separates the label from the colon the line has four
    fields and the result is an error. *)
Theorem parseNTPOffsetFromChrony_tracking (out : Reader) (pre post : list string)
  (n : nat) (x : string) :
  Forall (fun l => gostrings.HasPrefix l "Last offset" = false) pre ->
  graphic x = true -> x <> EmptyString ->
  (bufio.lines out = (pre ++ trackingLine (S n) x :: post)%list ->
   checkntpoffset.parseNTPOffsetFromChrony out
   = match strconv.ParseFloat x with
     | (_, Some err) => (float.zero, Some err)
     | (seconds, None) => (float.mul seconds (float.of_Z 1000), None)
     end)
  /\ (bufio.lines out = (pre ++ trackingLine 0 x :: post)%list ->
      checkntpoffset.parseNTPOffsetFromChrony out
      = (float.zero, Some checkntpoffset.chronyFailed)).
Proof.
  intros Hpre Hx Hne. unfold checkntpoffset.parseNTPOffsetFromChrony. split.
  - intros ->. now apply parseChronyLines_tracking.
  - intros ->. rewrite (parseChronyLines_skip pre _ Hpre).
    cbn [checkntpoffset.parseChronyLines].
    now rewrite trackingLine_labelled, (Fields_trackingLine_0 x Hx Hne).
Qed.

Lemma parseNTPOffsetFromChrony_tracking_witness :
  checkntpoffset.parseNTPOffsetFromChrony
    (textReader (MockHost.chronycOutput "-0.000123456"))
  = match strconv.ParseFloat "-0.000123456" with
    | (_, Some err) => (float.zero, Some err)
    | (seconds, None) => (float.mul seconds (float.of_Z 1000), None)
    end.
Proof.
  refine (proj1 (parseNTPOffsetFromChrony_tracking
                   (textReader (MockHost.chronycOutput "-0.000123456"))
                   ["Reference ID    : A9FEA97B (169.254.169.123)"]
                   ["RMS offset      : 0.000030 seconds"] 4 "-0.000123456" _ _ _) _).
  - repeat constructor.
  - reflexivity.
  - discriminate.
  - reflexivity.
Defined.

(** X16. End to end on a host that runs chronyd, for an unprivileged user:
    [ps] runs and lists a command that ends in [chronyd], [chronyc] is on
    the path, and [chronyc tracking] runs and prints the last offset [x] in
    its format.  Then the plugin reports the classification of [x] seconds
    in milliseconds against the parsed thresholds, under the name [NTP], or
    UNKNOWN with the error of parsing [x]. *)
Theorem Do_chrony_tracking
  (ParseArgs : list string -> checkntpoffset.Opts * option error)
  (h : checkntpoffset.Host) (args : list string) (opts : checkntpoffset.Opts)
  (pre post : list string) (n : nat) (x : string) :
  let ps := checkntpoffset.Command h "ps" ["-eo"; "comm"] in
  let chronyc := checkntpoffset.Command h "chronyc" ["tracking"] in
  ParseArgs args = (opts, None) ->
  checkntpoffset.Getuid h <> 0 ->
  launched ps -> exec.waitErr ps = None ->
  Exists (fun l => gostrings.HasSuffix l "chronyd" = true) (bufio.lines (exec.stdout ps)) ->
  checkntpoffset.LookPath h "chronyc" = None ->
  launched chronyc -> exec.waitErr chronyc = None ->
  bufio.lines (exec.stdout chronyc) = (pre ++ trackingLine (S n) x :: post)%list ->
  Forall (fun l => gostrings.HasPrefix l "Last offset" = false) pre ->
  graphic x = true -> x <> EmptyString ->
  checkntpoffset.Do ParseArgs h args
  = ExitChecker
      (checkers.setName
         match strconv.ParseFloat x with
         | (_, Some err) => checkers.Unknown err
         | (seconds, None) =>
             checkntpoffset.classify opts (float.mul seconds (float.of_Z 1000))
         end "NTP").
Proof.
  intros ps chronyc Hparse Huid Hps Hpswait Hline Hpath Hchronyc Hwait Hlines Hpre Hx Hne.
  subst ps chronyc.
  assert (Hdetect : checkntpoffset.detectNTPDname h = Return ("chronyd", None)).
  { rewrite (detect_unprivileged h Huid Hps), Hpswait.
    now rewrite (proj2 (scanComm_chronyd h _) (conj Hline Hpath)). }
  assert (Hget :
    checkntpoffset.getNtpOffset h
    = Return (checkntpoffset.parseNTPOffsetFromChrony
                (exec.stdout (checkntpoffset.Command h "chronyc" ["tracking"])))).
  { rewrite (getNtpOffset_supported h "chronyd" Hdetect (or_intror eq_refl)).
    destruct Hchronyc as [Hpipe Hstart].
    unfold checkntpoffset.withCmd, query, parser. cbn [String.eqb Ascii.eqb Bool.eqb].
    rewrite Hpipe, Hstart. cbn [bind].
    destruct (checkntpoffset.parseNTPOffsetFromChrony _) as [v [e|]];
      [reflexivity|now rewrite Hwait]. }
  unfold checkntpoffset.Do, checkntpoffset.run. rewrite Hparse, Hget.
  unfold checkntpoffset.parseNTPOffsetFromChrony.
  rewrite Hlines, (parseChronyLines_tracking pre n x post Hpre Hx Hne).
  now destruct (strconv.ParseFloat x) as [seconds [err|]].
Qed.

(** The scripted chrony host with an offset of 21 microseconds and the
    default thresholds. *)
Lemma Do_chrony_tracking_witness :
  checkntpoffset.Do MockHost.ParseArgs
    (MockHost.chronyHost (MockHost.prints (MockHost.chronycOutput "+0.000021"))) []
  = ExitChecker
      (checkers.setName
         match strconv.ParseFloat "+0.000021" with
         | (_, Some err) => checkers.Unknown err
         | (seconds, None) =>
             checkntpoffset.classify checkntpoffset.defaultOpts
               (float.mul seconds (float.of_Z 1000))
         end "NTP").
Proof.
  refine (Do_chrony_tracking MockHost.ParseArgs
            (MockHost.chronyHost (MockHost.prints (MockHost.chronycOutput "+0.000021")))
            [] checkntpoffset.defaultOpts
            ["Reference ID    : A9FEA97B (169.254.169.123)"]
            ["RMS offset      : 0.000030 seconds"] 4 "+0.000021"
            _ _ _ _ _ _ _ _ _ _ _ _).
  - reflexivity.
  - cbn. discriminate.
  - split; reflexivity.
  - reflexivity.
  - constructor 2. constructor 2. constructor. reflexivity.
  - reflexivity.
  - split; reflexivity.
  - reflexivity.
  - reflexivity.
  - repeat constructor.
  - reflexivity.
  - discriminate.
Defined.

(** X17. End to end on a host that runs ntpd, for root: [lsof] runs and the
    first field of its second line has the base name [ntpd], and [ntpq]
    runs and prints one line [key=value].  Then the plugin reports the
    classification of the value, taken as milliseconds, against the parsed
    thresholds, under the name [NTP], or UNKNOWN with the error of parsing
    the value. *)
Theorem Do_ntpd_offset
  (ParseArgs : list string -> checkntpoffset.Opts * option error)
  (h : checkntpoffset.Host) (args : list string) (opts : checkntpoffset.Opts)
  (l0 line f0 k v : string) (rest fs : list string) :
  let lsof := checkntpoffset.Command h "lsof" ["-i:123"] in
  let ntpq := checkntpoffset.Command h "ntpq" ["-c"; "rv 0 offset"] in
  ParseArgs args = (opts, None) ->
  checkntpoffset.Getuid h = 0 ->
  launched lsof -> exec.waitErr lsof = None ->
  bufio.lines (exec.stdout lsof) = l0 :: line :: rest ->
  gostrings.Fields line = f0 :: fs ->
  filepath.Base f0 = "ntpd" ->
  launched ntpq -> exec.waitErr ntpq = None ->
  exec.stdout ntpq = textReader (k ++ "=" ++ v ++ LF) ->
  count "=" k = 0%nat -> count (byte 10) k = 0%nat ->
  count "=" v = 0%nat -> count (byte 10) v = 0%nat ->
  checkntpoffset.Do ParseArgs h args
  = ExitChecker
      (checkers.setName
         match strconv.ParseFloat v with
         | (_, Some err) => checkers.Unknown err
         | (offset, None) => checkntpoffset.classify opts offset
         end "NTP").
Proof.
  intros lsof ntpq Hparse Huid Hlsof Hlwait Hlines Hfields Hbase Hntpq Hwait Hout
         Hk Hklf Hv Hvlf.
  subst lsof ntpq.
  assert (Hline : line <> EmptyString).
  { intros ->. discriminate Hfields. }
  assert (Hdetect : checkntpoffset.detectNTPDname h = Return ("ntpd", None)).
  { rewrite (detect_root_field h l0 line rest f0 fs Huid Hlsof Hlines Hline Hfields).
    now rewrite Hbase, Hlwait. }
  assert (Hget :
    checkntpoffset.getNtpOffset h = Return (strconv.ParseFloat v)).
  { rewrite (getNtpOffset_supported h "ntpd" Hdetect (or_introl eq_refl)).
    destruct Hntpq as [Hpipe Hstart].
    unfold checkntpoffset.withCmd, query, parser. cbn [String.eqb Ascii.eqb Bool.eqb].
    rewrite Hpipe, Hstart, Hout. cbn [bind].
    rewrite parseNTPOffsetFromNTPD_lines. change LF with (sep1 (byte 10)).
    replace (k ++ "=" ++ v ++ sep1 (byte 10))
      with ((k ++ "=" ++ v) ++ sep1 (byte 10) ++ EmptyString)
      by (now rewrite !append_assoc).
    rewrite Split_app by (rewrite !count_app, Hklf, Hvlf; reflexivity).
    cbn [gostrings.Split gostrings.split_go].
    rewrite (offsetOfLine_key_value k v Hk Hv Hvlf).
    destruct (strconv.ParseFloat v) as [o [e|]]; [reflexivity|now rewrite Hwait]. }
  unfold checkntpoffset.Do, checkntpoffset.run. rewrite Hparse, Hget.
  now destruct (strconv.ParseFloat v) as [o [err|]].
Qed.

(** Root on the scripted ntpd host, whose [ntpq] prints an offset of 75.5
    milliseconds: WARNING with the default thresholds. *)
Lemma Do_ntpd_offset_witness :
  checkntpoffset.Do MockHost.ParseArgs
    (MockHost.ntpdHost (MockHost.prints ("offset" ++ "=" ++ "75.5" ++ LF))) []
  = ExitChecker
      (checkers.setName
         match strconv.ParseFloat "75.5" with
         | (_, Some err) => checkers.Unknown err
         | (offset, None) => checkntpoffset.classify checkntpoffset.defaultOpts offset
         end "NTP").
Proof.
  refine (Do_ntpd_offset MockHost.ParseArgs
            (MockHost.ntpdHost (MockHost.prints ("offset" ++ "=" ++ "75.5" ++ LF)))
            [] checkntpoffset.defaultOpts
            "COMMAND PID USER   FD   TYPE DEVICE SIZE/OFF NODE NAME"
            "ntpd    812  ntp   16u  IPv4  17613      0t0  UDP *:ntp"
            "ntpd" "offset" "75.5" []
            ["812"; "ntp"; "16u"; "IPv4"; "17613"; "0t0"; "UDP"; "*:ntp"]
            _ _ _ _ _ _ _ _ _ _ _ _ _ _);
    try reflexivity.
  - split; reflexivity.
  - split; reflexivity.
Defined.

(** ** The MySQL plugin: dispatch to the handlers *)

Section HandlerFacts.
Import checkmysql.

Variables checkReplication checkConnection checkUptime checkReadOnly
  : list string -> outcome checkers.Checker.

Local Abbreviation table :=
  (commands checkReplication checkConnection checkUptime checkReadOnly).

Lemma commands_lookup :
  table !! "replication" = Some checkReplication
  /\ table !! "connection" = Some checkConnection
  /\ table !! "uptime" = Some checkUptime
  /\ table !! "readonly" = Some checkReadOnly.
Proof.
  unfold commands. split; [|split; [|split]].
  - apply lookup_insert_eq.
  - rewrite lookup_insert_ne by discriminate. apply lookup_insert_eq.
  - rewrite !lookup_insert_ne by discriminate. apply lookup_insert_eq.
  - rewrite !lookup_insert_ne by discriminate. apply lookup_insert_eq.
Qed.

(** [Do] on a registered subcommand. *)
Lemma Do_registered (order args argv : list string) (subCmd : string) fn :
  separateSub args = (subCmd, argv) ->
  table !! subCmd = Some fn ->
  Do checkReplication checkConnection checkUptime checkReadOnly order args
  = match fn argv with
    | Return ckr =>
        match subCmd with
        | String c rest =>
            ExitChecker
              (checkers.setName ckr
                 ("MySQL " ++ gostrings.ToUpper (String c EmptyString) ++ rest))
        | EmptyString => Crash "runtime error: index out of range"
        end
    | Exit code => ExitCode code
    | Panic msg => Crash msg
    end.
Proof. unfold Do. intros -> ->. reflexivity. Qed.

(** A subcommand that is not the empty text is the first argument. *)
Lemma separateSub_first (args argv : list string) (subCmd : string) :
  separateSub args = (subCmd, argv) -> subCmd <> EmptyString ->
  args = subCmd :: argv /\ gostrings.HasPrefix subCmd "-" = false.
Proof.
  destruct args as [|a0 rest]; cbn [separateSub].
  - intros H. injection H as <- <-. now intros [].
  - destruct (gostrings.HasPrefix a0 "-") eqn:E; intros H; injection H as <- <-.
    + now intros [].
    + now intros _.
Qed.

End HandlerFacts.

(** X18. [Do] with a registered subcommand as first argument runs the
    handler registered under that name on the remaining arguments, names
    the result [MySQL] followed by the subcommand with a capital initial,
    and exits with it; the order of the iteration over the table plays no
    part.  Conversely a check result comes only out of the handler of a
    registered first argument that does not begin with [-], with the status
    and the message the handler returned. *)
Theorem Do_dispatch
  (checkReplication checkConnection checkUptime checkReadOnly
     : list string -> outcome checkers.Checker)
  (order rest : list string) :
  let Do := checkmysql.Do checkReplication checkConnection checkUptime checkReadOnly in
  Do order ("replication" :: rest) = exitWith "MySQL Replication" (checkReplication rest)
  /\ Do order ("connection" :: rest) = exitWith "MySQL Connection" (checkConnection rest)
  /\ Do order ("uptime" :: rest) = exitWith "MySQL Uptime" (checkUptime rest)
  /\ Do order ("readonly" :: rest) = exitWith "MySQL Readonly" (checkReadOnly rest)
  /\ (forall args ckr,
         Do order args = ExitChecker ckr ->
         exists name argv fn r,
           args = name :: argv
           /\ In name subcommands
           /\ gostrings.HasPrefix name "-" = false
           /\ checkmysql.commands checkReplication checkConnection checkUptime
                checkReadOnly !! name = Some fn
           /\ fn argv = Return r
           /\ checkers.status ckr = checkers.status r
           /\ checkers.Message ckr = checkers.Message r).
Proof.
  intros Do. subst Do.
  destruct (commands_lookup checkReplication checkConnection checkUptime checkReadOnly)
    as (Hrep & Hcon & Hup & Hro).
  split; [|split; [|split; [|split]]].
  - rewrite (Do_registered _ _ _ _ order ("replication" :: rest) rest "replication"
               checkReplication eq_refl Hrep).
    now destruct (checkReplication rest).
  - rewrite (Do_registered _ _ _ _ order ("connection" :: rest) rest "connection"
               checkConnection eq_refl Hcon).
    now destruct (checkConnection rest).
  - rewrite (Do_registered _ _ _ _ order ("uptime" :: rest) rest "uptime"
               checkUptime eq_refl Hup).
    now destruct (checkUptime rest).
  - rewrite (Do_registered _ _ _ _ order ("readonly" :: rest) rest "readonly"
               checkReadOnly eq_refl Hro).
    now destruct (checkReadOnly rest).
  - intros args ckr HDo.
    destruct (checkmysql.separateSub args) as [subCmd argv] eqn:Hsep.
    destruct (checkmysql.commands checkReplication checkConnection checkUptime
                checkReadOnly !! subCmd) as [fn|] eqn:Hfn.
    + rewrite (Do_registered _ _ _ _ order args argv subCmd fn Hsep Hfn) in HDo.
      assert (Hin : In subCmd subcommands).
      { apply (commands_registered checkReplication checkConnection checkUptime
                 checkReadOnly). rewrite Hfn. now exists fn. }
      assert (Hne : subCmd <> EmptyString).
      { intros ->. unfold subcommands in Hin. cbn [In] in Hin.
        repeat (destruct Hin as [Hin|Hin]; [discriminate Hin|]). exact Hin. }
      destruct (separateSub_first args argv subCmd Hsep Hne) as [Hargs Hdash].
      destruct (fn argv) as [r|code|msg] eqn:Hr; try discriminate HDo.
      destruct subCmd as [|c name]; [discriminate HDo|].
      injection HDo as <-.
      exists (String c name), argv, fn, r. repeat split; trivial.
    + rewrite (Do_unregistered checkReplication checkConnection checkUptime
                 checkReadOnly order args) in HDo; [discriminate HDo|].
      rewrite Hsep. exact Hfn.
Qed.

(** A handler for [uptime] that reports the number of its arguments. *)
Lemma Do_dispatch_witness :
  let silent := fun _ : list string => Return (checkers.Unknown EmptyString) in
  let counting := fun argv : list string =>
    Return (checkers.NewChecker checkers.OK (fmt.decimal (Z.of_nat (length argv)))) in
  exists name argv fn r,
    ["uptime"; "--host"; "db"] = name :: argv
    /\ In name subcommands
    /\ gostrings.HasPrefix name "-" = false
    /\ checkmysql.commands silent silent counting silent !! name = Some fn
    /\ fn argv = Return r
    /\ checkers.status (checkers.setName (checkers.NewChecker checkers.OK "2") "MySQL Uptime")
       = checkers.status r
    /\ checkers.Message (checkers.setName (checkers.NewChecker checkers.OK "2") "MySQL Uptime")
       = checkers.Message r.
Proof.
  intros silent counting.
  destruct (Do_dispatch silent silent counting silent subcommands ["--host"; "db"])
    as (_ & _ & Hup & _ & Honly).
  apply (Honly ["uptime"; "--host"; "db"]). rewrite Hup. reflexivity.
Defined.

(** ** The MySQL plugin: versions in decimal *)

Section DecimalFacts.

Lemma uintValue_le d : forall acc, 0 <= acc -> acc <= uintValue acc d.
Proof.
  induction d as [|d IH|d IH|d IH|d IH|d IH|d IH|d IH|d IH|d IH|d IH];
    intros acc Hacc; cbn [uintValue]; [lia| | | | | | | | | |];
    (etransitivity; [|apply IH]; lia).
Qed.

(** The digit loop of [ParseUint] on a decimal numeral. *)
Lemma parseUint_go_uint d : forall acc,
  0 <= acc -> uintValue acc d <= strconv.maxUint64 ->
  strconv.parseUint_go acc (NilEmpty.string_of_uint d)
  = strconv.ScanOK (uintValue acc d).
Proof.
  induction d as [|d IH|d IH|d IH|d IH|d IH|d IH|d IH|d IH|d IH|d IH];
    intros acc Hacc Hmax; [reflexivity| | | | | | | | | |];
    cbn [NilEmpty.string_of_uint uintValue strconv.parseUint_go] in Hmax |- *;
    match goal with
    | |- context [strconv.isDigit ?c] =>
        change (strconv.isDigit c) with true;
        let k := eval vm_compute in (strconv.digit c) in
        change (strconv.digit c) with k
    end;
    cbv iota;
    match goal with
    | H : uintValue ?a d <= _ |- _ =>
        pose proof (uintValue_le d a ltac:(lia)) as Hle
    end;
    change strconv.maxUint64 with 18446744073709551615 in *;
    change (18446744073709551615 / 10 + 1) with 1844674407370955162;
    destruct (Z.geb_spec acc 1844674407370955162); try lia;
    match goal with
    | |- context [?a >? ?b] => destruct (Z.gtb_spec a b); try lia
    end;
    rewrite ?Z.add_0_r; apply IH; lia.
Qed.

Lemma uintValue_of_uint_acc d : forall acc,
  Zpos (Pos.of_uint_acc d acc) = uintValue (Zpos acc) d.
Proof.
  induction d as [|d IH|d IH|d IH|d IH|d IH|d IH|d IH|d IH|d IH|d IH];
    intros acc; cbn [Pos.of_uint_acc uintValue]; [reflexivity| | | | | | | | | |];
    rewrite IH; f_equal; lia.
Qed.

Lemma uintValue_of_uint d : Z.of_N (N.of_uint d) = uintValue 0 d.
Proof.
  unfold N.of_uint.
  induction d as [|d IH|d IH|d IH|d IH|d IH|d IH|d IH|d IH|d IH|d IH];
    cbn [Pos.of_uint uintValue]; [reflexivity|exact IH| | | | | | | | |];
    cbn [Z.of_N]; now rewrite uintValue_of_uint_acc.
Qed.

Lemma uintValue_to_uint n : 0 <= n -> uintValue 0 (N.to_uint (Z.to_N n)) = n.
Proof.
  intros Hn. rewrite <- uintValue_of_uint, DecimalN.Unsigned.of_to. lia.
Qed.

Lemma to_uint_not_Nil n : N.to_uint n <> Decimal.Nil.
Proof.
  intros H. pose proof (DecimalN.Unsigned.of_to n) as Hof. rewrite H in Hof.
  cbn in Hof. subst n. discriminate H.
Qed.

(** No byte of a decimal numeral is the byte [c], when [c] is no digit. *)
Lemma count_string_of_uint c d :
  strconv.isDigit c = false -> count c (NilEmpty.string_of_uint d) = 0%nat.
Proof.
  intros Hc.
  induction d as [|d IH|d IH|d IH|d IH|d IH|d IH|d IH|d IH|d IH|d IH];
    cbn [NilEmpty.string_of_uint count]; [reflexivity| | | | | | | | | |];
    match goal with
    | |- context [Ascii.eqb ?a c] =>
        destruct (Ascii.eqb_spec a c) as [<-|_]; [discriminate Hc|exact IH]
    end.
Qed.

Lemma decimal_numeral n :
  fmt.decimal n = NilEmpty.string_of_uint (N.to_uint (Z.to_N n)).
Proof.
  unfold fmt.decimal, NilZero.string_of_uint.
  pose proof (to_uint_not_Nil (Z.to_N n)) as H.
  now destruct (N.to_uint (Z.to_N n)).
Qed.

Lemma count_decimal c n : strconv.isDigit c = false -> count c (fmt.decimal n) = 0%nat.
Proof. intros Hc. rewrite decimal_numeral. now apply count_string_of_uint. Qed.

(** [Atoi] reads back what [%d] prints, for a non-negative [int]. *)
Lemma Atoi_decimal n :
  0 <= n <= strconv.maxInt64 -> strconv.Atoi (fmt.decimal n) = (n, None).
Proof.
  intros [Hn Hmax]. change strconv.maxInt64 with 9223372036854775807 in Hmax.
  pose proof (count_decimal "-" n eq_refl) as Hminus.
  pose proof (count_decimal "+" n eq_refl) as Hplus.
  assert (Hscan : strconv.parseUint_go 0 (fmt.decimal n) = strconv.ScanOK n).
  { rewrite decimal_numeral, parseUint_go_uint; rewrite ?uintValue_to_uint;
      trivial; try lia. change strconv.maxUint64 with 18446744073709551615. lia. }
  pose proof (to_uint_not_Nil (Z.to_N n)) as Hnil.
  rewrite decimal_numeral in *.
  destruct (NilEmpty.string_of_uint (N.to_uint (Z.to_N n))) as [|c s] eqn:Hs.
  { destruct (N.to_uint (Z.to_N n)); try discriminate Hs. now elim Hnil. }
  cbn [count] in Hminus, Hplus. unfold strconv.Atoi.
  destruct (Ascii.eqb c "-"); [discriminate Hminus|].
  destruct (Ascii.eqb c "+"); [discriminate Hplus|].
  cbn [orb negb andb]. rewrite Hscan.
  change (2 ^ 63) with 9223372036854775808.
  destruct (Z.geb_spec n 9223372036854775808); [lia|reflexivity].
Qed.

Lemma count_versionText c a b d :
  strconv.isDigit c = false -> Ascii.eqb "." c = false ->
  count c (versionText a b d) = 0%nat.
Proof.
  intros Hc Hdot. unfold versionText.
  rewrite !count_app, !count_decimal by exact Hc. cbn [count]. now rewrite Hdot.
Qed.

Lemma Split_versionText a b c extra :
  gostrings.Split (versionText a b c ++ extra) "."
  = match gostrings.Split (fmt.decimal c ++ extra) "." with
    | c0 :: more => fmt.decimal a :: fmt.decimal b :: c0 :: more
    | [] => []
    end.
Proof.
  unfold versionText. rewrite !append_assoc. change "." with (sep1 ".").
  rewrite !Split_app by (now apply count_decimal).
  now destruct (Split_cons "." (fmt.decimal c ++ extra)) as (c0 & more & ->).
Qed.

End DecimalFacts.

(** X19. The version parser reads back a version written in the usual form.
    For numbers [a], [b], [c] in the range of a non-negative [int], the text
    [a.b.c] parses to the version [a], [b], [c] with an empty stability, and
    [a.b.c-st] to the same version with stability [st]; further
    dot-separated components after the third and further dash-separated
    segments after the second are ignored. *)
Theorem getMySQLVersion_round_trip (a b c : Z) (st extra more : string) :
  0 <= a <= strconv.maxInt64 -> 0 <= b <= strconv.maxInt64 ->
  0 <= c <= strconv.maxInt64 ->
  count "-" st = 0%nat -> count "-" extra = 0%nat ->
  let parsed := fun stability =>
    Return (Some {| checkmysql.major := a; checkmysql.minor := b;
                    checkmysql.patch := c; checkmysql.stability := stability |},
            @None error) in
  checkmysql.getMySQLVersion (versionDB (versionText a b c)) = parsed EmptyString
  /\ checkmysql.getMySQLVersion (versionDB (versionText a b c ++ "-" ++ st))
     = parsed st
  /\ checkmysql.getMySQLVersion
       (versionDB ((versionText a b c ++ "." ++ extra) ++ "-" ++ st ++ "-" ++ more))
     = parsed st.
Proof.
  intros Ha Hb Hc Hst Hextra parsed. subst parsed. cbv beta.
  assert (Hv : count "-" (versionText a b c) = 0%nat)
    by (now apply count_versionText).
  assert (Hvx : count "-" (versionText a b c ++ "." ++ extra) = 0%nat).
  { rewrite !count_app, Hv, Hextra. reflexivity. }
  assert (H3 : gostrings.Split (versionText a b c) "."
               = [fmt.decimal a; fmt.decimal b; fmt.decimal c]).
  { rewrite <- (append_empty_r (versionText a b c)), Split_versionText.
    rewrite append_empty_r. change "." with (sep1 ".").
    now rewrite Split_none by (now apply count_decimal). }
  assert (H4 : exists rest,
             gostrings.Split (versionText a b c ++ "." ++ extra) "."
             = fmt.decimal a :: fmt.decimal b :: fmt.decimal c :: rest).
  { rewrite Split_versionText. change "." with (sep1 ".").
    rewrite Split_app by (now apply count_decimal). now eexists. }
  destruct H4 as (rest & H4).
  rewrite !getMySQLVersion_components. unfold components.
  change "-" with (sep1 "-").
  rewrite (Split_none "-" _ Hv), (Split_app "-" _ st Hv).
  rewrite (Split_app "-" _ (st ++ sep1 "-" ++ more) Hvx), (Split_app "-" st more Hst).
  rewrite (Split_none "-" st Hst). cbn [hd nth].
  rewrite H3, H4, !Atoi_decimal by assumption.
  repeat split.
Qed.

Lemma getMySQLVersion_round_trip_witness :
  checkmysql.getMySQLVersion (versionDB (versionText 8 0 1 ++ "-" ++ "dmr"))
  = Return (Some {| checkmysql.major := 8; checkmysql.minor := 0;
                    checkmysql.patch := 1; checkmysql.stability := "dmr" |}, None).
Proof.
  refine (proj1 (proj2 (getMySQLVersion_round_trip 8 0 1 "dmr" "0ubuntu" "log"
                          _ _ _ _ _)));
    [vm_compute; split; discriminate ..|reflexivity|reflexivity].
Defined.

(** ** The MySQL plugin: the connection *)

Section AddressFacts.

Lemma rev_string_append a b :
  rev_string EmptyString (a ++ b)
  = rev_string EmptyString b ++ rev_string EmptyString a.
Proof. rewrite rev_string_app. apply rev_string_acc. Qed.

Lemma rev_string_inj a b :
  rev_string EmptyString a = rev_string EmptyString b -> a = b.
Proof.
  intros H. apply (f_equal (rev_string EmptyString)) in H.
  now rewrite !rev_string_involutive in H.
Qed.

(** A text is cut at its first separator in one way only. *)
Lemma first_cut c x y x' y' :
  count c x = 0%nat -> count c x' = 0%nat ->
  x ++ sep1 c ++ y = x' ++ sep1 c ++ y' -> x = x' /\ y = y'.
Proof.
  intros Hx Hx' H.
  apply (f_equal (fun s => gostrings.Split s (sep1 c))) in H.
  rewrite !Split_app in H by assumption. injection H as Hxx Hyy.
  split; [exact Hxx|].
  now rewrite <- (Split_Join c y), <- (Split_Join c y'), Hyy.
Qed.

(** So it is at its last separator. *)
Lemma last_cut c x y x' y' :
  count c y = 0%nat -> count c y' = 0%nat ->
  x ++ sep1 c ++ y = x' ++ sep1 c ++ y' -> x = x' /\ y = y'.
Proof.
  intros Hy Hy' H.
  apply (f_equal (rev_string EmptyString)) in H.
  rewrite !rev_string_append in H. change (rev_string EmptyString (sep1 c)) with (sep1 c) in H.
  rewrite !append_assoc in H.
  apply first_cut in H.
  - destruct H as [Hyy Hxx]. split; now apply rev_string_inj.
  - rewrite count_rev_string, Hy. reflexivity.
  - rewrite count_rev_string, Hy'. reflexivity.
Qed.

End AddressFacts.

(** X20. The connection [newDB] opens.  With a socket path the network is
    [unix] and the address is the path: host and port are not used, two
    settings that differ in them only open the same connection.  Without
    one the network is [tcp] and the address is [host:port], which
    determines the host and the port when the port holds no colon.  User
    and password are passed as given and native passwords are allowed in
    both cases. *)
Theorem newDB_target (DB : Type) (FormatDSN : mysql.Config -> string)
  (Open : string -> string -> option DB * option error)
  (m m' : checkmysqldb.mysqlSetting) :
  (checkmysqldb.Socket m <> EmptyString ->
   checkmysqldb.newDB FormatDSN Open m
   = Open "mysql"
       (FormatDSN {| mysql.User := checkmysqldb.User m;
                     mysql.Passwd := checkmysqldb.Pass m;
                     mysql.Net := "unix";
                     mysql.Addr := checkmysqldb.Socket m;
                     mysql.AllowNativePasswords := true |}))
  /\ (checkmysqldb.Socket m <> EmptyString ->
      checkmysqldb.Socket m' = checkmysqldb.Socket m ->
      checkmysqldb.User m' = checkmysqldb.User m ->
      checkmysqldb.Pass m' = checkmysqldb.Pass m ->
      checkmysqldb.newDB FormatDSN Open m' = checkmysqldb.newDB FormatDSN Open m)
  /\ (checkmysqldb.Socket m = EmptyString ->
      checkmysqldb.newDB FormatDSN Open m
      = Open "mysql"
          (FormatDSN {| mysql.User := checkmysqldb.User m;
                        mysql.Passwd := checkmysqldb.Pass m;
                        mysql.Net := "tcp";
                        mysql.Addr := checkmysqldb.Host m ++ ":" ++ checkmysqldb.Port m;
                        mysql.AllowNativePasswords := true |}))
  /\ (count ":" (checkmysqldb.Port m) = 0%nat ->
      count ":" (checkmysqldb.Port m') = 0%nat ->
      checkmysqldb.Host m ++ ":" ++ checkmysqldb.Port m
      = checkmysqldb.Host m' ++ ":" ++ checkmysqldb.Port m' ->
      checkmysqldb.Host m = checkmysqldb.Host m'
      /\ checkmysqldb.Port m = checkmysqldb.Port m').
Proof.
  unfold checkmysqldb.newDB. split; [|split; [|split]].
  - intros Hs. now destruct (String.eqb_spec (checkmysqldb.Socket m) EmptyString).
  - intros Hs Hsock Huser Hpass. rewrite Hsock, Huser, Hpass.
    now destruct (String.eqb_spec (checkmysqldb.Socket m) EmptyString).
  - now intros ->.
  - intros Hp Hp'. apply (last_cut ":"); assumption.
Qed.

(** The default options with a socket path, and with another host. *)
Lemma newDB_target_witness :
  let dsn := fun cfg : mysql.Config =>
    mysql.User cfg ++ "@" ++ mysql.Net cfg ++ "(" ++ mysql.Addr cfg ++ ")/" in
  let open := fun _ name : string => (Some name, @None error) in
  let m := {| checkmysqldb.Host := "localhost"; checkmysqldb.Port := "3306";
              checkmysqldb.Socket := "/var/run/mysqld/mysqld.sock";
              checkmysqldb.User := "root"; checkmysqldb.Pass := EmptyString |} in
  let m' := {| checkmysqldb.Host := "db.example.com"; checkmysqldb.Port := "3307";
               checkmysqldb.Socket := "/var/run/mysqld/mysqld.sock";
               checkmysqldb.User := "root"; checkmysqldb.Pass := EmptyString |} in
  checkmysqldb.newDB dsn open m' = checkmysqldb.newDB dsn open m
  /\ checkmysqldb.newDB dsn open m
     = (Some "root@unix(/var/run/mysqld/mysqld.sock)/", None).
Proof.
  intros dsn open m m'.
  destruct (newDB_target string dsn open m m') as (Hunix & Hsame & _).
  split.
  - apply Hsame; [discriminate|reflexivity|reflexivity|reflexivity].
  - rewrite Hunix by discriminate. reflexivity.
Defined.

(** ** Errors that are returned *)

(** X21. An error that the measurement returns gives UNKNOWN, never
    CRITICAL, whatever the thresholds.

    CloudWatch Logs: when a request of the paginated query returns an error,
    [run] returns UNKNOWN with the error's text; on the scripted service
    this holds for a failure after any number of pages and any parsed
    options; and a CRITICAL result implies that the query returned its
    messages without error.

    NTP offset: when [getNtpOffset] returns an error, [run] returns UNKNOWN
    with its text, and it returns an error when the detection of the daemon
    fails (its command cannot be launched, or root's second call of [Scan]
    on the output of [lsof] yields no line or an empty one), when the daemon
    is neither ntpd nor chronyd,
    when the daemon's query command cannot be launched or ends in error,
    and when its output does not parse; a CRITICAL result implies a
    measured offset above the critical threshold. *)
Theorem returned_error_is_unknown :
  (* CloudWatch Logs *)
  (forall (World : Type) Now Sleep ParseArgs (Session : Type)
          (NewSession : option Session * option error) New
          fuel args (w w' : World) p ms e,
      checkcloudwatchlogs.newCloudwatchLogsPlugin ParseArgs NewSession New args
      = Return (Some p, None) ->
      checkcloudwatchlogs.plugin_run Now Sleep fuel p w
      = Some (Return (w', (ms, Some e))) ->
      checkcloudwatchlogs.run Now Sleep ParseArgs NewSession New fuel args w
      = Some (Return (w', checkers.NewChecker checkers.UNKNOWN e)))
  /\ (forall ParseArgs args opts pages e rest c fuel,
         ParseArgs args = (opts, None) ->
         (length pages < fuel)%nat ->
         exists w',
           checkcloudwatchlogs.run Mock.Now Mock.Sleep ParseArgs
             Mock.NewSession Mock.New fuel args
             (Mock.start c (Mock.tokenPages pages ++ Mock.failure e :: rest)%list)
           = Some (Return (w', checkers.NewChecker checkers.UNKNOWN e)))
  /\ (forall (World : Type) Now Sleep ParseArgs (Session : Type)
             (NewSession : option Session * option error) New
             fuel args (w w' : World) ckr,
         checkcloudwatchlogs.run Now Sleep ParseArgs NewSession New fuel args w
         = Some (Return (w', ckr)) ->
         checkers.status ckr = checkers.CRITICAL ->
         exists p ms,
           checkcloudwatchlogs.newCloudwatchLogsPlugin ParseArgs NewSession New args
           = Return (Some p, None)
           /\ checkcloudwatchlogs.plugin_run Now Sleep fuel p w
              = Some (Return (w', (ms, None))))
  (* NTP offset *)
  /\ (forall ParseArgs h args opts v e,
         ParseArgs args = (opts, None) ->
         checkntpoffset.getNtpOffset h = Return (v, Some e) ->
         checkntpoffset.run ParseArgs h args = Return (checkers.Unknown e))
  /\ (forall h,
         (forall e,
             launchFails
               (if checkntpoffset.Getuid h =? 0
                then checkntpoffset.Command h "lsof" ["-i:123"]
                else checkntpoffset.Command h "ps" ["-eo"; "comm"]) e ->
             checkntpoffset.detectNTPDname h = Return (EmptyString, Some e))
         /\ (checkntpoffset.Getuid h = 0 ->
             launched (checkntpoffset.Command h "lsof" ["-i:123"]) ->
             (forall line,
                 fst (bufio.Scan
                        (snd (bufio.Scan
                                (bufio.NewScanner
                                   (exec.stdout
                                      (checkntpoffset.Command h "lsof" ["-i:123"]))))))
                 = Some line -> line = EmptyString) ->
             checkntpoffset.detectNTPDname h
             = Return (EmptyString, Some checkntpoffset.noNtpErr))
         /\ (forall name e,
                checkntpoffset.detectNTPDname h = Return (name, Some e) ->
                checkntpoffset.getNtpOffset h = Return (float.zero, Some e))
         /\ (forall name,
                checkntpoffset.detectNTPDname h = Return (name, None) ->
                name <> "ntpd" -> name <> "chronyd" ->
                exists e, checkntpoffset.getNtpOffset h = Return (float.zero, Some e))
         /\ (forall name,
                checkntpoffset.detectNTPDname h = Return (name, None) ->
                name = "ntpd" \/ name = "chronyd" ->
                (forall e, launchFails (query h name) e ->
                           checkntpoffset.getNtpOffset h = Return (float.zero, Some e))
                /\ (forall v e,
                       launched (query h name) ->
                       parser name (exec.stdout (query h name)) = (v, Some e) ->
                       checkntpoffset.getNtpOffset h = Return (v, Some e))
                /\ (forall v e,
                       launched (query h name) ->
                       parser name (exec.stdout (query h name)) = (v, None) ->
                       exec.waitErr (query h name) = Some e ->
                       checkntpoffset.getNtpOffset h = Return (v, Some e))))
  /\ (forall ParseArgs h args ckr,
         checkntpoffset.run ParseArgs h args = Return ckr ->
         checkers.status ckr = checkers.CRITICAL ->
         exists offset,
           checkntpoffset.getNtpOffset h = Return (offset, None)
           /\ float.ltb (checkntpoffset.Crit (fst (ParseArgs args))) (float.Abs offset)
              = true).
Proof.
  split; [|split; [|split; [|split; [|split]]]].
  - intros World Now Sleep ParseArgs Session NewSession New fuel args w w' p ms e
           Hnew Hrun.
    unfold checkcloudwatchlogs.run. now rewrite Hnew, Hrun.
  - intros ParseArgs args opts pages e rest c fuel Hparse Hfuel.
    unfold checkcloudwatchlogs.run, checkcloudwatchlogs.newCloudwatchLogsPlugin.
    rewrite Hparse. cbn [checkcloudwatchlogs.createService Mock.NewSession].
    unfold checkcloudwatchlogs.plugin_run, Mock.start.
    match goal with
    | |- context [checkcloudwatchlogs.run_loop _ _ _ ?p _ _ _] =>
        destruct (run_loop_pages_failure p eq_refl pages e rest fuel None [] c [] Hfuel)
          as (w' & Hrun & _)
    end.
    exists w'. now rewrite Hrun.
  - intros World Now Sleep ParseArgs Session NewSession New fuel args w w' ckr
           Hrun Hcrit.
    unfold checkcloudwatchlogs.run in Hrun.
    destruct (checkcloudwatchlogs.newCloudwatchLogsPlugin ParseArgs NewSession New args)
      as [[[p|] [e|]]| |] eqn:Hnew; try discriminate Hrun;
      try (injection Hrun as <- <-; discriminate Hcrit).
    destruct (checkcloudwatchlogs.plugin_run Now Sleep fuel p w)
      as [[[w1 [ms [e|]]]| |]|] eqn:Hquery; try discriminate Hrun;
      injection Hrun as <- <-; [discriminate Hcrit|].
    exists p, ms. split; [reflexivity|exact Hquery].
  - intros ParseArgs h args opts v e Hparse Hoffset.
    unfold checkntpoffset.run. now rewrite Hparse, Hoffset.
  - intros h. split; [|split; [|split; [|split]]].
    + intros e. apply detect_launch.
    + apply detect_no_daemon.
    + apply getNtpOffset_detect.
    + intros name Hd H1 H2. eexists. exact (getNtpOffset_unsupported h name Hd H1 H2).
    + intros name Hd Hn. split; [|split].
      * intros e. exact (getNtpOffset_launch h name e Hd Hn).
      * intros v e. exact (getNtpOffset_parse h name v e Hd Hn).
      * intros v e. exact (getNtpOffset_wait h name v e Hd Hn).
  - intros ParseArgs h args ckr Hrun Hcrit.
    unfold checkntpoffset.run in Hrun.
    destruct (ParseArgs args) as [opts [e|]]; [discriminate Hrun|].
    destruct (checkntpoffset.getNtpOffset h) as [[offset [e|]]| |];
      try discriminate Hrun; cbn [bind] in Hrun; injection Hrun as <-.
    + discriminate Hcrit.
    + exists offset. split; [reflexivity|]. now apply classify_status.
Qed.

(** A failed second request with the thresholds 5 and 10 on the command
    line, and a host on which [chronyc] cannot be launched. *)
Lemma returned_error_is_unknown_witness :
  (exists w',
      checkcloudwatchlogs.run Mock.Now Mock.Sleep Mock.ParseArgs
        Mock.NewSession Mock.New 2 Mock.argv
        (Mock.start 1700000000000000000
           (Mock.tokenPages [(["a"; "b"], "t1")]
              ++ Mock.failure "RequestError: send request failed" :: [])%list)
      = Some (Return (w', checkers.NewChecker checkers.UNKNOWN
                            "RequestError: send request failed")))
  /\ checkntpoffset.run MockHost.ParseArgs
       (MockHost.chronyHost (MockHost.notFound "chronyc")) ["--critical"; "0"]
     = Return (checkers.Unknown
                 (String.append "exec: "
                    (String.append (strconv.Quote "chronyc")
                       ": executable file not found in $PATH"))).
Proof.
  destruct returned_error_is_unknown as (_ & Hcw & _ & Hntp & _).
  split.
  - apply (Hcw Mock.ParseArgs Mock.argv (fst (Mock.ParseArgs Mock.argv))).
    + reflexivity.
    + cbn. lia.
  - apply (Hntp MockHost.ParseArgs _ ["--critical"; "0"]
             (fst (MockHost.ParseArgs ["--critical"; "0"])) float.zero).
    + vm_compute. reflexivity.
    + vm_compute. reflexivity.
Defined.

(** ** The first line of [lsof] that does not fit the buffer *)

Section LongLineFacts.

(** The buffer fills up before a line feed comes. *)
Lemma scanToken_fill chunk more : forall cur n,
  count (byte 10) chunk = 0%nat -> chunk <> EmptyString ->
  n + len chunk = bufio.MaxScanTokenSize ->
  bufio.scanToken false cur n (chunk ++ more)
  = (None, {| bufio.pending := rev_string EmptyString (rev_string cur chunk);
              bufio.tooLong := true |}).
Proof.
  unfold len. induction chunk as [|c chunk IH]; intros cur n Hc Hne Hlen;
    [now elim Hne|].
  cbn [count] in Hc. destruct (Ascii.eqb c (byte 10)) eqn:E; [discriminate Hc|].
  change (String c chunk ++ more) with (String c (chunk ++ more)).
  cbn [bufio.scanToken negb andb]. rewrite E.
  cbn [String.length] in Hlen.
  destruct (Z.leb_spec bufio.MaxScanTokenSize (n + 1)) as [Hfull|Hroom].
  - destruct chunk as [|d chunk]; [reflexivity|]. cbn [String.length] in Hlen. lia.
  - cbn [rev_string]. apply IH; [exact Hc| |lia].
    intros ->. cbn [String.length] in Hlen. lia.
Qed.

(** Once [ErrTooLong] is set, what is buffered is the last line. *)
Lemma scanToken_buffered chunk : forall cur n,
  count (byte 10) chunk = 0%nat -> 0 <= n -> 0 < n + len chunk ->
  bufio.scanToken true cur n chunk
  = (Some (rev_string EmptyString (bufio.dropCR (rev_string cur chunk))),
     {| bufio.pending := EmptyString; bufio.tooLong := true |}).
Proof.
  unfold len. induction chunk as [|c chunk IH]; intros cur n Hc Hn Hlen.
  - cbn [bufio.scanToken rev_string]. cbn [String.length] in Hlen.
    destruct (Z.ltb_spec 0 n); [reflexivity|lia].
  - cbn [count] in Hc. destruct (Ascii.eqb c (byte 10)) eqn:E; [discriminate Hc|].
    cbn [bufio.scanToken negb andb rev_string]. rewrite E.
    apply IH; [exact Hc|lia|]. cbn [String.length] in Hlen. lia.
Qed.

Lemma Scan_long_line (r : Reader) chunk more :
  data r = chunk ++ more ->
  len chunk = bufio.MaxScanTokenSize -> count (byte 10) chunk = 0%nat ->
  let scr := {| bufio.pending := chunk; bufio.tooLong := true |} in
  bufio.Scan (bufio.NewScanner r) = (None, scr)
  /\ bufio.Scan scr
     = (Some (chomp chunk), {| bufio.pending := EmptyString; bufio.tooLong := true |})
  /\ bufio.lines r = [].
Proof.
  intros Hdata Hlen Hc scr. subst scr.
  assert (Hne : chunk <> EmptyString).
  { intros ->. vm_compute in Hlen. discriminate Hlen. }
  assert (Hfirst : bufio.Scan (bufio.NewScanner r)
                   = (None, {| bufio.pending := chunk; bufio.tooLong := true |})).
  { unfold bufio.Scan, bufio.NewScanner. cbn [bufio.pending bufio.tooLong].
    rewrite Hdata, (scanToken_fill chunk more EmptyString 0 Hc Hne) by lia.
    now rewrite rev_string_involutive. }
  split; [exact Hfirst|]. split.
  - unfold bufio.Scan, chomp. cbn [bufio.pending bufio.tooLong].
    apply scanToken_buffered; [exact Hc|lia|].
    rewrite Hlen. reflexivity.
  - unfold bufio.lines. destruct (lines_Scan (data r)) as [-> _].
    unfold bufio.NewScanner in Hfirst. now rewrite Hfirst.
Qed.

End LongLineFacts.

(** X22. Root, and a first line of [lsof] that does not fit the scanner's
    buffer: its first 64 KiB hold no line feed.  The first call of [Scan],
    whose result the code does not look at, fails and leaves the buffer to
    the second call, which returns those 64 KiB (less a final carriage
    return) as its line.  So the daemon name is the base name of the first
    field of the beginning of the first line, whatever follows it in the
    output; a loop over the lines of the same output would see no line. *)
Theorem detectNTPDname_root_long_line (h : checkntpoffset.Host)
  (chunk more f0 : string) (fs : list string) :
  let lsof := checkntpoffset.Command h "lsof" ["-i:123"] in
  checkntpoffset.Getuid h = 0 ->
  launched lsof ->
  data (exec.stdout lsof) = chunk ++ more ->
  len chunk = bufio.MaxScanTokenSize -> count (byte 10) chunk = 0%nat ->
  gostrings.Fields (chomp chunk) = f0 :: fs ->
  checkntpoffset.detectNTPDname h = Return (filepath.Base f0, exec.waitErr lsof)
  /\ bufio.lines (exec.stdout lsof) = [].
Proof.
  intros lsof Huid [Hpipe Hstart] Hdata Hlen Hc Hf. subst lsof.
  destruct (Scan_long_line _ chunk more Hdata Hlen Hc) as (H1 & H2 & Hlines).
  split; [|exact Hlines].
  unfold checkntpoffset.detectNTPDname. rewrite Huid. cbn [Z.eqb].
  apply withCmd_wait; trivial. rewrite H1, H2.
  destruct (String.eqb_spec (chomp chunk) EmptyString) as [E|_].
  - rewrite E in Hf. discriminate Hf.
  - now rewrite Hf.
Qed.

(** A first line that begins with [ntpd] and goes on with blanks for
    64 KiB and more, before the line of a chronyd. *)
Lemma detectNTPDname_root_long_line_witness :
  let first := "ntpd" ++ blanks (Z.to_nat 65532) in
  checkntpoffset.detectNTPDname
    (MockHost.host 0
       (MockHost.prints (first ++ "        " ++ LF ++ "chronyd 812" ++ LF))
       (MockHost.notFound "ps") (MockHost.notFound "ntpq")
       (MockHost.notFound "chronyc") None)
  = Return ("ntpd", None).
Proof.
  intros first.
  refine (proj1 (detectNTPDname_root_long_line
                   (MockHost.host 0
                      (MockHost.prints (first ++ "        " ++ LF ++ "chronyd 812" ++ LF))
                      (MockHost.notFound "ps") (MockHost.notFound "ntpq")
                      (MockHost.notFound "chronyc") None)
                   first ("        " ++ LF ++ "chronyd 812" ++ LF) "ntpd" []
                   _ _ _ _ _ _)).
  - reflexivity.
  - split; reflexivity.
  - reflexivity.
  - vm_compute. reflexivity.
  - vm_compute. reflexivity.
  - vm_compute. reflexivity.
Defined.
